(** * FeedLoop: the wallet session of [web3-stable.js]

    A shallow embedding of the class [Web3ManagerStable] (the second half of
    [src/js/config.js]) together with the pieces of [UTILS.storage] it calls,
    and the properties of its connection state machine, its reward log and its
    balance derivation.

    JavaScript numbers are IEEE binary64 values: they are modelled by Rocq's
    primitive floats, and [Number.prototype.toFixed] / [ToString] are written
    on the exact value of the float, as ECMAScript defines them.  The browser
    objects the class talks to (DOM, notification sink, wallet provider,
    timers) appear as a trace of outbound calls; [Date.now], [Math.random] and
    the failures of [localStorage] are oracles of the ambient environment.

    An [async] method is cut at its [await]s into the pieces that run
    without interruption: [connectWallet_start] up to the request for
    accounts, [connectWallet_accounts] from the provider's answer to the
    network check, [connectWallet_network] from there to the end, and
    likewise for [connectDemoWallet]. The transition system [step] lets
    anything else happen in between. The three rendering methods
    ([updateUI], [updateConnectingUI], [updateBalanceUI]) are recorded as
    calls with what they render; the DOM itself is not modelled. The start-up
    sequence [init] is not modelled either: the system is taken from any
    state in which no call is in flight. *)

From Stdlib Require Import ZArith NArith List String Ascii Bool Lia.
From Stdlib Require Import Floats DecimalString.
From stdpp Require Import base option gmap strings.
Import ListNotations.

Set Warnings "-inexact-float".
Local Open Scope string_scope.

(* ===================================================================== *)
(** ** JavaScript numbers and strings *)
(* ===================================================================== *)

Module JS.

(** Decimal digits of a natural number: ["0"] for zero, no leading zeros
    otherwise. *)
Definition digits (n : N) : string := NilZero.string_of_uint (N.to_uint n).

(** [s.repeat(n)] for the one-character string ["0"]. *)
Fixpoint zeros (n : nat) : string :=
  match n with
  | O => ""
  | S k => String "0" (zeros k)
  end.

(** [String.prototype.substr(start, length)] for [start >= 0]. *)
Definition substr (s : string) (start len : nat) : string :=
  String.substring start (Nat.min len (String.length s - start)) s.

(** [String.prototype.substr(-k)]: the last [k] characters. *)
Definition substr_last (s : string) (k : nat) : string :=
  let n := String.length s in
  String.substring (n - k) (Nat.min k n) s.

(** A finite binary64 value is [m * 2^e]; the comparisons below are carried
    out on integers after clearing the denominators. *)
Definition pow2 (e : Z) : Z := 2 ^ Z.max e 0.
Definition pow10 (e : Z) : Z := 10 ^ Z.max e 0.

(** [Number.prototype.toFixed(f)] on a non-negative finite [m * 2^e] below
    [1e21]: the integer [n] minimising [|n / 10^f - x|], the larger one on a
    tie, printed with [f] fraction digits. *)
Definition toFixed_nat (f : nat) (m e : Z) : string :=
  let num := (m * 10 ^ Z.of_nat f * pow2 e)%Z in
  let den := pow2 (- e) in
  let n := ((2 * num + den) / (2 * den))%Z in
  let ds := digits (Z.to_N n) in
  match f with
  | O => ds
  | _ =>
      let k := String.length ds in
      let ds' := if (k <=? f)%nat then zeros (f + 1 - k) ++ ds else ds in
      let k' := String.length ds' in
      String.substring 0 (k' - f) ds' ++ "." ++ String.substring (k' - f) f ds'
  end.

(** Decimal position of a positive [m * 2^e]: the [n] with
    [10^(n-1) <= x < 10^n], found by a short scan around the estimate given
    by the binary logarithm. *)
Definition lt_pow10 (m e n : Z) : bool :=
  (m * pow2 e * pow10 (- n) <? pow10 n * pow2 (- e))%Z.

Fixpoint scan_pow10 (fuel : nat) (m e n : Z) : Z :=
  match fuel with
  | O => n
  | S k => if lt_pow10 m e n then n else scan_pow10 k m e (n + 1)
  end.

Definition decimal_exponent (m e : Z) : Z :=
  let est := ((Z.log2 m + e) * 30103 / 100000)%Z in
  scan_pow10 6 m e (est - 2).

(** The shortest digit string that reads back as [m * 2^e]
    (Number::toString, step 5): [k] digits [s] and an exponent [n] such that
    [s * 10^(n-k)] lies in the rounding interval of the float, [k] minimal,
    [s] closest to the value. [boundary] says that the float is the least of
    its binade, where the gap below is half the gap above. *)
Section Shortest.
Variables (m e : Z) (boundary : bool).

Let x4 : Z := (4 * m)%Z.
Let lo4 : Z := if boundary then (4 * m - 1)%Z else (4 * m - 2)%Z.
Let hi4 : Z := (4 * m + 2)%Z.
Let e4 : Z := (e - 2)%Z.

(* [scaled v t]: [v * 2^e4 / 10^t] as a numerator over [den t]. *)
Definition scaled (v t : Z) : Z := (v * pow2 e4 * pow10 (- t))%Z.
Definition den (t : Z) : Z := (pow2 (- e4) * pow10 t)%Z.

Definition inside (c t : Z) : bool :=
  let v := (c * den t)%Z in
  if Z.even m
  then (scaled lo4 t <=? v)%Z && (v <=? scaled hi4 t)%Z
  else (scaled lo4 t <? v)%Z && (v <? scaled hi4 t)%Z.

Definition pick (t : Z) : option Z :=
  let lo := (scaled x4 t / den t)%Z in
  let hi := (lo + 1)%Z in
  let dlo := (scaled x4 t - lo * den t)%Z in
  let dhi := (hi * den t - scaled x4 t)%Z in
  match inside lo t, inside hi t with
  | true, true =>
      if (dlo <? dhi)%Z then Some lo
      else if (dhi <? dlo)%Z then Some hi
      else if Z.even lo then Some lo else Some hi
  | true, false => Some lo
  | false, true => Some hi
  | false, false => None
  end.

Fixpoint shortest_from (fuel : nat) (n k : Z) : Z * Z * Z :=
  match fuel with
  | O => (m, 0%Z, 1%Z)
  | S fuel' =>
      match pick (n - k) with
      | Some s =>
          if (s =? 10 ^ k)%Z then (10 ^ (k - 1), n + 1, k)%Z else (s, n, k)
      | None => shortest_from fuel' n (k + 1)%Z
      end
  end.

Definition shortest : Z * Z * Z :=
  shortest_from 18 (decimal_exponent m e) 1.
End Shortest.

(** Number::toString, steps 6 to 10: the layout of the digits. *)
Definition layout (s n k : Z) : string :=
  let ds := digits (Z.to_N s) in
  let kn := Z.to_nat k in
  if ((k <=? n) && (n <=? 21))%Z then
    ds ++ zeros (Z.to_nat (n - k))
  else if ((0 <? n) && (n <=? 21))%Z then
    String.substring 0 (Z.to_nat n) ds ++ "." ++
    String.substring (Z.to_nat n) (kn - Z.to_nat n) ds
  else if ((-6 <? n) && (n <=? 0))%Z then
    "0." ++ zeros (Z.to_nat (- n)) ++ ds
  else
    let ex := (n - 1)%Z in
    let sign := if (ex <? 0)%Z then "-" else "+" in
    let mant :=
      if (k =? 1)%Z then ds
      else String.substring 0 1 ds ++ "." ++ String.substring 1 (kn - 1) ds in
    mant ++ "e" ++ sign ++ digits (Z.abs_N ex).

Definition toString_pos (m e : Z) : string :=
  let boundary := ((m =? 2 ^ 52) && (-1074 <? e))%Z in
  let '(s, n, k) := shortest m e boundary in
  layout s n k.

(** Number::toString(x), radix 10. *)
Definition toString (x : float) : string :=
  match Prim2SF x with
  | S754_nan => "NaN"
  | S754_zero _ => "0"
  | S754_infinity false => "Infinity"
  | S754_infinity true => "-Infinity"
  | S754_finite sg m e =>
      (if sg then "-" else "") ++ toString_pos (Z.pos m) e
  end.

(** [x.toFixed(f)]: non-finite values and values of magnitude [1e21] or more
    are printed by [toString]; the sign is kept for negative values, also
    when they round to zero. *)
Definition toFixed (x : float) (f : nat) : string :=
  match Prim2SF x with
  | S754_zero _ => toFixed_nat f 0 0
  | S754_finite sg m e =>
      if negb (lt_pow10 (Z.pos m) e 21) then toString x
      else (if sg then "-" else "") ++ toFixed_nat f (Z.pos m) e
  | _ => toString x
  end.

(** The number with the value of a non-negative integer (exact below
    [2^53], which array lengths and millisecond clocks are). *)
Definition ofN (n : N) : float := PrimFloat.of_uint63 (Uint63.of_Z (Z.of_N n)).

End JS.

(* ===================================================================== *)
(** ** Data model *)
(* ===================================================================== *)

(** The [status] of a reward record. *)
Inductive TxStatus := simulated | confirmed | tracked.

(** A reward record, as built by [simulateReward], [sendDemoReward] and
    [trackReward]; [demo] is the optional [demo: true] of demo records, and
    [to] is [None] when the caller passed a [null] recipient. *)
Record Transaction := mkTransaction {
  hash : string;
  from : string;
  to : option string;
  amount : float;
  timestamp : N;
  status : TxStatus;
  type : string;
  demo : bool
}.

(** The instance fields set by the constructor of [Web3ManagerStable].
    [web3] and [initializationTimeout] only record whether the field holds
    an object or is [null]. *)
Record Web3ManagerStable := mkManager {
  web3 : bool;
  account : option string;
  isConnected : bool;
  isConnecting : bool;
  isInitialized : bool;
  enabled : bool;
  demoMode : bool;
  rewardPoolAddress : string;
  transactionHistory : list Transaction;
  connectionAttempts : N;
  maxConnectionAttempts : N;
  eventListenersSetup : bool;
  initializationTimeout : bool
}.

(** The fields as the constructor assigns them (config.js:673-685). Its
    call of [init()] then stores the handle of the initialization timer in
    [initializationTimeout] before the first [await], and nothing resets
    that field afterwards: see [started]. *)
Definition constructor : Web3ManagerStable :=
  {| web3 := false; account := None; isConnected := false;
     isConnecting := false; isInitialized := false; enabled := true;
     demoMode := false;
     rewardPoolAddress := "0x694B31c92E618d24D254bb10e7BF22a4a3C1151b";
     transactionHistory := []; connectionAttempts := 0;
     maxConnectionAttempts := 3; eventListenersSetup := false;
     initializationTimeout := false |}.

Definition set_account (v : option string) (m : Web3ManagerStable) :=
  mkManager (web3 m) v (isConnected m) (isConnecting m) (isInitialized m)
    (enabled m) (demoMode m) (rewardPoolAddress m) (transactionHistory m)
    (connectionAttempts m) (maxConnectionAttempts m) (eventListenersSetup m)
    (initializationTimeout m).
Definition set_isConnected (v : bool) (m : Web3ManagerStable) :=
  mkManager (web3 m) (account m) v (isConnecting m) (isInitialized m)
    (enabled m) (demoMode m) (rewardPoolAddress m) (transactionHistory m)
    (connectionAttempts m) (maxConnectionAttempts m) (eventListenersSetup m)
    (initializationTimeout m).
Definition set_isConnecting (v : bool) (m : Web3ManagerStable) :=
  mkManager (web3 m) (account m) (isConnected m) v (isInitialized m)
    (enabled m) (demoMode m) (rewardPoolAddress m) (transactionHistory m)
    (connectionAttempts m) (maxConnectionAttempts m) (eventListenersSetup m)
    (initializationTimeout m).
Definition set_isInitialized (v : bool) (m : Web3ManagerStable) :=
  mkManager (web3 m) (account m) (isConnected m) (isConnecting m) v
    (enabled m) (demoMode m) (rewardPoolAddress m) (transactionHistory m)
    (connectionAttempts m) (maxConnectionAttempts m) (eventListenersSetup m)
    (initializationTimeout m).
Definition set_demoMode (v : bool) (m : Web3ManagerStable) :=
  mkManager (web3 m) (account m) (isConnected m) (isConnecting m)
    (isInitialized m) (enabled m) v (rewardPoolAddress m)
    (transactionHistory m) (connectionAttempts m) (maxConnectionAttempts m)
    (eventListenersSetup m) (initializationTimeout m).
Definition set_transactionHistory (v : list Transaction)
    (m : Web3ManagerStable) :=
  mkManager (web3 m) (account m) (isConnected m) (isConnecting m)
    (isInitialized m) (enabled m) (demoMode m) (rewardPoolAddress m) v
    (connectionAttempts m) (maxConnectionAttempts m) (eventListenersSetup m)
    (initializationTimeout m).
Definition set_connectionAttempts (v : N) (m : Web3ManagerStable) :=
  mkManager (web3 m) (account m) (isConnected m) (isConnecting m)
    (isInitialized m) (enabled m) (demoMode m) (rewardPoolAddress m)
    (transactionHistory m) v (maxConnectionAttempts m)
    (eventListenersSetup m) (initializationTimeout m).

(** *** The browser around the manager *)

(** [window.ethereum], as far as [isMetaMaskAvailable] reads it. *)
Record Provider := { isMetaMask : bool; provider_isConnecting : bool }.

(** What [JSON.parse] yields for a stored item: an array or anything else. *)
Inductive Entry := EntryTx (t : Transaction) | EntryOther.
Inductive Payload := PArray (items : list Entry) | POther.

(** An item of [localStorage]: text that does not parse, the wrapper
    [{value, timestamp, version}] written by [UTILS.storage.set], or a bare
    value in the old format. *)
Inductive Item :=
| Malformed
| Wrapped (value : Payload) (stamp : N) (version : string)
| Bare (p : Payload).

Inductive Level := log | warn | error.

(** The callbacks handed to [setTimeout]. *)
Inductive Callback :=
| cb_demoNotice | cb_resolve | cb_loadBalance | cb_loadDemoBalance.

(** Outbound calls, in the order they are made: the console, the
    notification sink [showNotification(message, type, duration)], the three
    rendering methods with what they render, requests to the wallet
    provider, and timers. *)
Inductive Event :=
| Console (l : Level) (text : string)
| ShowNotification (message type : string) (duration : N)
| UpdateUI (connected : bool) (label : string)
| UpdateConnectingUI
| UpdateBalanceUI (nativeBalance shmBalance : string)
| ProviderRequest (method : string)
| SetTimeout (cb : Callback) (ms : N)
| ClearTimeout.

(** Everything the methods read and write. [draws] counts the readings
    taken so far from the oracles of the environment. *)
Record World := mkWorld {
  this : Web3ManagerStable;
  ethereum : option Provider;
  localStorage : gmap string Item;
  trace : list Event;
  draws : nat
}.

(** The globals the methods test for with [typeof], and the oracles:
    the n-th reading of [Date.now()], of [Math.random().toString(36)], and
    whether the n-th reading finds [localStorage.setItem] throwing. *)
Record Ambient := {
  showNotification_defined : bool;
  UTILS_storage_defined : bool;
  Date_now : nat -> N;
  Math_random_toString36 : nat -> string;
  setItem_throws : nat -> bool
}.

(** A thrown value: [error.code] (when it has one) and [error.message]. *)
Record JsError := { code : option Z; message : string }.

(** *** Computations that may throw *)

Inductive Outcome (A : Type) :=
| Returned (a : A) (w : World)
| Thrown (e : JsError) (w : World).
Arguments Returned {A} a w.
Arguments Thrown {A} e w.

Definition M (A : Type) : Type := World -> Outcome A.

Definition ret {A} (a : A) : M A := fun w => Returned a w.
Definition throw {A} (e : JsError) : M A := fun w => Thrown e w.
Definition bind {A B} (c : M A) (k : A -> M B) : M B :=
  fun w => match c w with
           | Returned a w' => k a w'
           | Thrown e w' => Thrown e w'
           end.

Declare Scope js_scope.
Delimit Scope js_scope with js.
Notation "x <- c ;; k" := (bind c (fun x => k))
  (at level 100, c at next level, k at level 200, right associativity)
  : js_scope.
Notation "c ;; k" := (bind c (fun _ => k))
  (at level 100, k at level 200, right associativity) : js_scope.

(** [try { body } catch (e) { handler e }] *)
Definition try_catch {A} (body : M A) (handler : JsError -> M A) : M A :=
  fun w => match body w with
           | Returned a w' => Returned a w'
           | Thrown e w' => handler e w'
           end.

Definition get_this : M Web3ManagerStable := fun w => Returned (this w) w.
Definition update_this (f : Web3ManagerStable -> Web3ManagerStable) : M unit :=
  fun w => Returned tt
    (mkWorld (f (this w)) (ethereum w) (localStorage w) (trace w) (draws w)).
Definition emit (e : Event) : M unit :=
  fun w => Returned tt
    (mkWorld (this w) (ethereum w) (localStorage w) (trace w ++ [e]) (draws w)).
Definition draw {A} (oracle : nat -> A) : M A :=
  fun w => Returned (oracle (draws w))
    (mkWorld (this w) (ethereum w) (localStorage w) (trace w) (S (draws w))).
Definition when (b : bool) (c : M unit) : M unit := if b then c else ret tt.

(** The world a computation leaves behind, and its result. *)
Definition world_of {A} (o : Outcome A) : World :=
  match o with Returned _ w => w | Thrown _ w => w end.
Definition value_of {A} (o : Outcome A) : option A :=
  match o with Returned a _ => Some a | Thrown _ _ => None end.

(* ===================================================================== *)
(** ** The methods *)
(* ===================================================================== *)

Local Open Scope js_scope.

(** What a wallet provider answers to a request. *)
Inductive Response (A : Type) := Fulfilled (a : A) | Rejected (e : JsError).
Arguments Fulfilled {A} a.
Arguments Rejected {A} e.

(** The provider's answers to the requests of [ensureCorrectNetwork] and
    [switchNetwork]. *)
Record NetworkAnswers := {
  eth_chainId : Response string;
  wallet_switchEthereumChain : Response unit;
  wallet_addEthereumChain : Response unit
}.

(** Where an [async] method is parked on an [await]. *)
Inductive Suspension :=
| AwaitRequestAccounts
| AwaitEnsureNetwork (requested : bool)
| AwaitDemoDelay.

(** An [async] call either has settled with a value or is parked. *)
Inductive Async (A : Type) := Settled (a : A) | Pending (s : Suspension).
Arguments Settled {A} a.
Arguments Pending {A} s.

(** [try { body } catch (e) { handler } finally { final }] around a body
    that may park: a parked body runs neither block yet. *)
Definition protected {A} (body : M (Async A)) (handler : JsError -> M (Async A))
    (final : M unit) : M (Async A) :=
  fun w =>
    match body w with
    | Returned (Pending s) w' => Returned (Pending s) w'
    | Returned (Settled a) w' => (final ;; ret (Settled a)) w'
    | Thrown e w' =>
        match handler e w' with
        | Returned r w'' => (final ;; ret r) w''
        | Thrown e' w'' => (final ;; throw e') w''
        end
    end.

Module CONFIG.
Definition STORAGE_PREFIX : string := "campusfeedback_".
Definition STORAGE_VERSION : string := "2.0".
Definition NETWORK_chainId : string := "0x89".
End CONFIG.

Section Methods.

Variable amb : Ambient.

(** *** [UTILS.storage] *)

Definition JSON_parse (it : Item) : M Payload :=
  match it with
  | Malformed => throw {| code := None; message := "SyntaxError" |}
  | Wrapped value _ _ => ret value
  | Bare p => ret p
  end.

Definition storage_get (key : string) : M (option Payload) :=
  try_catch
    (w <- (fun w => Returned w w) ;;
     match localStorage w !! (CONFIG.STORAGE_PREFIX ++ key) with
     | None => ret None
     | Some it => parsed <- JSON_parse it ;; ret (Some parsed)
     end)
    (fun e =>
       emit (Console error ("Error reading from storage: " ++ message e)) ;;
       ret None).

Definition localStorage_setItem (key : string) (it : Item) : M unit :=
  fails <- draw (setItem_throws amb) ;;
  if fails : bool then throw {| code := None; message := "QuotaExceededError" |}
  else fun w =>
    Returned tt (mkWorld (this w) (ethereum w) (<[key := it]> (localStorage w))
                         (trace w) (draws w)).

Definition storage_set (key : string) (value : Payload) : M bool :=
  try_catch
    (now <- draw (Date_now amb) ;;
     localStorage_setItem (CONFIG.STORAGE_PREFIX ++ key)
       (Wrapped value now CONFIG.STORAGE_VERSION) ;;
     ret true)
    (fun e =>
       emit (Console error ("Error writing to storage: " ++ message e)) ;;
       ret false).

Definition isArray_or_empty (data : option Payload) : list Entry :=
  match data with
  | Some (PArray items) => items
  | _ => []
  end.

Definition getFeedbacks : M (list Entry) :=
  data <- storage_get "feedbacks" ;; ret (isArray_or_empty data).

Definition getReports : M (list Entry) :=
  data <- storage_get "reports" ;; ret (isArray_or_empty data).

(** *** Notifications and rendering *)

(** [showNotification(message, type, duration = 5000)], called only behind
    [typeof showNotification === 'function']. *)
Definition showNotification (message type : string) (duration : option N)
    : M unit :=
  when (showNotification_defined amb)
       (emit (ShowNotification message type (default 5000%N duration))).

Definition formatAddress (address : option string) : string :=
  match address with
  | None | Some "" => ""
  | Some a => JS.substr a 0 6 ++ "..." ++ JS.substr_last a 4
  end.

Definition truthy (address : option string) : bool :=
  match address with
  | None | Some "" => false
  | Some _ => true
  end.

Definition updateUI : M unit :=
  m <- get_this ;;
  if isConnected m && truthy (account m) then
    let walletType := if demoMode m then " (Demo)" else "" in
    emit (UpdateUI true (formatAddress (account m) ++ walletType))
  else
    let buttonText :=
      if demoMode m then "Connect Demo Wallet" else "Connect Wallet" in
    emit (UpdateUI false buttonText).

Definition updateConnectingUI : M unit := emit UpdateConnectingUI.

Definition updateBalanceUI (nativeBalance shmBalance : string) : M unit :=
  emit (UpdateBalanceUI nativeBalance shmBalance).

(** *** Balance *)

Definition getUserContributionCount : M N :=
  try_catch
    (if UTILS_storage_defined amb then
       feedbacks <- getFeedbacks ;;
       reports <- getReports ;;
       ret (N.of_nat (length feedbacks) + N.of_nat (length reports))%N
     else ret 0%N)
    (fun e =>
       emit (Console warn ("Error getting contribution count: " ++ message e)) ;;
       ret 0%N).

Definition loadDemoBalance : M unit :=
  userContributions <- getUserContributionCount ;;
  let shmBalance :=
    JS.toFixed (0.123 + JS.ofN userContributions * 0.01)%float 3 in
  updateBalanceUI "2.456" shmBalance.

Definition loadBalance : M unit :=
  m <- get_this ;;
  if demoMode m then loadDemoBalance
  else if negb (truthy (account m)) || negb (web3 m) then ret tt
  else
    try_catch
      (userContributions <- getUserContributionCount ;;
       let shmBalance := JS.toFixed (JS.ofN userContributions * 0.01)%float 3 in
       updateBalanceUI "0.000" shmBalance)
      (fun e => emit (Console warn ("⚠️ Balance loading error: " ++ message e))).

(** *** Connection *)

Definition isMetaMaskAvailable : M bool :=
  fun w => Returned
    (match ethereum w with
     | None => false
     | Some p => isMetaMask p && negb (provider_isConnecting p)
     end) w.

Definition createDemoInterface : M unit :=
  emit (Console log "🎭 Demo interface ready").

Definition enableDemoMode : M unit :=
  update_this (set_demoMode true) ;;
  update_this (set_isInitialized true) ;;
  update_this (set_isConnecting false) ;;
  m <- get_this ;;
  when (initializationTimeout m) (emit ClearTimeout) ;;
  emit (Console log "🎭 Demo mode enabled") ;;
  createDemoInterface ;;
  updateUI ;;
  emit (SetTimeout cb_demoNotice 2000).

(** The callback [enableDemoMode] schedules. *)
Definition demoNotice : M unit :=
  showNotification "🎭 Demo Mode: Full blockchain simulation active!" "info"
    (Some 5000%N).

(** [switchNetwork]: when the provider has gone by the time of the call,
    [window.ethereum.request] throws a [TypeError] inside the [try]; it has
    no [code], so the [catch] block does nothing and no request is made. *)
Definition switchNetwork (ans : NetworkAnswers) : M unit :=
  w <- (fun w => Returned w w) ;;
  if bool_decide (is_Some (ethereum w)) then
    emit (ProviderRequest "wallet_switchEthereumChain") ;;
    match wallet_switchEthereumChain ans with
    | Fulfilled _ => emit (Console log "✅ Network switched successfully")
    | Rejected switchError =>
        if decide (code switchError = Some 4902%Z) then
          emit (ProviderRequest "wallet_addEthereumChain") ;;
          match wallet_addEthereumChain ans with
          | Fulfilled _ => emit (Console log "✅ Network added successfully")
          | Rejected addError =>
              emit (Console error ("❌ Error adding network: " ++ message addError))
          end
        else ret tt
    end
  else ret tt.

(** [ensureCorrectNetwork] up to its first [await]: the guard and the
    [eth_chainId] request. The result says whether the request was made. *)
Definition ensureCorrectNetwork_start : M bool :=
  m <- get_this ;;
  w <- (fun w => Returned w w) ;;
  if demoMode m || negb (bool_decide (is_Some (ethereum w))) then ret false
  else emit (ProviderRequest "eth_chainId") ;; ret true.

(** ... and from the provider's answer on. *)
Definition ensureCorrectNetwork_finish (requested : bool) (ans : NetworkAnswers)
    : M unit :=
  if requested then
    match eth_chainId ans with
    | Fulfilled chainId =>
        if decide (chainId = CONFIG.NETWORK_chainId) then ret tt
        else
          emit (Console log "🔄 Switching to correct network...") ;;
          switchNetwork ans
    | Rejected e => emit (Console warn ("⚠️ Network check error: " ++ message e))
    end
  else ret tt.

(** [connectDemoWallet] up to its [await] on the simulated delay ... *)
Definition connectDemoWallet_start : M (Async bool) :=
  m <- get_this ;;
  if isConnecting m then ret (Settled false)
  else
    update_this (set_isConnecting true) ;;
    emit (Console log "🎭 Connecting demo wallet...") ;;
    updateConnectingUI ;;
    showNotification "🔄 Connecting demo wallet..." "info" (Some 2000%N) ;;
    emit (SetTimeout cb_resolve 1500) ;;
    ret (Pending AwaitDemoDelay).

(** ... and after it, through the [finally] block. *)
Definition connectDemoWallet_resume : M (Async bool) :=
  protected
    (update_this (set_account (Some "0x742d35Cc6634C0532925a3b8D98d27f65d3c3eA6")) ;;
     update_this (set_isConnected true) ;;
     updateUI ;;
     loadDemoBalance ;;
     showNotification "🎭 Demo wallet connected! Submit content to earn rewards!"
       "success" (Some 5000%N) ;;
     ret (Settled true))
    (fun e => throw e)
    (update_this (set_isConnecting false)).

(** The [catch] block of [connectWallet]. *)
Definition connectWallet_catch (err : JsError) : M (Async bool) :=
  emit (Console error ("❌ Wallet connection error: " ++ message err)) ;;
  m <- get_this ;;
  (if decide (code err = Some 4001%Z) then
     showNotification "❌ Connection rejected by user" "warning" None
   else if (maxConnectionAttempts m <=? connectionAttempts m)%N then
     showNotification "❌ Connection failed, switching to demo mode" "error" None ;;
     enableDemoMode
   else
     showNotification "❌ Connection failed, please try again" "error" None) ;;
  ret (Settled false).

(** The [finally] block of [connectWallet]. *)
Definition connectWallet_finally : M unit :=
  update_this (set_isConnecting false) ;;
  m <- get_this ;;
  when (negb (demoMode m)) updateUI.

(** [connectWallet] up to its first [await]. *)
Definition connectWallet_start : M (Async bool) :=
  m <- get_this ;;
  if isConnecting m then
    emit (Console log "⚠️ Connection already in progress...") ;;
    ret (Settled false)
  else if demoMode m then connectDemoWallet_start
  else if (maxConnectionAttempts m <=? connectionAttempts m)%N then
    emit (Console log "⚠️ Maximum connection attempts reached, using demo mode") ;;
    enableDemoMode ;;
    ret (Settled false)
  else
    update_this (set_isConnecting true) ;;
    update_this (fun m => set_connectionAttempts (connectionAttempts m + 1)%N m) ;;
    protected
      (m <- get_this ;;
       emit (Console log
               ("🔌 Connecting to MetaMask (attempt " ++
                JS.digits (connectionAttempts m) ++ "/" ++
                JS.digits (maxConnectionAttempts m) ++ ")...")) ;;
       available <- isMetaMaskAvailable ;;
       if available : bool then
         updateConnectingUI ;;
         emit (ProviderRequest "eth_requestAccounts") ;;
         ret (Pending AwaitRequestAccounts)
       else throw {| code := None; message := "MetaMask not available" |})
      connectWallet_catch
      connectWallet_finally.

(** [connectWallet] from the answer to [eth_requestAccounts] up to the
    [await] on [ensureCorrectNetwork]. An answer that is not an array counts
    as the empty list. *)
Definition connectWallet_accounts (answer : Response (list string))
    : M (Async bool) :=
  protected
    (match answer with
     | Rejected e => throw e
     | Fulfilled [] => throw {| code := None; message := "No accounts returned" |}
     | Fulfilled (a :: _) =>
         update_this (set_account (Some a)) ;;
         update_this (set_isConnected true) ;;
         update_this (set_connectionAttempts 0) ;;
         emit (Console log ("✅ Wallet connected: " ++ formatAddress (Some a))) ;;
         requested <- ensureCorrectNetwork_start ;;
         ret (Pending (AwaitEnsureNetwork requested))
     end)
    connectWallet_catch
    connectWallet_finally.

(** [connectWallet] from there to its end. ([loadBalance] has no [await]
    of its own, so nothing runs between it and the rest.) *)
Definition connectWallet_network (requested : bool) (ans : NetworkAnswers)
    : M (Async bool) :=
  protected
    (ensureCorrectNetwork_finish requested ans ;;
     updateUI ;;
     loadBalance ;;
     showNotification "✅ Wallet connected successfully!" "success" (Some 4000%N) ;;
     ret (Settled true))
    connectWallet_catch
    connectWallet_finally.

Definition disconnectWallet : M unit :=
  m <- get_this ;;
  if isConnecting m then
    emit (Console log "⚠️ Cannot disconnect while connecting")
  else
    emit (Console log "👋 Disconnecting wallet...") ;;
    update_this (set_account None) ;;
    update_this (set_isConnected false) ;;
    update_this (set_connectionAttempts 0) ;;
    updateUI ;;
    m <- get_this ;;
    let walletType := if demoMode m then "Demo wallet" else "Wallet" in
    showNotification ("👋 " ++ walletType ++ " disconnected") "info" None.

(** *** Provider events *)

Definition handleAccountsChanged (accounts : list string) : M unit :=
  m <- get_this ;;
  if isConnecting m then
    emit (Console log "⚠️ Ignoring account change during connection")
  else
    emit (Console log "🔄 Handling account change...") ;;
    match accounts with
    | [] =>
        if isConnected m then
          emit (Console log "❌ No accounts, disconnecting") ;;
          disconnectWallet
        else ret tt
    | newAccount :: _ =>
        if decide (account m = Some newAccount) then ret tt
        else
          emit (Console log ("🔄 Account switched to: " ++
                             formatAddress (Some newAccount))) ;;
          update_this (set_account (Some newAccount)) ;;
          update_this (set_isConnected true) ;;
          updateUI ;;
          loadBalance
    end.

Definition handleDisconnect : M unit :=
  m <- get_this ;;
  if isConnecting m then ret tt
  else
    emit (Console log "🔌 Handling disconnect...") ;;
    disconnectWallet.

(** *** Rewards *)

Definition recordTransaction (transaction : Transaction) : M unit :=
  update_this (fun m =>
    set_transactionHistory (transaction :: transactionHistory m) m) ;;
  m <- get_this ;;
  when (50 <? length (transactionHistory m))%nat
    (update_this (set_transactionHistory (take 50 (transactionHistory m)))) ;;
  m <- get_this ;;
  if UTILS_storage_defined amb then
    storage_set "transaction_history"
      (PArray (map EntryTx (transactionHistory m))) ;;
    ret tt
  else ret tt.

(** The hash [`${prefix}${Date.now()}${Math.random().toString(36).substr(2, 6)}`]. *)
Definition freshHash (prefix : string) : M string :=
  now <- draw (Date_now amb) ;;
  random <- draw (Math_random_toString36 amb) ;;
  ret (prefix ++ JS.digits now ++ JS.substr random 2 6).

Definition simulateReward (amount : float) : M string :=
  m <- get_this ;;
  h <- freshHash "0xsim" ;;
  now <- draw (Date_now amb) ;;
  let rewardTx :=
    {| hash := h; from := rewardPoolAddress m; to := Some "Pending Connection";
       amount := amount; timestamp := now; status := simulated;
       type := "reward"; demo := false |} in
  recordTransaction rewardTx ;;
  showNotification
    ("🪙 You earned " ++ JS.toString amount ++
     " SHM! Connect wallet to track rewards.") "success" (Some 5000%N) ;;
  ret (hash rewardTx).

Definition sendDemoReward (recipientAddress : option string) (amount : float)
    : M string :=
  m <- get_this ;;
  h <- freshHash "0xdemo" ;;
  now <- draw (Date_now amb) ;;
  let demoTx :=
    {| hash := h; from := rewardPoolAddress m; to := recipientAddress;
       amount := amount; timestamp := now; status := confirmed;
       type := "reward"; demo := true |} in
  recordTransaction demoTx ;;
  showNotification
    ("🎉 Demo reward earned! +" ++ JS.toString amount ++ " SHM tokens!")
    "success" (Some 6000%N) ;;
  emit (SetTimeout cb_loadDemoBalance 1000) ;;
  ret (hash demoTx).

Definition trackReward (recipientAddress : option string) (amount : float)
    : M string :=
  m <- get_this ;;
  h <- freshHash "0xtrack" ;;
  now <- draw (Date_now amb) ;;
  let trackTx :=
    {| hash := h; from := rewardPoolAddress m; to := recipientAddress;
       amount := amount; timestamp := now; status := tracked;
       type := "reward"; demo := false |} in
  recordTransaction trackTx ;;
  showNotification
    ("🎉 Reward earned! +" ++ JS.toString amount ++
     " SHM added to your balance!") "success" (Some 6000%N) ;;
  emit (SetTimeout cb_loadBalance 1000) ;;
  ret (hash trackTx).

(** [sendReward(recipientAddress, amount = 0.01)]: [None] is the omitted
    argument. *)
Definition sendReward (recipientAddress : option string) (amount : option float)
    : M string :=
  let amount := default 0.01%float amount in
  m <- get_this ;;
  if negb (isConnected m) then simulateReward amount
  else if demoMode m then sendDemoReward recipientAddress amount
  else trackReward recipientAddress amount.

(** *** A call of [connectWallet()] run to its end

    The provider's answers are taken from a script, and nothing else runs
    while the call is parked. *)

Record ProviderScript := {
  accounts_reply : Response (list string);
  network_reply : NetworkAnswers
}.

Definition resume (script : ProviderScript) (r : Async bool) : M (Async bool) :=
  match r with
  | Settled b => ret (Settled b)
  | Pending AwaitRequestAccounts =>
      connectWallet_accounts (accounts_reply script)
  | Pending (AwaitEnsureNetwork requested) =>
      connectWallet_network requested (network_reply script)
  | Pending AwaitDemoDelay => connectDemoWallet_resume
  end.

Definition connectWallet (script : ProviderScript) : M (Async bool) :=
  r <- connectWallet_start ;;
  r <- resume script r ;;
  resume script r.

(** *** The session as a transition system

    What can happen to a constructed manager once [init] has looked for
    the provider: calls from the page, answers of the provider to parked
    requests, timers running out, and the events the provider pushes, as
    they reach the handlers behind their debounce. [init_fallback] is the
    call of [enableDemoMode] that the initialization timeout or a failing
    initialization makes; [demo_delay_elapsed] is the timer [cb_resolve]
    running out. [parked] holds the [await]s in flight. What [init()] does
    after its own 500 ms delay (config.js:720-747, among it the one
    assignment [demoMode = false] outside the constructor) is not among
    the inputs:
    the statements over [steps] speak of the inputs listed here. *)

Record System := mkSystem { world : World; parked : list Suspension }.

Inductive Input :=
| connect
| accounts_answer (answer : Response (list string))
| network_answer (ans : NetworkAnswers)
| demo_delay_elapsed
| disconnect
| accountsChanged (accounts : list string)
| provider_disconnect
| init_fallback
| reward (recipientAddress : option string) (amount : option float)
| refresh_balance
| timer (cb : Callback)
| provider_change (p : option Provider).

Definition is_request (s : Suspension) : bool :=
  match s with AwaitRequestAccounts => true | _ => false end.
Definition is_demo_delay (s : Suspension) : bool :=
  match s with AwaitDemoDelay => true | _ => false end.
Definition is_network (s : Suspension) : bool :=
  match s with AwaitEnsureNetwork _ => true | _ => false end.

(** Take the first parked [await] of a kind out of the list. *)
Fixpoint unpark (kind : Suspension -> bool) (l : list Suspension)
    : option (Suspension * list Suspension) :=
  match l with
  | [] => None
  | s :: l' =>
      if kind s then Some (s, l')
      else match unpark kind l' with
           | Some (s', l'') => Some (s', s :: l'')
           | None => None
           end
  end.

(** Run a call; if it parks, remember where. An exception that escapes an
    event handler is dropped by the event loop. *)
Definition run_async {A} (c : M (Async A)) (w : World) (rest : list Suspension)
    : System :=
  match c w with
  | Returned (Pending s) w' => mkSystem w' (rest ++ [s])
  | o => mkSystem (world_of o) rest
  end.

Definition run {A} (c : M A) (sys : System) : System :=
  mkSystem (world_of (c (world sys))) (parked sys).

Definition step (sys : System) (i : Input) : System :=
  match i with
  | connect => run_async connectWallet_start (world sys) (parked sys)
  | accounts_answer answer =>
      match unpark is_request (parked sys) with
      | Some (_, rest) =>
          run_async (connectWallet_accounts answer) (world sys) rest
      | None => sys
      end
  | network_answer ans =>
      match unpark is_network (parked sys) with
      | Some (AwaitEnsureNetwork requested, rest) =>
          run_async (connectWallet_network requested ans) (world sys) rest
      | _ => sys
      end
  | demo_delay_elapsed =>
      match unpark is_demo_delay (parked sys) with
      | Some (_, rest) => run_async connectDemoWallet_resume (world sys) rest
      | None => sys
      end
  | disconnect => run disconnectWallet sys
  | accountsChanged accounts => run (handleAccountsChanged accounts) sys
  | provider_disconnect => run handleDisconnect sys
  | init_fallback => run enableDemoMode sys
  | reward recipientAddress amount => run (sendReward recipientAddress amount) sys
  | refresh_balance => run loadBalance sys
  | timer cb_loadBalance => run loadBalance sys
  | timer cb_loadDemoBalance => run loadDemoBalance sys
  | timer cb_demoNotice => run demoNotice sys
  | timer cb_resolve => sys
  | provider_change p =>
      let w := world sys in
      mkSystem (mkWorld (this w) p (localStorage w) (trace w) (draws w))
               (parked sys)
  end.

Definition steps (sys : System) (inputs : list Input) : System :=
  fold_left step inputs sys.

(** The number of [eth_requestAccounts] requests awaiting an answer. *)
Definition outstanding (sys : System) : nat :=
  length (filter (fun s => is_request s = true) (parked sys)).

End Methods.

(* ===================================================================== *)
(** ** Observations on traces *)
(* ===================================================================== *)

(** The calls a computation added to the trace of the world it started in. *)
Definition new_events {A} (w : World) (o : Outcome A) : list Event :=
  drop (length (trace w)) (trace (world_of o)).

(** The methods requested from the wallet provider. *)
Definition requests (evs : list Event) : list string :=
  omap (fun e => match e with ProviderRequest m => Some m | _ => None end) evs.

(** How often the connect button was put into its "Connecting..." state. *)
Definition is_connecting_ui (e : Event) : bool :=
  match e with UpdateConnectingUI => true | _ => false end.
Definition connecting_shown (evs : list Event) : nat :=
  length (filter (fun e => is_connecting_ui e = true) evs).

(** How often the sink was told that a connection is being made: the
    message is the one [connectDemoWallet] sends. *)
Definition connecting_notice : string := "🔄 Connecting demo wallet...".
Definition is_connecting_notice (e : Event) : bool :=
  match e with
  | ShowNotification m _ _ => bool_decide (m = connecting_notice)
  | _ => false
  end.
Definition connecting_notified (evs : list Event) : nat :=
  length (filter (fun e => is_connecting_notice e = true) evs).

(** Both signs of a connection being made, counted side by side. *)
Definition connecting_signals (evs : list Event) : nat * nat :=
  (connecting_shown evs, connecting_notified evs).
Definition plus2 (a b : nat * nat) : nat * nat := (a.1 + b.1, a.2 + b.2).

(** The SHM balances handed to [updateBalanceUI]. *)
Definition balances (evs : list Event) : list string :=
  omap (fun e => match e with UpdateBalanceUI _ shm => Some shm | _ => None end)
       evs.

(** The messages handed to [showNotification]. *)
Definition notifications (evs : list Event) : list string :=
  omap (fun e => match e with ShowNotification m _ _ => Some m | _ => None end)
       evs.

(** The reward log of a world. *)
Definition history (w : World) : list Transaction := transactionHistory (this w).

(* ===================================================================== *)
(** ** Vocabulary of the statements *)
(* ===================================================================== *)

(** Events of the console only. *)
Definition is_console (e : Event) : Prop :=
  match e with Console _ _ => True | _ => False end.

(** The prefix of the hash [sendReward] generates, by session state. *)
Definition reward_prefix (m : Web3ManagerStable) : string :=
  if negb (isConnected m) then "0xsim"
  else if demoMode m then "0xdemo" else "0xtrack".

(** The text [sendReward] hands to the notification sink, by session state,
    for an amount printed as [shown]. *)
Definition reward_message (m : Web3ManagerStable) (shown : string) : string :=
  if negb (isConnected m) then
    "🪙 You earned " +:+ shown +:+ " SHM! Connect wallet to track rewards."
  else if demoMode m then
    "🎉 Demo reward earned! +" +:+ shown +:+ " SHM tokens!"
  else "🎉 Reward earned! +" +:+ shown +:+ " SHM added to your balance!".

(** The world after a sequence of [recordTransaction] calls. *)
Definition record_all (amb : Ambient) (txs : list Transaction) (w : World)
    : World :=
  fold_left (fun w tx => world_of (recordTransaction amb tx w)) txs w.

(** A world with more calls on its trace. *)
Definition extend (w : World) (evs : list Event) : World :=
  mkWorld (this w) (ethereum w) (localStorage w) (trace w ++ evs)%list (draws w).

(** The contribution count [getUserContributionCount] finds in a world. *)
Definition contributions (amb : Ambient) (w : World) : N :=
  match getUserContributionCount amb w with
  | Returned n _ => n
  | Thrown _ _ => 0%N
  end.

(** The balances [loadBalance] derives, i.e. hands to [updateBalanceUI]. *)
Definition derived_balance (amb : Ambient) (w : World) : list string :=
  balances (new_events w (loadBalance amb w)).

(** The call of [updateBalanceUI] that [loadBalance] makes for a manager
    and a contribution count. *)
Definition balance_call (m : Web3ManagerStable) (n : N) : list Event :=
  if demoMode m then
    [UpdateBalanceUI "2.456" (JS.toFixed (0.123 + JS.ofN n * 0.01)%float 3)]
  else if truthy (account m) && web3 m then
    [UpdateBalanceUI "0.000" (JS.toFixed (JS.ofN n * 0.01)%float 3)]
  else [].

(** The manager after [enableDemoMode]. *)
Definition demo_fallback (m : Web3ManagerStable) : Web3ManagerStable :=
  set_isConnecting false (set_isInitialized true (set_demoMode true m)).

(** The error a failed answer to [eth_requestAccounts] raises in
    [connectWallet]; [None] for an answer that does not fail. *)
Definition failure_of (answer : Response (list string)) : option JsError :=
  match answer with
  | Rejected e => Some e
  | Fulfilled [] => Some {| code := None; message := "No accounts returned" |}
  | Fulfilled (_ :: _) => None
  end.

(** The manager after the [catch] and [finally] blocks of [connectWallet]
    have handled [err]. *)
Definition after_failure (err : JsError) (m : Web3ManagerStable)
    : Web3ManagerStable :=
  if decide (code err = Some 4001%Z) then set_isConnecting false m
  else if (maxConnectionAttempts m <=? connectionAttempts m)%N
       then demo_fallback m
       else set_isConnecting false m.

(** What [isMetaMaskAvailable] answers in a world. *)
Definition available (w : World) : bool :=
  match ethereum w with
  | None => false
  | Some p => isMetaMask p && negb (provider_isConnecting p)
  end.

(** The manager once a live attempt has passed the guards. *)
Definition begin_attempt (m : Web3ManagerStable) : Web3ManagerStable :=
  set_connectionAttempts (connectionAttempts m + 1)%N (set_isConnecting true m).

Definition unavailable_error : JsError :=
  {| code := None; message := "MetaMask not available" |}.

(** The account [connectDemoWallet] connects. *)
Definition demo_account : string := "0x742d35Cc6634C0532925a3b8D98d27f65d3c3eA6".

(** Two managers with the same in-flight flag and the same mode. *)
Definition same_mode (m m' : Web3ManagerStable) : Prop :=
  isConnecting m' = isConnecting m /\ demoMode m' = demoMode m.

(** The manager a [connectWallet()] call leaves behind when it was not
    turned away by the in-flight guard. *)
Definition after_connect (script : ProviderScript) (w : World)
    : Web3ManagerStable :=
  let m := this w in
  if demoMode m then
    set_isConnecting false
      (set_isConnected true (set_account (Some demo_account)
                                         (set_isConnecting true m)))
  else if (maxConnectionAttempts m <=? connectionAttempts m)%N then
    demo_fallback m
  else if available w then
    match accounts_reply script with
    | Fulfilled (a :: _) =>
        set_isConnecting false
          (set_connectionAttempts 0
             (set_isConnected true (set_account (Some a) (begin_attempt m))))
    | Fulfilled [] =>
        after_failure {| code := None; message := "No accounts returned" |}
                      (begin_attempt m)
    | Rejected e => after_failure e (begin_attempt m)
    end
  else after_failure unavailable_error (begin_attempt m).

(** Does the call reach the provider? And what does it resolve to? *)
Definition reaches_provider (w : World) : bool :=
  negb (demoMode (this w))
  && (connectionAttempts (this w) <? maxConnectionAttempts (this w))%N
  && available w.

Definition connect_result (script : ProviderScript) (w : World) : bool :=
  demoMode (this w)
  || reaches_provider w
     && match accounts_reply script with
        | Fulfilled (_ :: _) => true
        | _ => false
        end.

(** The error a live attempt fails with: the provider is unavailable, or
    its answer fails. [None] for an attempt that does not fail. *)
Definition attempt_error (script : ProviderScript) (w : World) : option JsError :=
  if available w then failure_of (accounts_reply script)
  else Some unavailable_error.

(** The same world with another [window.ethereum]. *)
Definition with_provider (p : option Provider) (w : World) : World :=
  mkWorld (this w) p (localStorage w) (trace w) (draws w).

(** A call that passes the guards: it takes the demo path, or it is
    counted as a live attempt. *)
Definition makes_attempt (w : World) : bool :=
  demoMode (this w)
  || (connectionAttempts (this w) <? maxConnectionAttempts (this w))%N.

(** The number of requests for accounts among parked [await]s. *)
Definition requests_parked (l : list Suspension) : nat :=
  length (filter (fun s => is_request s = true) l).

(** The invariant behind the in-flight guard: at most one request for
    accounts is parked, and in live mode at most one [await] of any kind is
    parked, exactly when [isConnecting] is set. *)
Definition inv (m : Web3ManagerStable) (l : list Suspension) : Prop :=
  requests_parked l <= 1
  /\ (demoMode m = false ->
      (l = [] /\ isConnecting m = false)
      \/ (exists s, l = [s] /\ isConnecting m = true)).

Definition guard_invariant (sys : System) : Prop :=
  inv (this (world sys)) (parked sys).

(** *** Sample environments

    A page where [showNotification] and [UTILS.storage] are loaded and the
    store accepts writes; MetaMask is installed in [fresh_world]. *)
Definition sample_ambient : Ambient :=
  {| showNotification_defined := true;
     UTILS_storage_defined := true;
     Date_now := fun n => (1700000000000 + N.of_nat n)%N;
     Math_random_toString36 := fun _ => "0.4fzyo82mvyr";
     setItem_throws := fun _ => false |}.

Definition metamask : Provider :=
  {| isMetaMask := true; provider_isConnecting := false |}.

Definition metamask_busy : Provider :=
  {| isMetaMask := true; provider_isConnecting := true |}.

(** The manager [new Web3ManagerStable()] returns: the constructor's fields,
    with the handle of the timer that [init()] has started. *)
Definition started : Web3ManagerStable :=
  mkManager false None false false false true false
    "0x694B31c92E618d24D254bb10e7BF22a4a3C1151b" [] 0 3 false true.

Definition fresh_world : World := mkWorld started (Some metamask) ∅ [] 0.

Definition sample_tx (n : nat) : Transaction :=
  {| hash := "0xsim" +:+ JS.digits (N.of_nat n);
     from := rewardPoolAddress constructor;
     to := Some "Pending Connection"; amount := 0.01%float;
     timestamp := N.of_nat n; status := simulated; type := "reward";
     demo := false |}.

(** A stored feedback list of two entries and a report list of one. *)
Definition stored_contributions : gmap string Item :=
  <["campusfeedback_feedbacks" :=
      Wrapped (PArray [EntryOther; EntryOther]) 1700000000000 "2.0"]>
    (<["campusfeedback_reports" := Bare (PArray [EntryOther])]> ∅).

Definition connected (a : string) (m : Web3ManagerStable) : Web3ManagerStable :=
  set_isConnected true (set_account (Some a) m).

(** The manager once [init] has found MetaMask and built [web3]. *)
Definition initialized : Web3ManagerStable :=
  mkManager true None false false true true false
    "0x694B31c92E618d24D254bb10e7BF22a4a3C1151b" [] 0 3 true true.

Definition live_account : string := "0xABCDEF0123456789abcdef0123456789ABCDEF01".
Definition other_account : string := "0x1111111111111111111111111111111111111111".

Definition live_world : World :=
  mkWorld (connected live_account initialized) (Some metamask)
          stored_contributions [] 0.

Definition demo_world : World :=
  mkWorld (connected demo_account (demo_fallback initialized)) None
          stored_contributions [] 0.

Definition network_ok : NetworkAnswers :=
  {| eth_chainId := Fulfilled CONFIG.NETWORK_chainId;
     wallet_switchEthereumChain := Fulfilled tt;
     wallet_addEthereumChain := Fulfilled tt |}.

(** The user declines in the wallet's dialog. *)
Definition user_rejects : ProviderScript :=
  {| accounts_reply := Rejected {| code := Some 4001%Z;
                                   message := "User rejected the request." |};
     network_reply := network_ok |}.

(** The provider fails for another reason. *)
Definition provider_fails : ProviderScript :=
  {| accounts_reply := Rejected {| code := Some (-32603)%Z;
                                   message := "Internal JSON-RPC error." |};
     network_reply := network_ok |}.

Definition user_accepts : ProviderScript :=
  {| accounts_reply := Fulfilled [live_account]; network_reply := network_ok |}.


(* ===================================================================== *)
(** ** More of the program *)
(* ===================================================================== *)

(** Beyond the connection state machine: what [getStats] reports, the
    check for an existing connection and the two guarded listeners that
    [setupEventListeners] installs, the timers behind [debounce] and
    [throttle], the rest of [UTILS.storage], and the helpers of [UTILS] for
    texts, dates and the cache, with the validation of the feedback form of
    [app.js]. Time is counted in milliseconds; a timer is the time it has
    left. Strings are sequences of code units, as [length] and [substr]
    count them. *)

Local Open Scope list_scope.

(** *** The session, input by input *)

(** What one input can make of the manager. *)
Inductive manager_step (m : Web3ManagerStable) : Web3ManagerStable -> Prop :=
| ms_same : manager_step m m
| ms_demo_start : manager_step m (set_isConnecting true m)
| ms_fallback : manager_step m (demo_fallback m)
| ms_begin :
    demoMode m = false ->
    (connectionAttempts m < maxConnectionAttempts m)%N ->
    manager_step m (begin_attempt m)
| ms_begin_fail err :
    (connectionAttempts m < maxConnectionAttempts m)%N ->
    manager_step m (after_failure err (begin_attempt m))
| ms_fail err : manager_step m (after_failure err m)
| ms_accounts a :
    manager_step m
      (set_connectionAttempts 0 (set_isConnected true (set_account (Some a) m)))
| ms_release : manager_step m (set_isConnecting false m)
| ms_demo_done :
    manager_step m
      (set_isConnecting false
         (set_isConnected true (set_account (Some demo_account) m)))
| ms_disconnect :
    manager_step m
      (set_connectionAttempts 0 (set_isConnected false (set_account None m)))
| ms_switch b : manager_step m (set_isConnected true (set_account (Some b) m))
| ms_record tx :
    manager_step m
      (set_transactionHistory (take 50 (tx :: transactionHistory m)) m).

(** [isConnected] and [account] agree: connected exactly when an account is
    held. *)
Definition connected_consistent (m : Web3ManagerStable) : Prop :=
  isConnected m = true <-> account m <> None.

(** What [getStats()] returns. *)
Module Stats.
Record t := make {
  initialized : bool;
  connected : bool;
  connecting : bool;
  account : option string;
  demoMode : bool;
  rewardCount : nat
}.
End Stats.

Definition getStats (m : Web3ManagerStable) : Stats.t :=
  {| Stats.initialized := isInitialized m;
     Stats.connected := isConnected m;
     Stats.connecting := isConnecting m;
     Stats.account := account m;
     Stats.demoMode := demoMode m;
     Stats.rewardCount := length (transactionHistory m) |}.

(** The fields no method assigns after construction and start-up. *)
Definition settings (m : Web3ManagerStable) : bool * bool * string * N * bool * bool :=
  (web3 m, enabled m, rewardPoolAddress m, maxConnectionAttempts m,
   eventListenersSetup m, initializationTimeout m).

(** The in-flight flag is backed by a parked [await]. *)
Definition flag_backed (sys : System) : Prop :=
  isConnecting (this (world sys)) = true -> parked sys <> [].

(** The store and the reward log of [w'] are those of [w]. *)
Definition store_kept (w w' : World) : Prop :=
  localStorage w' = localStorage w /\ history w' = history w.

Definition is_reward (i : Input) : bool :=
  match i with reward _ _ => true | _ => false end.

(** *** Persistence and reports *)

(** The key [UTILS.storage] keeps the reward log under. *)
Definition history_key : string := CONFIG.STORAGE_PREFIX +:+ "transaction_history".

(** An environment whose store refuses every write. *)
Definition full_store_ambient : Ambient :=
  {| showNotification_defined := true;
     UTILS_storage_defined := true;
     Date_now := fun n => (1700000000000 + N.of_nat n)%N;
     Math_random_toString36 := fun _ => "0.4fzyo82mvyr";
     setItem_throws := fun _ => true |}.

(** The text the [catch] block of [connectWallet] sends for an error. *)
Definition failure_message (err : JsError) (m : Web3ManagerStable) : string :=
  if decide (code err = Some 4001%Z) then "❌ Connection rejected by user"
  else if (maxConnectionAttempts m <=? connectionAttempts m)%N
       then "❌ Connection failed, switching to demo mode"
       else "❌ Connection failed, please try again".

(** The timers started. *)
Definition timers (evs : list Event) : list (Callback * N) :=
  omap (fun e => match e with SetTimeout cb ms => Some (cb, ms) | _ => None end)
       evs.

(** The array a stored item holds: none when the key is missing, the text
    does not parse, or the value is no array. *)
Definition stored_list (it : option Item) : list Entry :=
  match it with
  | Some (Wrapped (PArray items) _ _) | Some (Bare (PArray items)) => items
  | _ => []
  end.

(** A store whose feedback list does not parse. *)
Definition corrupt_store : gmap string Item :=
  <["campusfeedback_feedbacks" := Malformed]> stored_contributions.

(** *** Start-up: the connection check and the listeners *)

Section Startup.
Variable amb : Ambient.

(** [checkExistingConnection] up to its [await]: the guard and the request
    for the accounts the wallet already exposes ([web3.eth.getAccounts()]
    asks the provider for [eth_accounts]). The result says whether the
    request was made. *)
Definition checkExistingConnection_start : M bool :=
  m <- get_this ;;
  if negb (web3 m) || isConnecting m then ret false
  else
    emit (Console log "🔍 Checking existing wallet connection...") ;;
    emit (ProviderRequest "eth_accounts") ;;
    ret true.

(** ... and from the provider's answer on. *)
Definition checkExistingConnection_resume (answer : Response (list string))
    : M unit :=
  try_catch
    (match answer with
     | Rejected e => throw e
     | Fulfilled (newAccount :: _) =>
         m <- get_this ;;
         if decide (account m = Some newAccount) then
           emit (Console log "✅ Connection status confirmed")
         else
           update_this (set_account (Some newAccount)) ;;
           update_this (set_isConnected true) ;;
           emit (Console log ("👤 Found existing connection: " ++
                              formatAddress (Some newAccount))) ;;
           updateUI ;;
           loadBalance amb
     | Fulfilled [] =>
         m <- get_this ;;
         if isConnected m then
           emit (Console log "❌ No accounts found, disconnecting") ;;
           update_this (set_account None) ;;
           update_this (set_isConnected false) ;;
           updateUI
         else ret tt
     end)
    (fun e =>
       emit (Console warn ("⚠️ Connection check failed: " ++ message e))).

Definition checkExistingConnection (answer : Response (list string)) : M unit :=
  requested <- checkExistingConnection_start ;;
  if requested : bool then checkExistingConnection_resume answer else ret tt.


Definition on_disconnect : M unit :=
  m <- get_this ;;
  if negb (isConnecting m) then
    emit (Console log "🔌 MetaMask disconnected") ;;
    handleDisconnect amb
  else ret tt.

End Startup.

(** The account and connection flag of [m] replaced. *)
Definition with_account (a : option string) (m : Web3ManagerStable)
    : Web3ManagerStable :=
  set_isConnected (bool_decide (is_Some a)) (set_account a m).

(** *** Debounced and throttled functions

    [debounce] and [throttle] return a function with a timer of its own.
    What happens to such a function is a sequence of calls and of stretches
    of time; what it does is the list of calls it passes on to the function
    it wraps. A timer is the time it has left and the arguments its callback
    closes over, and it runs when that time has passed. *)

Inductive Tick (A : Type) :=
| invoke (args : A)
| elapse (ms : N).
Arguments invoke {A} args.
Arguments elapse {A} ms.

(** The calls passed on over a sequence of ticks. *)
Fixpoint passed_on {S A} (step : S -> Tick A -> S * list A) (st : S)
    (ticks : list (Tick A)) : list A :=
  match ticks with
  | [] => []
  | t :: ticks' => (step st t).2 ++ passed_on step (step st t).1 ticks'
  end.

(** The arguments of the calls made. *)
Definition called {A} (ticks : list (Tick A)) : list A :=
  omap (fun t => match t with invoke args => Some args | elapse _ => None end)
       ticks.

(** [Web3ManagerStable.debounce(func, wait)]: [timeout] is the pending
    timer. *)
Definition debounce {A} (wait : N) (timeout : option (N * A)) (t : Tick A)
    : option (N * A) * list A :=
  match t with
  | invoke args =>
      (* clearTimeout(timeout); timeout = setTimeout(later, wait) *)
      (Some (wait, args), [])
  | elapse ms =>
      match timeout with
      | Some (remaining, args) =>
          if (remaining <=? ms)%N then (None, [args])   (* later() *)
          else (Some (remaining - ms, args)%N, [])
      | None => (None, [])
      end
  end.

(** [UTILS.debounce(func, wait, immediate = false)]: [timeout] is [null]
    exactly when no timer is pending. *)
Definition UTILS_debounce {A} (wait : N) (immediate : bool)
    (timeout : option (N * A)) (t : Tick A) : option (N * A) * list A :=
  match t with
  | invoke args =>
      let callNow := immediate && negb (bool_decide (is_Some timeout)) in
      (Some (wait, args), if callNow then [args] else [])
  | elapse ms =>
      match timeout with
      | Some (remaining, args) =>
          if (remaining <=? ms)%N
          then (None, if negb immediate then [args] else [])
          else (Some (remaining - ms, args)%N, [])
      | None => (None, [])
      end
  end.

(** [UTILS.throttle(func, limit)]: [inThrottle] is set exactly while the
    timer that clears it is pending; the state is the time that timer has
    left. *)
Definition UTILS_throttle {A} (limit : N) (inThrottle : option N) (t : Tick A)
    : option N * list A :=
  match t with
  | invoke args =>
      match inThrottle with
      | None => (Some limit, [args])
      | Some remaining => (Some remaining, [])
      end
  | elapse ms =>
      match inThrottle with
      | Some remaining =>
          if (remaining <=? ms)%N then (None, []) else (Some (remaining - ms)%N, [])
      | None => (None, [])
      end
  end.

(** A burst: calls, each followed by a pause. *)
Definition burst {A} (calls : list (A * N)) : list (Tick A) :=
  flat_map (fun c => [invoke c.1; elapse c.2]) calls.

(** The time that passes over a sequence of ticks. *)
Definition elapsed {A} (ticks : list (Tick A)) : N :=
  fold_right (fun t acc => match t with elapse ms => (ms + acc)%N | _ => acc end)
             0%N ticks.

(** Hand the calls passed on to the function wrapped, each from a timer of
    its own: an exception that escapes one is dropped by the event loop. *)
Fixpoint deliver {A} (func : A -> M unit) (calls : list A) : M unit :=
  match calls with
  | [] => ret tt
  | args :: calls' => fun w => deliver func calls' (world_of (func args w))
  end.

(** *** [UTILS.storage.remove] and [UTILS.storage.clear] *)

Definition localStorage_removeItem (key : string) : M unit :=
  fun w => Returned tt
    (mkWorld (this w) (ethereum w) (delete key (localStorage w)) (trace w)
             (draws w)).

Definition storage_remove (key : string) : M bool :=
  try_catch
    (localStorage_removeItem (CONFIG.STORAGE_PREFIX ++ key) ;;
     ret true)
    (fun e =>
       emit (Console error ("Error removing from storage: " ++ message e)) ;;
       ret false).

(** [Object.keys(localStorage)] *)
Definition Object_keys : M (list string) :=
  fun w => Returned (map fst (map_to_list (localStorage w))) w.

(** [keys.forEach(body)] *)
Fixpoint forEach {A} (l : list A) (body : A -> M unit) : M unit :=
  match l with
  | [] => ret tt
  | x :: l' => body x ;; forEach l' body
  end.

Definition storage_clear : M bool :=
  try_catch
    (keys <- Object_keys ;;
     forEach keys (fun key =>
       if String.prefix CONFIG.STORAGE_PREFIX key
       then localStorage_removeItem key
       else ret tt) ;;
     ret true)
    (fun e =>
       emit (Console error ("Error clearing storage: " ++ message e)) ;;
       ret false).

(** *** Text helpers of [UTILS] *)

(** [s.lastIndexOf(c)] for a one-character [c]; [None] is [-1]. *)
Fixpoint lastIndexOf (c : ascii) (s : string) : option nat :=
  match s with
  | EmptyString => None
  | String a s' =>
      match lastIndexOf c s' with
      | Some i => Some (S i)
      | None => if Ascii.eqb a c then Some 0 else None
      end
  end.

(** [UTILS.truncateText(text, maxLength = 100, useWordBreak = true)];
    [None] is a missing argument. Without a space in the cut text the test
    [lastSpace > maxLength * 0.7] is [-1 > maxLength * 0.7], which fails. *)
Definition truncateText (text : option string) (maxLength : option nat)
    (useWordBreak : option bool) : string :=
  let maxLength := default 100 maxLength in
  let useWordBreak := default true useWordBreak in
  match text with
  | None | Some EmptyString => ""
  | Some text =>
      if (String.length text <=? maxLength)%nat then text
      else
        let plain := JS.substr text 0 maxLength +:+ "..." in
        if useWordBreak then
          let truncated := JS.substr text 0 maxLength in
          match lastIndexOf " " truncated with
          | Some lastSpace =>
              if (JS.ofN (N.of_nat maxLength) * 0.7
                  <? JS.ofN (N.of_nat lastSpace))%float
              then JS.substr truncated 0 lastSpace +:+ "..."
              else plain
          | None => plain
          end
        else plain
  end.

(** [/^0x[a-fA-F0-9]{40}$/.test(address)] *)
Definition is_hex_digit (c : ascii) : bool :=
  let n := nat_of_ascii c in
  ((48 <=? n) && (n <=? 57) || (97 <=? n) && (n <=? 102)
   || (65 <=? n) && (n <=? 70))%nat.

Fixpoint all_hex (s : string) : bool :=
  match s with
  | EmptyString => true
  | String c s' => is_hex_digit c && all_hex s'
  end.

(** [UTILS.blockchain.isValidAddress(address)] on a string or a missing
    value. *)
Definition isValidAddress (address : option string) : bool :=
  match address with
  | Some (String "0" (String "x" digits)) =>
      (String.length digits =? 40)%nat && all_hex digits
  | _ => false
  end.

(** [UTILS.blockchain.formatTxHash(hash)] *)
Definition formatTxHash (hash : option string) : string :=
  match hash with
  | None | Some EmptyString => ""
  | Some h => JS.substr h 0 10 +:+ "..." +:+ JS.substr_last h 8
  end.

(** *** [UTILS.cache]

    The cache is a [Map] from keys to a value and the time it expires at;
    [now] is what [Date.now()] answers. *)

Module Cache.
Record Item (V : Type) := mkItem { value : V; expiry : Z }.
Arguments mkItem {V} value expiry.
Arguments value {V} i.
Arguments expiry {V} i.

(** [UTILS.cache.set(key, value, ttl = 300000)] *)
Definition set {V} (now : Z) (key : string) (v : V) (ttl : option Z)
    (data : gmap string (Item V)) : bool * gmap string (Item V) :=
  if decide (key = "") then (false, data)
  else (true, <[key := mkItem v (now + default 300000 ttl)%Z]> data).

(** [UTILS.cache.get(key)]; [None] is [null]. *)
Definition get {V} (now : Z) (key : string) (data : gmap string (Item V))
    : option V * gmap string (Item V) :=
  if decide (key = "") then (None, data)
  else
    match data !! key with
    | Some item =>
        if (now <? expiry item)%Z then (Some (value item), data)
        else (None, delete key data)
    | None => (None, delete key data)
    end.

End Cache.

(** *** [UTILS.formatDate]

    [timestamp] is the time value of [new Date(timestamp)], [None] for an
    invalid date, whose time value [NaN] fails every comparison. The
    renderings that depend on the locale are left to the environment.
    [Math.floor(diff / unit)] is the integer quotient: the clock counts
    whole milliseconds, far below [2^53]. An invalid date makes
    [toISOString] throw a [RangeError]. *)
Record Locale := {
  toLocaleDateString : option Z -> string;
  toLocaleString : option Z -> string;
  toLocaleTimeString : option Z -> string;
  toISOString : Z -> string
}.

Definition ago (count : Z) (unit : string) : string :=
  JS.digits (Z.to_N count) +:+ " " +:+ unit +:+
  (if (1 <? count)%Z then "s" else "") +:+ " ago".

Definition formatDate (locale : Locale) (now : Z) (timestamp : option Z)
    (format : option string) : string + JsError :=
  let format := default "relative" format in
  if decide (format = "relative") then
    match timestamp with
    | Some date =>
        let diff := (now - date)%Z in
        if (diff <? 60000)%Z then inl "Just now"
        else if (diff <? 3600000)%Z then inl (ago (diff / 60000) "minute")
        else if (diff <? 86400000)%Z then inl (ago (diff / 3600000) "hour")
        else if (diff <? 604800000)%Z then inl (ago (diff / 86400000) "day")
        else inl (toLocaleDateString locale timestamp)
    | None => inl (toLocaleDateString locale timestamp)
    end
  else if decide (format = "full") then inl (toLocaleString locale timestamp)
  else if decide (format = "date") then inl (toLocaleDateString locale timestamp)
  else if decide (format = "time") then inl (toLocaleTimeString locale timestamp)
  else
    match timestamp with
    | Some date => inl (toISOString locale date)
    | None => inr {| code := None; message := "Invalid time value" |}
    end.

(** *** The feedback form (app.js)

    What [handleFeedbackSubmit] reads from the form: the title and the
    content are trimmed, the rating is [parseInt(...) || 0]. *)
Record FeedbackData := {
  category : string;
  title : string;
  content : string;
  rating : Z;
  anonymous : bool
}.

(** [errors.join(', ')] *)
Fixpoint join (sep : string) (l : list string) : string :=
  match l with
  | [] => ""
  | [x] => x
  | x :: l' => x +:+ sep +:+ join sep l'
  end.

(** The [errors] array [validateFeedbackData] collects. *)
Definition feedback_errors (data : FeedbackData) : list string :=
  (if decide (category data = "") then ["Category is required"] else [])
  ++ (if bool_decide (title data = "") || (String.length (title data) <? 5)%nat
      then ["Title must be at least 5 characters"] else [])
  ++ (if bool_decide (content data = "") || (String.length (content data) <? 10)%nat
      then ["Content must be at least 10 characters"] else [])
  ++ (if (rating data =? 0)%Z then ["Please provide a rating"] else []).

Definition validateFeedbackData (amb : Ambient) (data : FeedbackData) : M bool :=
  let errors := feedback_errors data in
  if (0 <? length errors)%nat then
    showNotification amb ("Please fix the form errors: " +:+ join ", " errors)
      "warning" None ;;
    ret false
  else ret true.

(* ===================================================================== *)
(** ** Proof support *)
(* ===================================================================== *)

Local Open Scope list_scope.

(** Evaluation of the monad's plumbing and of the record projections; the
    tests a method makes on its state stay in place, to be decided by
    cases. *)
Ltac js_run :=
  cbv beta iota zeta delta
    [bind ret throw try_catch protected get_this update_this emit draw when
     world_of value_of
     this ethereum localStorage trace draws
     web3 account isConnected isConnecting isInitialized enabled demoMode
     rewardPoolAddress transactionHistory connectionAttempts
     maxConnectionAttempts eventListenersSetup initializationTimeout
     set_account set_isConnected set_isConnecting set_isInitialized
     set_demoMode set_transactionHistory set_connectionAttempts
     showNotification hash history negb andb orb extend
     isMetaMask provider_isConnecting code message].

Ltac js_case :=
  match goal with
  | |- context [if ?b then _ else _] => destruct b eqn:?
  end.

Ltac js_cases := js_run; repeat (js_case; js_run).

Tactic Notation "js_run" "in" hyp(H) :=
  cbv beta iota zeta delta
    [bind ret throw try_catch protected get_this update_this emit draw when
     world_of value_of
     this ethereum localStorage trace draws
     web3 account isConnected isConnecting isInitialized enabled demoMode
     rewardPoolAddress transactionHistory connectionAttempts
     maxConnectionAttempts eventListenersSetup initializationTimeout
     set_account set_isConnected set_isConnecting set_isInitialized
     set_demoMode set_transactionHistory set_connectionAttempts
     showNotification hash history negb andb orb extend
     isMetaMask provider_isConnecting code message] in H.

Lemma new_events_app {A} (w : World) (o : Outcome A) (evs : list Event) :
  trace (world_of o) = trace w ++ evs -> new_events w o = evs.
Proof.
  intros H. unfold new_events. rewrite H. apply drop_app_length.
Qed.

Lemma console_no_notifications (evs : list Event) :
  Forall is_console evs -> notifications evs = [].
Proof.
  induction 1 as [|e evs He _ IH]; [reflexivity|].
  destruct e; try contradiction. exact IH.
Qed.

Lemma console_no_requests (evs : list Event) :
  Forall is_console evs -> requests evs = [].
Proof.
  induction 1 as [|e evs He _ IH]; [reflexivity|].
  destruct e; try contradiction. exact IH.
Qed.

Lemma notifications_app (l1 l2 : list Event) :
  notifications (l1 ++ l2) = notifications l1 ++ notifications l2.
Proof. unfold notifications. apply omap_app. Qed.

Lemma requests_app (l1 l2 : list Event) :
  requests (l1 ++ l2) = requests l1 ++ requests l2.
Proof. unfold requests. apply omap_app. Qed.

Lemma balances_app (l1 l2 : list Event) :
  balances (l1 ++ l2) = balances l1 ++ balances l2.
Proof. unfold balances. apply omap_app. Qed.

(** *** The number printing on known values *)

Example toString_known :
  map JS.toString
    [0.01; 0.1 + 0.2; 1e21; 123456789; 5e-7; 0.000001; 1.5; -1.5; 100;
     9007199254740993; 1.7976931348623157e308; 5e-324]%float
  = ["0.01"; "0.30000000000000004"; "1e+21"; "123456789"; "5e-7"; "0.000001";
     "1.5"; "-1.5"; "100"; "9007199254740992"; "1.7976931348623157e+308";
     "5e-324"]%string.
Proof. vm_compute. reflexivity. Qed.

Example toFixed_known :
  map (fun x => JS.toFixed x 3)
    [0.01; 3 * 0.01; 0.123 + 3 * 0.01; 1.0005; 8.345; 1234.5678; 0.0005; 0;
     -0.0001; 1e21]%float
  = ["0.010"; "0.030"; "0.153"; "1.000"; "8.345"; "1234.568"; "0.001";
     "0.000"; "-0.000"; "1e+21"]%string
  /\ map (fun x => JS.toFixed x 0) [0.5; 1.5; 2.5; 0.4]%float
     = ["1"; "2"; "3"; "0"]%string.
Proof. vm_compute. split; reflexivity. Qed.

Example substr_known :
  JS.substr "0.4fzyo82mvyr" 2 6 = "4fzyo8"%string
  /\ JS.substr "0.5" 2 6 = "5"%string
  /\ JS.substr "0" 2 6 = ""%string
  /\ formatAddress (Some demo_account) = "0x742d...3eA6"%string.
Proof. vm_compute. repeat split; reflexivity. Qed.

(** *** Two runs, as the console and the page see them *)

Example connect_declined_trace :
  let o := connectWallet sample_ambient user_rejects fresh_world in
  value_of o = Some (Settled false)
  /\ trace (world_of o)
     = [Console log "🔌 Connecting to MetaMask (attempt 1/3)...";
        UpdateConnectingUI;
        ProviderRequest "eth_requestAccounts";
        Console error "❌ Wallet connection error: User rejected the request.";
        ShowNotification "❌ Connection rejected by user" "warning" 5000;
        UpdateUI false "Connect Wallet"].
Proof. vm_compute. split; reflexivity. Qed.

Example demo_reward_trace :
  let o := sendReward sample_ambient (Some demo_account) None demo_world in
  value_of o = Some "0xdemo17000000000004fzyo8"%string
  /\ trace (world_of o)
     = [ShowNotification "🎉 Demo reward earned! +0.01 SHM tokens!" "success" 6000;
        SetTimeout cb_loadDemoBalance 1000]
  /\ length (history (world_of o)) = 1.
Proof. vm_compute. repeat split; reflexivity. Qed.

Lemma isMetaMaskAvailable_available (w : World) :
  isMetaMaskAvailable w = Returned (available w) w.
Proof. reflexivity. Qed.

(* ===================================================================== *)
(** ** The reward log *)
(* ===================================================================== *)

Section RewardLog.

Variable amb : Ambient.

Lemma cut_to_50 (l : list Transaction) :
  (if (50 <? length l)%nat then take 50 l else l) = take 50 l.
Proof.
  destruct (Nat.ltb_spec 50 (length l)) as [H|H];
    [reflexivity | symmetry; apply firstn_all2; exact H].
Qed.

(** [recordTransaction] always returns: the record goes to the front of the
    log, the log is cut back to its first fifty entries, and a failing
    store costs a line on the console and nothing else. *)
Lemma recordTransaction_returns (tx : Transaction) (w : World) :
  exists w' evs,
    recordTransaction amb tx w = Returned tt w'
    /\ this w' = set_transactionHistory
                   (take 50 (tx :: transactionHistory (this w))) (this w)
    /\ ethereum w' = ethereum w
    /\ trace w' = trace w ++ evs
    /\ Forall is_console evs.
Proof.
  destruct w as [m eth st tr d].
  destruct m as [wb ac co cg ini en dm pool th att mx ls tmo].
  rewrite <- cut_to_50.
  unfold recordTransaction, storage_set, localStorage_setItem.
  js_run.
  destruct (50 <? length (tx :: th))%nat;
    destruct (UTILS_storage_defined amb);
    try destruct (setItem_throws amb (S d));
    first
      [ eexists; exists []; repeat split;
        [symmetry; apply app_nil_r | constructor]
      | eexists; eexists [_]; repeat split; repeat constructor ].
Qed.

Lemma record_step_history (tx : Transaction) (w : World) :
  history (world_of (recordTransaction amb tx w)) = take 50 (tx :: history w).
Proof.
  destruct (recordTransaction_returns tx w) as (w' & evs & Hr & Ht & _).
  rewrite Hr. unfold history. simpl. rewrite Ht. reflexivity.
Qed.

Lemma take_app_take {A} (n : nat) (a b : list A) :
  take n (a ++ take n b) = take n (a ++ b).
Proof.
  rewrite !firstn_app, firstn_firstn.
  f_equal. f_equal. lia.
Qed.

Lemma record_all_history (txs : list Transaction) (w : World) :
  length (history w) <= 50 ->
  history (record_all amb txs w) = take 50 (rev txs ++ history w).
Proof.
  revert w. induction txs as [|tx txs IH]; intros w Hlen.
  - simpl. symmetry. apply firstn_all2. exact Hlen.
  - simpl. fold (record_all amb txs (world_of (recordTransaction amb tx w))).
    rewrite IH.
    + rewrite record_step_history, take_app_take, <- app_assoc. reflexivity.
    + rewrite record_step_history. rewrite length_take. lia.
Qed.

(** What [sendReward] does, in every state: it returns the hash of a fresh
    record, which it has put at the front of the log. *)
Lemma sendReward_returns (r : option string) (a : option float) (w : World) :
  exists tx w' evs,
    sendReward amb r a w = Returned (hash tx) w'
    /\ (exists suffix, hash tx = reward_prefix (this w) +:+ suffix)
    /\ amount tx = default 0.01%float a
    /\ history w' = take 50 (tx :: history w)
    /\ trace w' = trace w ++ evs
    /\ notifications evs =
         if showNotification_defined amb
         then [reward_message (this w) (JS.toString (default 0.01%float a))]
         else [].
Proof.
  destruct w as [m eth st tr d].
  destruct m as [wb ac co cg ini en dm pool th att mx ls tmo].
  unfold sendReward, reward_prefix, reward_message, simulateReward,
    sendDemoReward, trackReward, freshHash.
  destruct co, dm; js_run;
    match goal with |- context [recordTransaction amb ?tx ?w0] =>
      destruct (recordTransaction_returns tx w0)
        as (w' & evs & Hr & Ht & _ & Htr & Hc);
      rewrite Hr; exists tx
    end;
    destruct w' as [m' ? ? tr' ?]; js_run; js_run in Ht; js_run in Htr;
    subst m' tr'; apply console_no_notifications in Hc;
    destruct (showNotification_defined amb);
    eexists; eexists; (split; [reflexivity|]);
    (split; [eexists; reflexivity|]);
    (split; [reflexivity|]); (split; [reflexivity|]);
    (split; [rewrite <- ?app_assoc; reflexivity|]);
    rewrite ?notifications_app, Hc; reflexivity.
Qed.

(** The hash is made of the state's prefix, the clock and the random
    number drawn for this call, and belongs to the record put first. *)
Lemma sendReward_generated (r : option string) (a : option float) (w : World) :
  exists tx w',
    sendReward amb r a w = Returned (hash tx) w'
    /\ hash tx
       = reward_prefix (this w) +:+ JS.digits (Date_now amb (draws w))
         +:+ JS.substr (Math_random_toString36 amb (S (draws w))) 2 6
    /\ history w' = take 50 (tx :: history w)
    /\ amount tx = default 0.01%float a.
Proof.
  destruct w as [m eth st tr d].
  destruct m as [wb ac co cg ini en dm pool th att mx ls tmo].
  unfold sendReward, reward_prefix, simulateReward, sendDemoReward,
    trackReward, freshHash.
  destruct co, dm; js_run;
    match goal with |- context [recordTransaction amb ?tx ?w0] =>
      destruct (recordTransaction_returns tx w0)
        as (w' & evs & Hr & Ht & _);
      rewrite Hr; exists tx
    end;
    destruct w' as [m' ? ? tr' ?]; js_run; js_run in Ht; subst m';
    destruct (showNotification_defined amb);
    eexists; repeat split.
Qed.

End RewardLog.

(* ===================================================================== *)
(** ** The balance and the disconnect path *)
(* ===================================================================== *)

Section Balance.
Variable amb : Ambient.

Lemma storage_get_returns (key : string) (st : gmap string Item) :
  exists v evs, Forall is_console evs /\
    forall m eth tr d,
      storage_get key (mkWorld m eth st tr d)
      = Returned v (mkWorld m eth st (tr ++ evs) d).
Proof.
  unfold storage_get.
  destruct (st !! (CONFIG.STORAGE_PREFIX +:+ key)) as [[|v s n|p]|] eqn:E;
    [ exists None; eexists (cons _ nil) | exists (Some v), [] | exists (Some p), []
    | exists None, [] ];
    (split; [|intros m eth tr d; js_run; rewrite E;
    unfold JSON_parse; js_run; rewrite ?app_nil_r; reflexivity]);
    repeat constructor.
Qed.

Lemma getUserContributionCount_returns (st : gmap string Item) :
  exists n evs, Forall is_console evs /\
    forall m eth tr d,
      getUserContributionCount amb (mkWorld m eth st tr d)
      = Returned n (mkWorld m eth st (tr ++ evs) d).
Proof.
  unfold getUserContributionCount, getFeedbacks, getReports.
  destruct (storage_get_returns "feedbacks" st) as (v1 & e1 & C1 & H1).
  destruct (storage_get_returns "reports" st) as (v2 & e2 & C2 & H2).
  destruct (UTILS_storage_defined amb).
  - eexists; exists (e1 ++ e2). split; [apply Forall_app; split; assumption|].
    intros m eth tr d. js_run. rewrite H1, H2, app_assoc. reflexivity.
  - exists 0%N, []. split; [constructor|]. intros. js_run. rewrite app_nil_r. reflexivity.
Qed.

Lemma count_spec (w : World) :
  exists evs, Forall is_console evs /\
    getUserContributionCount amb w
    = Returned (contributions amb w) (extend w evs).
Proof.
  destruct w as [m eth st tr d].
  destruct (getUserContributionCount_returns st) as (n & evs & Hc & H).
  exists evs. split; [exact Hc|].
  unfold contributions. rewrite H. reflexivity.
Qed.

Lemma contributions_store (w w' : World) :
  localStorage w = localStorage w' -> contributions amb w = contributions amb w'.
Proof.
  destruct w as [m eth st tr d], w' as [m' eth' st' tr' d']. simpl. intros <-.
  destruct (getUserContributionCount_returns st) as (n & evs & Hc & H).
  unfold contributions. rewrite !H. reflexivity.
Qed.

Lemma loadBalance_spec (w : World) :
  exists evs, Forall is_console evs /\
    loadBalance amb w
    = Returned tt (extend w (evs ++ balance_call (this w) (contributions amb w))).
Proof.
  destruct (count_spec w) as (evs & Hc & H).
  destruct w as [m eth st tr d].
  destruct m as [wb ac co cg ini en dm pool th att mx ls tmo].
  unfold loadBalance, loadDemoBalance, balance_call, updateBalanceUI, extend in *.
  destruct dm.
  - exists evs. split; [exact Hc|]. js_run. js_run in H. rewrite H.
    rewrite app_assoc. reflexivity.
  - destruct (truthy ac) eqn:Ht; [destruct wb|].
    + exists evs. split; [exact Hc|]. js_run. js_run in H. rewrite Ht.
      cbn [negb orb andb]. js_run. rewrite H.
      rewrite app_assoc. reflexivity.
    + exists []. split; [constructor|]. js_run. rewrite Ht.
      cbn [negb orb andb app]. js_run. rewrite app_nil_r. reflexivity.
    + exists []. split; [constructor|]. js_run. rewrite Ht.
      cbn [negb orb andb app]. js_run. rewrite app_nil_r. reflexivity.
Qed.

Lemma derived_balance_closed (w : World) :
  derived_balance amb w = balances (balance_call (this w) (contributions amb w)).
Proof.
  destruct (loadBalance_spec w) as (evs & Hc & H).
  unfold derived_balance. rewrite (new_events_app w _ (evs ++ balance_call (this w) (contributions amb w))).
  - rewrite balances_app. 
    assert (balances evs = []) as ->; [|reflexivity].
    clear H. induction Hc as [|e evs He _ IH]; [reflexivity|].
    destruct e; try contradiction. exact IH.
  - rewrite H. reflexivity.
Qed.

Lemma disconnectWallet_spec (w : World) :
  disconnectWallet amb w =
  Returned tt
    (if isConnecting (this w) then
       extend w [Console log "⚠️ Cannot disconnect while connecting"]
     else
       mkWorld (set_connectionAttempts 0 (set_isConnected false (set_account None (this w))))
         (ethereum w) (localStorage w)
         (trace w ++ [Console log "👋 Disconnecting wallet...";
            UpdateUI false (if demoMode (this w) then "Connect Demo Wallet" else "Connect Wallet")] ++
            (if showNotification_defined amb then 
              [ShowNotification ("👋 " +:+ (if demoMode (this w) then "Demo wallet" else "Wallet") +:+ " disconnected") "info" 5000] else []))
         (draws w)).
Proof.
  destruct w as [m eth st tr d].
  destruct m as [wb ac co cg ini en dm pool th att mx ls tmo].
  unfold disconnectWallet, updateUI, extend. destruct cg; js_run; [reflexivity|].
  cbn [andb]. js_run. 
  destruct dm, (showNotification_defined amb); js_run; cbn [default from_option id]; rewrite <- ?app_assoc; reflexivity.
Qed.
End Balance.

(* ===================================================================== *)
(** ** The phases of [connectWallet] *)
(* ===================================================================== *)

Section Connect.
Variable amb : Ambient.

Lemma enableDemoMode_spec (w : World) :
  exists evs,
    enableDemoMode w
    = Returned tt (mkWorld (demo_fallback (this w)) (ethereum w)
                     (localStorage w) (trace w ++ evs) (draws w))
    /\ requests evs = [] /\ connecting_signals evs = (0, 0).
Proof.
  destruct w as [m eth st tr d].
  destruct m as [wb ac co cg ini en dm pool th att mx ls tmo].
  unfold enableDemoMode, createDemoInterface, updateUI, demo_fallback.
  js_cases; rewrite <- ?app_assoc; eexists; (split; [reflexivity|]); split; reflexivity.
Qed.

Lemma failure_handling (err : JsError) (w : World) :
  exists evs,
    protected (throw err) (connectWallet_catch amb) connectWallet_finally w
    = Returned (Settled false)
        (mkWorld (after_failure err (this w)) (ethereum w) (localStorage w)
                 (trace w ++ evs) (draws w))
    /\ requests evs = [] /\ connecting_signals evs = (0, 0).
Proof.
  destruct w as [m eth st tr d].
  destruct m as [wb ac co cg ini en dm pool th att mx ls tmo].
  unfold connectWallet_catch, connectWallet_finally, after_failure,
    enableDemoMode, createDemoInterface, updateUI, demo_fallback.
  js_cases; rewrite <- ?app_assoc; eexists; (split; [reflexivity|]); split; reflexivity.
Qed.

Lemma connectWallet_start_busy (w : World) :
  isConnecting (this w) = true ->
  connectWallet_start amb w
  = Returned (Settled false)
      (extend w [Console log "⚠️ Connection already in progress..."]).
Proof.
  destruct w as [m eth st tr d].
  destruct m as [wb ac co cg ini en dm pool th att mx ls tmo].
  simpl. intros ->. reflexivity.
Qed.

Lemma connectDemoWallet_start_spec (w : World) :
  isConnecting (this w) = false ->
  exists evs,
    connectDemoWallet_start amb w
    = Returned (Pending AwaitDemoDelay)
        (mkWorld (set_isConnecting true (this w)) (ethereum w) (localStorage w)
                 (trace w ++ evs) (draws w))
    /\ requests evs = [] /\ connecting_signals evs = (1, if showNotification_defined amb then 1 else 0).
Proof.
  destruct w as [m eth st tr d].
  destruct m as [wb ac co cg ini en dm pool th att mx ls tmo].
  simpl. intros ->. unfold connectDemoWallet_start, updateConnectingUI.
  js_cases; rewrite <- ?app_assoc; eexists; (split; [reflexivity|]); split; reflexivity.
Qed.

Lemma connectWallet_start_demo (w : World) :
  isConnecting (this w) = false -> demoMode (this w) = true ->
  connectWallet_start amb w = connectDemoWallet_start amb w.
Proof.
  destruct w as [m eth st tr d].
  destruct m as [wb ac co cg ini en dm pool th att mx ls tmo].
  simpl. intros -> ->. reflexivity.
Qed.

Lemma connectWallet_start_exhausted (w : World) :
  isConnecting (this w) = false -> demoMode (this w) = false ->
  (maxConnectionAttempts (this w) <= connectionAttempts (this w))%N ->
  exists evs,
    connectWallet_start amb w
    = Returned (Settled false)
        (mkWorld (demo_fallback (this w)) (ethereum w) (localStorage w)
                 (trace w ++ evs) (draws w))
    /\ requests evs = [] /\ connecting_signals evs = (0, 0).
Proof.
  destruct w as [m eth st tr d].
  destruct m as [wb ac co cg ini en dm pool th att mx ls tmo].
  simpl. intros -> -> Hle. apply N.leb_le in Hle.
  unfold connectWallet_start, enableDemoMode, createDemoInterface, updateUI, demo_fallback.
  js_run. rewrite Hle.
  js_cases; rewrite <- ?app_assoc; eexists; (split; [reflexivity|]); split; reflexivity.
Qed.

Lemma connectWallet_start_live (w : World) :
  isConnecting (this w) = false -> demoMode (this w) = false ->
  (connectionAttempts (this w) < maxConnectionAttempts (this w))%N ->
  available w = true ->
  connectWallet_start amb w
  = Returned (Pending AwaitRequestAccounts)
      (mkWorld (begin_attempt (this w)) (ethereum w) (localStorage w)
         (trace w ++
          [Console log
             ("🔌 Connecting to MetaMask (attempt " +:+
              JS.digits (connectionAttempts (this w) + 1) +:+ "/" +:+
              JS.digits (maxConnectionAttempts (this w)) +:+ ")...");
           UpdateConnectingUI; ProviderRequest "eth_requestAccounts"])
         (draws w)).
Proof.
  destruct w as [m eth st tr d].
  destruct m as [wb ac co cg ini en dm pool th att mx ls tmo].
  unfold available. simpl. intros -> -> Hlt Hav. apply N.leb_gt in Hlt.
  unfold connectWallet_start, isMetaMaskAvailable, updateConnectingUI, begin_attempt.
  js_run. rewrite Hlt. js_run.
  destruct eth as [[[] []]|]; try discriminate Hav.
  js_run. rewrite <- ?app_assoc. reflexivity.
Qed.

Lemma connectWallet_start_unavailable (w : World) :
  isConnecting (this w) = false -> demoMode (this w) = false ->
  (connectionAttempts (this w) < maxConnectionAttempts (this w))%N ->
  available w = false ->
  exists evs,
    connectWallet_start amb w
    = Returned (Settled false)
        (mkWorld (after_failure unavailable_error (begin_attempt (this w)))
                 (ethereum w) (localStorage w) (trace w ++ evs) (draws w))
    /\ requests evs = [] /\ connecting_signals evs = (0, 0).
Proof.
  destruct w as [m eth st tr d].
  destruct m as [wb ac co cg ini en dm pool th att mx ls tmo].
  unfold available. simpl. intros -> -> Hlt Hav. apply N.leb_gt in Hlt.
  unfold connectWallet_start, isMetaMaskAvailable, connectWallet_catch, connectWallet_finally, 
    after_failure, begin_attempt, unavailable_error,
    enableDemoMode, createDemoInterface, updateUI, demo_fallback.
  js_run. rewrite Hlt. js_run.
  destruct eth as [[[] []]|]; try discriminate Hav;
  js_cases; rewrite <- ?app_assoc; eexists; (split; [reflexivity|]); split; reflexivity.
Qed.

End Connect.

(* ===================================================================== *)
(** ** The later phases, and the provider's events *)
(* ===================================================================== *)

Lemma connecting_signals_app (l1 l2 : list Event) :
  connecting_signals (l1 ++ l2)
  = plus2 (connecting_signals l1) (connecting_signals l2).
Proof.
  unfold connecting_signals, connecting_shown, connecting_notified, plus2.
  rewrite !filter_app, !length_app. reflexivity.
Qed.

Lemma console_no_connecting (evs : list Event) :
  Forall is_console evs -> connecting_signals evs = (0, 0).
Proof.
  induction 1 as [|e evs He _ IH]; [reflexivity|].
  destruct e; try contradiction. exact IH.
Qed.

Lemma balance_call_quiet (m : Web3ManagerStable) (n : N) :
  requests (balance_call m n) = [] /\ connecting_signals (balance_call m n) = (0, 0).
Proof.
  unfold balance_call.
  destruct (demoMode m); [split; reflexivity|].
  destruct (truthy (account m) && web3 m); split; reflexivity.
Qed.

Section Resume.
Variable amb : Ambient.

Lemma loadBalance_quiet (w : World) :
  exists evs,
    loadBalance amb w = Returned tt (extend w evs)
    /\ requests evs = [] /\ connecting_signals evs = (0, 0)
    /\ balances evs = balances (balance_call (this w) (contributions amb w)).
Proof.
  destruct (loadBalance_spec amb w) as (evs & Hc & H).
  destruct (balance_call_quiet (this w) (contributions amb w)) as (Hr & Hs).
  eexists. split; [exact H|].
  rewrite requests_app, connecting_signals_app, balances_app, Hr, Hs.
  rewrite (console_no_requests _ Hc), (console_no_connecting _ Hc).
  repeat split.
  assert (balances evs = []) as ->; [|reflexivity].
  clear H. induction Hc as [|e evs He _ IH]; [reflexivity|].
  destruct e; try contradiction. exact IH.
Qed.

Lemma connectWallet_accounts_failure (answer : Response (list string))
    (err : JsError) (w : World) :
  failure_of answer = Some err ->
  exists evs,
    connectWallet_accounts amb answer w
    = Returned (Settled false)
        (mkWorld (after_failure err (this w)) (ethereum w) (localStorage w)
                 (trace w ++ evs) (draws w))
    /\ requests evs = [] /\ connecting_signals evs = (0, 0).
Proof.
  intros Hf. destruct answer as [[|a l]|e]; simpl in Hf; inversion Hf; subst;
    apply failure_handling.
Qed.

Lemma connectWallet_accounts_success (a : string) (l : list string) (w : World) :
  exists requested evs,
    connectWallet_accounts amb (Fulfilled (a :: l)) w
    = Returned (Pending (AwaitEnsureNetwork requested))
        (mkWorld (set_connectionAttempts 0
                    (set_isConnected true (set_account (Some a) (this w))))
                 (ethereum w) (localStorage w) (trace w ++ evs) (draws w))
    /\ connecting_signals evs = (0, 0)
    /\ ~ In "eth_requestAccounts"%string (requests evs).
Proof.
  destruct w as [m eth st tr d].
  destruct m as [wb ac co cg ini en dm pool th att mx ls tmo].
  unfold connectWallet_accounts, ensureCorrectNetwork_start.
  js_cases; rewrite <- ?app_assoc; eexists; eexists; (split; [reflexivity|]);
   (split; [reflexivity|]); simpl; intuition discriminate.
Qed.

Lemma extend_extend (w : World) (a b : list Event) :
  extend (extend w a) b = extend w (a ++ b).
Proof. unfold extend. simpl. rewrite app_assoc. reflexivity. Qed.

Lemma ensureCorrectNetwork_finish_spec (requested : bool) (ans : NetworkAnswers)
    (w : World) :
  exists evs,
    ensureCorrectNetwork_finish requested ans w = Returned tt (extend w evs)
    /\ connecting_signals evs = (0, 0)
    /\ ~ In "eth_requestAccounts"%string (requests evs).
Proof.
  destruct w as [m eth st tr d].
  destruct ans as [[c|e] [[]|e1] [[]|e2]];
  unfold ensureCorrectNetwork_finish, switchNetwork; simpl; destruct requested;
  js_cases; rewrite <- ?app_assoc;
  first [ exists []; rewrite app_nil_r; split; [reflexivity|]
        | eexists; split; [reflexivity|] ];
  (split; [reflexivity|]); simpl; intuition discriminate.
Qed.

Lemma updateUI_spec (w : World) :
  exists c label, updateUI w = Returned tt (extend w [UpdateUI c label]).
Proof.
  destruct w as [m eth st tr d].
  unfold updateUI. js_cases; eexists; eexists; reflexivity.
Qed.

Lemma showNotification_spec (msg ty : string) (dur : option N) (w : World) :
  exists evs, showNotification amb msg ty dur w = Returned tt (extend w evs)
              /\ connecting_signals evs =
                   (0, if bool_decide (msg = connecting_notice)
                          && showNotification_defined amb then 1 else 0)
              /\ requests evs = [].
Proof.
  destruct w as [m eth st tr d].
  unfold showNotification, when, emit, ret, extend.
  destruct (showNotification_defined amb).
  - eexists (cons _ nil). split; [reflexivity|]. split; [|reflexivity].
    rewrite andb_true_r.
    unfold connecting_signals, connecting_shown, connecting_notified.
    rewrite !filter_cons, !filter_nil. cbn [is_connecting_ui is_connecting_notice].
    destruct (bool_decide (msg = connecting_notice)); reflexivity.
  - exists []. cbn [trace this ethereum localStorage draws].
    rewrite app_nil_r, andb_false_r. repeat split.
Qed.

Lemma connecting_signals_cons (e : Event) (evs : list Event) :
  connecting_signals (e :: evs)
  = plus2 (if is_connecting_ui e then 1 else 0,
           if is_connecting_notice e then 1 else 0)
          (connecting_signals evs).
Proof.
  unfold connecting_signals, connecting_shown, connecting_notified, plus2.
  rewrite !filter_cons.
  destruct (is_connecting_ui e), (is_connecting_notice e); reflexivity.
Qed.

Lemma connectWallet_finally_spec (w : World) :
  exists evs,
    connectWallet_finally w
    = Returned tt (mkWorld (set_isConnecting false (this w)) (ethereum w)
                     (localStorage w) (trace w ++ evs) (draws w))
    /\ connecting_signals evs = (0, 0) /\ requests evs = [].
Proof.
  destruct w as [m eth st tr d].
  destruct m as [wb ac co cg ini en dm pool th att mx ls tmo].
  unfold connectWallet_finally, updateUI.
  js_cases; first [ exists []; rewrite app_nil_r; split; [reflexivity|]
                  | eexists; split; [reflexivity|] ]; split; reflexivity.
Qed.

Lemma connectWallet_network_spec (requested : bool) (ans : NetworkAnswers)
    (w : World) :
  exists evs,
    connectWallet_network amb requested ans w
    = Returned (Settled true)
        (mkWorld (set_isConnecting false (this w)) (ethereum w)
                 (localStorage w) (trace w ++ evs) (draws w))
    /\ connecting_signals evs = (0, 0)
    /\ ~ In "eth_requestAccounts"%string (requests evs).
Proof.
  destruct (ensureCorrectNetwork_finish_spec requested ans w) as (e1 & H1 & S1 & R1).
  destruct (updateUI_spec (extend w e1)) as (c & lbl & H2).
  set (u := UpdateUI c lbl) in *.
  destruct (loadBalance_quiet (extend (extend w e1) [u])) as (e3 & H3 & R3 & S3 & _).
  destruct (showNotification_spec "✅ Wallet connected successfully!" "success"
              (Some 4000%N) (extend (extend (extend w e1) [u]) e3))
    as (e4 & H4 & S4 & R4).
  destruct (connectWallet_finally_spec
              (extend (extend (extend (extend w e1) [u]) e3) e4))
    as (e5 & H5 & S5 & R5).
  exists (e1 ++ [u] ++ e3 ++ e4 ++ e5).
  split; [|split].
  - unfold connectWallet_network, protected.
    unfold bind at 1. rewrite H1.
    unfold bind at 1. rewrite H2.
    unfold bind at 1. rewrite H3.
    unfold bind at 1. rewrite H4.
    unfold ret at 1. unfold bind at 1. rewrite H5.
    unfold ret, extend. simpl. rewrite <- !app_assoc. reflexivity.
  - rewrite !connecting_signals_app, connecting_signals_cons, S1, S3, S4, S5.
    reflexivity.
  - rewrite !requests_app, R3, R4, R5, !app_nil_r. exact R1.
Qed.

Lemma loadDemoBalance_quiet (w : World) :
  exists evs,
    loadDemoBalance amb w = Returned tt (extend w evs)
    /\ requests evs = [] /\ connecting_signals evs = (0, 0).
Proof.
  destruct (count_spec amb w) as (evs & Hc & H).
  eexists. unfold loadDemoBalance, updateBalanceUI.
  unfold bind at 1. rewrite H. split.
  - unfold emit, extend. simpl. rewrite <- app_assoc. reflexivity.
  - rewrite requests_app, connecting_signals_app.
    rewrite (console_no_requests _ Hc), (console_no_connecting _ Hc).
    split; reflexivity.
Qed.

Lemma connectDemoWallet_resume_spec (w : World) :
  exists evs,
    connectDemoWallet_resume amb w
    = Returned (Settled true)
        (mkWorld (set_isConnecting false
                    (set_isConnected true
                       (set_account (Some demo_account) (this w))))
                 (ethereum w) (localStorage w) (trace w ++ evs) (draws w))
    /\ connecting_signals evs = (0, 0) /\ requests evs = [].
Proof.
  set (w1 := mkWorld (set_isConnected true (set_account (Some demo_account) (this w)))
               (ethereum w) (localStorage w) (trace w) (draws w)).
  destruct (updateUI_spec w1) as (c & lbl & H2).
  set (u := UpdateUI c lbl) in *.
  destruct (loadDemoBalance_quiet (extend w1 [u])) as (e3 & H3 & R3 & S3).
  destruct (showNotification_spec
              "🎭 Demo wallet connected! Submit content to earn rewards!"
              "success" (Some 5000%N) (extend (extend w1 [u]) e3))
    as (e4 & H4 & S4 & R4).
  exists ([u] ++ e3 ++ e4).
  split; [|split].
  - unfold connectDemoWallet_resume, protected.
    unfold bind at 1. unfold update_this at 1.
    unfold bind at 1. unfold update_this at 1.
    change (mkWorld _ _ _ _ _) with w1 at 1.
    unfold bind at 1. rewrite H2.
    unfold bind at 1. rewrite H3.
    unfold bind at 1. rewrite H4.
    unfold ret, bind, update_this, extend, w1. simpl.
    rewrite <- !app_assoc. reflexivity.
  - rewrite !connecting_signals_app, connecting_signals_cons, S3, S4. reflexivity.
  - rewrite !requests_app, R3, R4. reflexivity.
Qed.

Lemma handleAccountsChanged_same (a : string) (l : list string) (w : World) :
  isConnecting (this w) = false -> account (this w) = Some a ->
  handleAccountsChanged amb (a :: l) w
  = Returned tt (extend w [Console log "🔄 Handling account change..."]).
Proof.
  destruct w as [m eth st tr d].
  destruct m as [wb ac co cg ini en dm pool th att mx ls tmo].
  simpl. intros -> ->. unfold handleAccountsChanged. js_run.
  destruct (decide (Some a = Some a)) as [_|N]; [reflexivity | contradiction].
Qed.

Lemma handleAccountsChanged_switch (b : string) (l : list string) (w : World) :
  isConnecting (this w) = false -> account (this w) <> Some b ->
  let m' := set_isConnected true (set_account (Some b) (this w)) in
  exists evs,
    handleAccountsChanged amb (b :: l) w
    = Returned tt (mkWorld m' (ethereum w) (localStorage w) (trace w ++ evs)
                           (draws w))
    /\ balances evs = balances (balance_call m' (contributions amb w))
    /\ requests evs = [].
Proof.
  intros Hc Hne m'.
  set (w1 := mkWorld m' (ethereum w) (localStorage w)
               (trace w ++ [Console log "🔄 Handling account change...";
                   Console log ("🔄 Account switched to: " +:+ formatAddress (Some b))])
               (draws w)).
  destruct (updateUI_spec w1) as (c & lbl & H2).
  set (u := UpdateUI c lbl) in *.
  destruct (loadBalance_quiet (extend w1 [u])) as (e3 & H3 & R3 & S3 & B3).
  eexists. split; [|split].
  - unfold handleAccountsChanged. 
    destruct w as [m eth st tr d].
    destruct m as [wb ac co cg ini en dm pool th att mx ls tmo].
    simpl in Hc, Hne. subst cg. js_run.
    destruct (decide (ac = Some b)) as [E|_]; [contradiction|].
    js_run.
    match goal with |- context [updateUI ?w0] => 
       replace w0 with w1 by (unfold w1, m'; js_run; rewrite <- app_assoc; reflexivity) end.
    rewrite H2, H3.
    unfold extend, w1. simpl. rewrite <- !app_assoc. reflexivity.
  - simpl. rewrite B3.
    rewrite (contributions_store amb (extend w1 [u]) w); reflexivity.
  - simpl. exact R3.
Qed.

Lemma disconnectWallet_mode (w : World) :
  same_mode (this w) (this (world_of (disconnectWallet amb w))).
Proof.
  rewrite disconnectWallet_spec. 
  destruct w as [m eth st tr d].
  destruct m as [wb ac co cg ini en dm pool th att mx ls tmo].
  simpl. destruct cg; split; reflexivity.
Qed.

Lemma handleDisconnect_mode (w : World) :
  same_mode (this w) (this (world_of (handleDisconnect amb w))).
Proof.
  unfold handleDisconnect.
  destruct (isConnecting (this w)) eqn:E.
  - unfold bind, get_this. rewrite E. split; reflexivity.
  - unfold bind at 1. unfold get_this at 1. rewrite E.
    unfold bind, emit.
    match goal with |- context [disconnectWallet amb ?w0] =>
      pose proof (disconnectWallet_mode w0) as H;
      rewrite (disconnectWallet_spec amb w0) in H |- * end.
    exact H.
Qed.

Lemma handleAccountsChanged_mode (accounts : list string) (w : World) :
  same_mode (this w) (this (world_of (handleAccountsChanged amb accounts w))).
Proof.
  destruct (isConnecting (this w)) eqn:Hc.
  - unfold handleAccountsChanged, bind, get_this. rewrite Hc. split; reflexivity.
  - destruct accounts as [|b l].
    + unfold handleAccountsChanged. unfold bind at 1. unfold get_this at 1. rewrite Hc.
      unfold bind at 1. unfold emit at 1.
      destruct (isConnected (this w)).
      * unfold bind, emit.
        match goal with |- context [disconnectWallet amb ?w0] =>
          pose proof (disconnectWallet_mode w0) as H;
          rewrite (disconnectWallet_spec amb w0) in H |- * end.
        exact H.
      * split; reflexivity.
    + destruct (decide (account (this w) = Some b)) as [E|N].
      * rewrite handleAccountsChanged_same by assumption. split; reflexivity.
      * destruct (handleAccountsChanged_switch b l w Hc N) as (evs & H & _).
        rewrite H. split; reflexivity.
Qed.

End Resume.

(* ===================================================================== *)
(** ** A call of [connectWallet()] from start to end *)
(* ===================================================================== *)

Section Run.
Variable amb : Ambient.

Lemma connectWallet_run (script : ProviderScript) (w : World) :
  isConnecting (this w) = false ->
  exists evs,
    connectWallet amb script w
    = Returned (Settled (connect_result script w))
        (mkWorld (after_connect script w) (ethereum w) (localStorage w)
                 (trace w ++ evs) (draws w))
    /\ connecting_signals evs =
         (if demoMode (this w) || reaches_provider w then 1 else 0,
          if demoMode (this w) && showNotification_defined amb then 1 else 0)
    /\ (if reaches_provider w
        then exists rest, requests evs = "eth_requestAccounts"%string :: rest
                          /\ ~ In "eth_requestAccounts"%string rest
        else requests evs = []).
Proof.
  intros Hc. unfold connectWallet, after_connect, connect_result, reaches_provider.
  unfold bind at 1.
  destruct (demoMode (this w)) eqn:Hd.
  - (* demo path *)
    rewrite (connectWallet_start_demo amb w Hc Hd).
    destruct (connectDemoWallet_start_spec amb w Hc) as (e1 & H1 & R1 & S1).
    match type of H1 with _ = Returned _ ?w2 =>
      destruct (connectDemoWallet_resume_spec amb w2) as (e2 & H2 & S2 & R2) end.
    exists (e1 ++ e2).
    rewrite H1. unfold resume at 1.
    unfold bind at 1. rewrite H2. unfold resume, ret. cbn [this ethereum localStorage trace draws].
    rewrite <- app_assoc, connecting_signals_app, requests_app, R1, S1, R2, S2.
    split; [reflexivity|]. split; [|reflexivity].
    unfold plus2. cbn [fst snd andb orb]. rewrite !Nat.add_0_r. reflexivity.
  - cbn [negb andb orb].
    destruct (N.ltb_spec (connectionAttempts (this w)) (maxConnectionAttempts (this w))) as [Hlt|Hge].
    + assert (Hleb : (maxConnectionAttempts (this w) <=? connectionAttempts (this w))%N = false)
        by (apply N.leb_gt; exact Hlt).
      rewrite Hleb. destruct (available w) eqn:Hav.
      * (* the request goes out *)
        rewrite (connectWallet_start_live amb w Hc Hd Hlt Hav).
        unfold resume at 1. unfold bind at 1.
        match goal with |- context [connectWallet_accounts amb _ ?w1] => set (w1' := w1) end.
        destruct (accounts_reply script) as [[|a l]|e] eqn:Hans.
        -- destruct (connectWallet_accounts_failure amb (Fulfilled []) _ w1' eq_refl)
             as (e2 & H2 & R2 & S2).
           eexists. rewrite H2. unfold resume, ret.
           subst w1'. cbn [this ethereum localStorage trace draws].
           rewrite <- app_assoc. split; [reflexivity|].
           rewrite connecting_signals_app, S2. split; [reflexivity|].
           exists []. rewrite requests_app, R2. split; [reflexivity|]. intros [].
        -- destruct (connectWallet_accounts_success amb a l w1')
             as (rq & e2 & H2 & S2 & R2).
           rewrite H2. unfold resume.
           match goal with |- context [connectWallet_network amb rq ?ans ?w2] =>
             destruct (connectWallet_network_spec amb rq ans w2) as (e3 & H3 & S3 & R3) end.
           rewrite H3. eexists.
           subst w1'. cbn [this ethereum localStorage trace draws].
           rewrite <- !app_assoc. split; [reflexivity|].
           rewrite !connecting_signals_app, S2, S3. split; [reflexivity|].
           eexists. rewrite !requests_app. split; [reflexivity|].
           rewrite in_app_iff. intros [?|?]; contradiction.
        -- destruct (connectWallet_accounts_failure amb (Rejected e) _ w1' eq_refl)
             as (e2 & H2 & R2 & S2).
           eexists. rewrite H2. unfold resume, ret.
           subst w1'. cbn [this ethereum localStorage trace draws].
           rewrite <- app_assoc. split; [reflexivity|].
           rewrite connecting_signals_app, S2. split; [reflexivity|].
           exists []. rewrite requests_app, R2. split; [reflexivity|]. intros [].
      * destruct (connectWallet_start_unavailable amb w Hc Hd Hlt Hav)
          as (e1 & H1 & R1 & S1).
        exists e1. rewrite H1. unfold resume, bind, ret.
        repeat split; assumption.
    + assert (Hleb : (maxConnectionAttempts (this w) <=? connectionAttempts (this w))%N = true)
        by (apply N.leb_le; exact Hge).
      rewrite Hleb.
      destruct (connectWallet_start_exhausted amb w Hc Hd Hge) as (e1 & H1 & R1 & S1).
      exists e1. rewrite H1. unfold resume, bind, ret.
      repeat split; assumption.
Qed.
End Run.

(* ===================================================================== *)
(** ** Failed attempts *)
(* ===================================================================== *)

Lemma failed_attempt (script : ProviderScript) (err : JsError) (w : World) :
  demoMode (this w) = false ->
  (connectionAttempts (this w) < maxConnectionAttempts (this w))%N ->
  attempt_error script w = Some err ->
  after_connect script w = after_failure err (begin_attempt (this w))
  /\ connect_result script w = false.
Proof.
  intros Hd Hlt He. unfold after_connect, connect_result, reaches_provider, attempt_error in *.
  rewrite Hd. apply N.leb_gt in Hlt as Hleb. rewrite Hleb. 
  apply N.ltb_lt in Hlt. rewrite Hlt.
  destruct (available w).
  - destruct (accounts_reply script) as [[|a l]|e]; simpl in He; inversion He; subst;
      split; reflexivity.
  - inversion He; subst. split; reflexivity.
Qed.

Lemma after_failure_fields (err : JsError) (m : Web3ManagerStable) :
  let m' := after_failure err (begin_attempt m) in
  connectionAttempts m' = (connectionAttempts m + 1)%N
  /\ maxConnectionAttempts m' = maxConnectionAttempts m
  /\ isConnecting m' = false
  /\ demoMode m' =
       (if decide (code err = Some 4001%Z) then demoMode m
        else (maxConnectionAttempts m <=? connectionAttempts m + 1)%N || demoMode m).
Proof.
  destruct m as [wb ac co cg ini en dm pool th att mx ls tmo].
  unfold after_failure, begin_attempt, demo_fallback. simpl.
  destruct (decide (code err = Some 4001%Z)); [repeat split|].
  destruct (mx <=? att + 1)%N; repeat split.
Qed.


(* ===================================================================== *)
(** ** The in-flight guard *)
(* ===================================================================== *)

Lemma requests_parked_app (l1 l2 : list Suspension) :
  requests_parked (l1 ++ l2) = requests_parked l1 + requests_parked l2.
Proof. unfold requests_parked. rewrite filter_app, length_app. reflexivity. Qed.

Lemma requests_parked_cons (s : Suspension) (l : list Suspension) :
  requests_parked (s :: l)
  = (if is_request s then 1 else 0) + requests_parked l.
Proof.
  unfold requests_parked. rewrite filter_cons.
  destruct (is_request s); reflexivity.
Qed.

Lemma unpark_spec (kind : Suspension -> bool) (l : list Suspension)
    (s : Suspension) (rest : list Suspension) :
  unpark kind l = Some (s, rest) ->
  kind s = true
  /\ requests_parked l = (if is_request s then 1 else 0) + requests_parked rest
  /\ (forall s0, l = [s0] -> rest = []).
Proof.
  revert s rest. induction l as [|x l IH]; intros s rest H; [discriminate|].
  simpl in H. destruct (kind x) eqn:K.
  - inversion H; subst. split; [exact K|]. split; [apply requests_parked_cons|].
    intros s0 E. inversion E. reflexivity.
  - destruct (unpark kind l) as [[s' l'']|] eqn:U; [|discriminate].
    inversion H; subst. destruct (IH s l'' eq_refl) as (Ks & Hn & _).
    split; [exact Ks|]. split.
    + rewrite !requests_parked_cons, Hn. lia.
    + intros s0 E. inversion E; subst. discriminate U.
Qed.

Section Guard.
Variable amb : Ambient.

Lemma sendReward_this (r : option string) (a : option float) (w : World) :
  exists h, this (world_of (sendReward amb r a w))
            = set_transactionHistory h (this w).
Proof.
  destruct w as [m eth st tr d].
  destruct m as [wb ac co cg ini en dm pool th att mx ls tmo].
  unfold sendReward, simulateReward, sendDemoReward, trackReward, freshHash.
  destruct co, dm; js_run;
    match goal with |- context [recordTransaction amb ?tx ?w0] =>
      destruct (recordTransaction_returns amb tx w0)
        as (w' & evs & Hr & Ht & _);
      rewrite Hr
    end;
    destruct w' as [m' ? ? tr' ?]; js_run; js_run in Ht; subst m';
    destruct (showNotification_defined amb); eexists; reflexivity.
Qed.

Lemma inv_same_mode (m m' : Web3ManagerStable) (l : list Suspension) :
  same_mode m m' -> inv m l -> inv m' l.
Proof.
  intros (Hc & Hd) (Hn & Hl). split; [exact Hn|].
  rewrite Hc, Hd. exact Hl.
Qed.

Lemma inv_demo (m : Web3ManagerStable) (l : list Suspension) :
  demoMode m = true -> requests_parked l <= 1 -> inv m l.
Proof.
  intros Hd Hn. split; [exact Hn|]. rewrite Hd. discriminate.
Qed.

Lemma inv_idle (m : Web3ManagerStable) :
  isConnecting m = false -> inv m [].
Proof.
  intros Hc. split; [unfold requests_parked; simpl; lia|]. intros _. left. split; [reflexivity|exact Hc].
Qed.

Lemma inv_live_idle (m : Web3ManagerStable) (l : list Suspension) :
  inv m l -> demoMode m = false -> isConnecting m = false -> l = [].
Proof.
  intros (_ & Hl) Hd Hc. destruct (Hl Hd) as [(E & _)|(s & _ & C)];
    [exact E | congruence].
Qed.

Lemma inv_unpark (m : Web3ManagerStable) (l rest : list Suspension)
    (kind : Suspension -> bool) (s : Suspension) :
  inv m l -> unpark kind l = Some (s, rest) ->
  requests_parked rest <= 1
  /\ (is_request s = true -> requests_parked rest = 0)
  /\ (demoMode m = false -> rest = [] /\ isConnecting m = true).
Proof.
  intros (Hn & Hl) U. destruct (unpark_spec kind l s rest U) as (_ & Hc & Hs).
  split; [destruct (is_request s); lia|]. split.
  - intros R. rewrite R in Hc. lia.
  - intros Hd. destruct (Hl Hd) as [(E & _)|(s0 & E & C)].
    + subst l. discriminate U.
    + split; [exact (Hs s0 E) | exact C].
Qed.

Lemma after_failure_mode (err : JsError) (m : Web3ManagerStable) :
  isConnecting (after_failure err m) = false
  /\ (demoMode m = true -> demoMode (after_failure err m) = true).
Proof.
  destruct m as [wb ac co cg ini en dm pool th att mx ls tmo].
  unfold after_failure, demo_fallback. simpl.
  destruct (decide (code err = Some 4001%Z)); [split; [reflexivity|auto]|].
  destruct (mx <=? att)%N; split; auto.
Qed.

Lemma step_invariant (sys : System) (i : Input) :
  guard_invariant sys -> guard_invariant (step amb sys i).
Proof.
  destruct sys as [w l]. unfold guard_invariant.
  intros Hinv. cbn [world parked] in Hinv. pose proof Hinv as (Hn & Hlive).
  destruct i as [|answer|ans| | |accounts| | |recipient amt| |cb|p];
    cbn [step world parked].
  - (* connect *)
    unfold run_async.
    destruct (isConnecting (this w)) eqn:Hc.
    { rewrite (connectWallet_start_busy amb w Hc). exact Hinv. }
    destruct (demoMode (this w)) eqn:Hd.
    { rewrite (connectWallet_start_demo amb w Hc Hd).
      destruct (connectDemoWallet_start_spec amb w Hc) as (evs & H & _).
      rewrite H. cbn [world parked this]. apply inv_demo.
      - destruct (this w); exact Hd.
      - rewrite requests_parked_app. unfold requests_parked in *. simpl. lia. }
    assert (l = []) as -> by (eapply inv_live_idle; eassumption).
    destruct (N.ltb_spec (connectionAttempts (this w)) (maxConnectionAttempts (this w)))
      as [Hlt|Hge].
    + destruct (available w) eqn:Hav.
      * rewrite (connectWallet_start_live amb w Hc Hd Hlt Hav).
        cbn [world parked this app]. split; [unfold requests_parked; simpl; lia|].
        intros _. right. eexists. split; [reflexivity|].
        destruct (this w); reflexivity.
      * destruct (connectWallet_start_unavailable amb w Hc Hd Hlt Hav) as (evs & H & _).
        rewrite H. cbn [world parked this world_of]. apply inv_idle.
        apply after_failure_mode.
    + destruct (connectWallet_start_exhausted amb w Hc Hd Hge) as (evs & H & _).
      rewrite H. cbn [world parked this world_of]. apply inv_demo; [|unfold requests_parked; simpl; lia].
      destruct (this w); reflexivity.
  - (* the provider answers the request for accounts *)
    destruct (unpark is_request l) as [[s rest]|] eqn:U; [|exact Hinv].
    destruct (inv_unpark _ _ _ _ _ Hinv U) as (Hr & _ & Hl).
    unfold run_async. destruct (failure_of answer) as [err|] eqn:F.
    + destruct (connectWallet_accounts_failure amb answer err w F) as (evs & H & _).
      rewrite H. cbn [world parked this world_of].
      destruct (after_failure_mode err (this w)) as (Fc & Fd).
      destruct (demoMode (this w)) eqn:Hd.
      * apply inv_demo; [apply Fd; reflexivity | exact Hr].
      * destruct (Hl eq_refl) as (-> & _). apply inv_idle. exact Fc.
    + destruct answer as [[|a acc]|e]; try discriminate F.
      destruct (connectWallet_accounts_success amb a acc w) as (rq & evs & H & _).
      rewrite H. cbn [world parked this world_of].
      split; [rewrite requests_parked_app; unfold requests_parked in *; simpl; lia|].
      intros Hd. assert (Hd' : demoMode (this w) = false)
        by (destruct (this w); exact Hd).
      destruct (Hl Hd') as (-> & Hc). right. eexists. split; [reflexivity|].
      destruct (this w); exact Hc.
  - (* the network check is over *)
    destruct (unpark is_network l) as [[[|rq|] rest]|] eqn:U; try exact Hinv.
    destruct (inv_unpark _ _ _ _ _ Hinv U) as (Hr & _ & Hl).
    unfold run_async.
    destruct (connectWallet_network_spec amb rq ans w) as (evs & H & _).
    rewrite H. cbn [world parked this world_of].
    split; [exact Hr|]. intros Hd.
    assert (Hd' : demoMode (this w) = false) by (destruct (this w); exact Hd).
    destruct (Hl Hd') as (-> & _). left. split; [reflexivity|].
    destruct (this w); reflexivity.
  - (* the demo delay is over *)
    destruct (unpark is_demo_delay l) as [[s rest]|] eqn:U; [|exact Hinv].
    destruct (inv_unpark _ _ _ _ _ Hinv U) as (Hr & _ & Hl).
    unfold run_async.
    destruct (connectDemoWallet_resume_spec amb w) as (evs & H & _).
    rewrite H. cbn [world parked this world_of].
    split; [exact Hr|]. intros Hd.
    assert (Hd' : demoMode (this w) = false) by (destruct (this w); exact Hd).
    destruct (Hl Hd') as (-> & _). left. split; [reflexivity|].
    destruct (this w); reflexivity.
  - (* disconnect *)
    unfold run. cbn [world parked].
    eapply inv_same_mode; [apply disconnectWallet_mode | exact Hinv].
  - unfold run. cbn [world parked].
    eapply inv_same_mode; [apply handleAccountsChanged_mode | exact Hinv].
  - unfold run. cbn [world parked].
    eapply inv_same_mode; [apply handleDisconnect_mode | exact Hinv].
  - (* enableDemoMode *)
    unfold run. cbn [world parked].
    destruct (enableDemoMode_spec w) as (evs & H & _). rewrite H.
    cbn [world_of this]. apply inv_demo; [|exact Hn].
    destruct (this w); reflexivity.
  - (* reward *)
    unfold run. cbn [world parked].
    destruct (sendReward_this recipient amt w) as (h & H).
    rewrite H. eapply inv_same_mode; [|exact Hinv].
    destruct (this w); split; reflexivity.
  - (* balance refresh *)
    unfold run. cbn [world parked].
    destruct (loadBalance_spec amb w) as (evs & _ & H). rewrite H.
    exact Hinv.
  - (* timers *)
    destruct cb; [| exact Hinv | |]; unfold run; cbn [world parked].
    + destruct (showNotification_spec amb
                  "🎭 Demo Mode: Full blockchain simulation active!" "info"
                  (Some 5000%N) w) as (evs & H & _).
      unfold demoNotice. rewrite H. exact Hinv.
    + destruct (loadBalance_spec amb w) as (evs & _ & H). rewrite H.
      exact Hinv.
    + destruct (loadDemoBalance_quiet amb w) as (evs & H & _). rewrite H.
      exact Hinv.
  - exact Hinv.
Qed.

Lemma steps_invariant (inputs : list Input) (sys : System) :
  guard_invariant sys -> guard_invariant (steps amb sys inputs).
Proof.
  revert sys. induction inputs as [|i inputs IH]; intros sys H; [exact H|].
  simpl. apply IH. apply step_invariant. exact H.
Qed.
End Guard.

(* ===================================================================== *)
(** ** The properties of the specification *)
(* ===================================================================== *)

(** C1. In every state of the session (disconnected, connected in demo
    mode, connected in live mode) and for every recipient and requested
    amount, [sendReward] returns, without throwing, the hash of the
    transaction it has just put first in the log. That hash is generated
    on the spot, from
    the prefix of the state the reward was issued in, the clock and up to
    six characters of a random number, so it is not the empty string. *)
Theorem sendReward_never_throws (amb : Ambient) (recipient : option string)
    (requested : option float) (w : World) :
  exists tx w',
    sendReward amb recipient requested w = Returned (hash tx) w'
    /\ hash tx <> ""%string
    /\ hash tx
       = reward_prefix (this w) +:+ JS.digits (Date_now amb (draws w))
         +:+ JS.substr (Math_random_toString36 amb (S (draws w))) 2 6
    /\ head (history w') = Some tx
    /\ history w' = take 50 (tx :: history w)
    /\ amount tx = default 0.01%float requested.
Proof.
  destruct (sendReward_generated amb recipient requested w)
    as (tx & w' & Hr & Hg & Hh & Ha).
  exists tx, w'. split; [exact Hr|]. split; [|split; [exact Hg|]].
  - rewrite Hg. unfold reward_prefix.
    destruct (negb (isConnected (this w))); [discriminate|].
    destruct (demoMode (this w)); discriminate.
  - split; [rewrite Hh; reflexivity|]. split; [exact Hh | exact Ha].
Qed.

(** C2. The transaction log never holds more than 50 entries: after any
    sequence of [recordTransaction] calls on a log within the cap, the log is
    the newest 50 of everything recorded, newest first. Started empty, it
    holds exactly the last 50 records appended, so what has been dropped are
    the first ones appended; and a record appended to a full log evicts the
    oldest entry, the one at the far end, and no other. *)
Theorem transaction_log_capped_fifo (amb : Ambient) (txs : list Transaction)
    (w : World) :
  length (history w) <= 50 ->
  let w' := record_all amb txs w in
  length (history w') <= 50
  /\ history w' = take 50 (rev txs ++ history w)
  /\ (history w = [] -> rev (history w') = drop (length txs - 50) txs)
  /\ (forall tx, length (history w') = 50 ->
        exists kept oldest,
          history w' = kept ++ [oldest]
          /\ history (record_all amb [tx] w') = tx :: kept).
Proof.
  intros Hlen w'.
  assert (Hh : history w' = take 50 (rev txs ++ history w))
    by (apply record_all_history; exact Hlen).
  repeat split.
  - rewrite Hh, length_take. lia.
  - exact Hh.
  - intros Hnil. rewrite Hh, Hnil, app_nil_r.
    rewrite firstn_rev, rev_involutive. reflexivity.
  - intros tx Hfull.
    destruct (exists_last (l := history w')) as (kept & oldest & Hk).
    { intros E. rewrite E in Hfull. discriminate. }
    exists kept, oldest. split; [exact Hk|].
    simpl. rewrite record_step_history, Hk.
    rewrite Hk, length_app in Hfull. simpl in Hfull.
    change (take 50 (tx :: kept ++ [oldest])) with (tx :: take 49 (kept ++ [oldest])).
    f_equal. rewrite take_app_length'; [reflexivity | lia].
Qed.

Lemma transaction_log_capped_fifo_witness :
  length (history fresh_world) <= 50
  /\ rev (history (record_all sample_ambient (map sample_tx (seq 0 51)) fresh_world))
     = map sample_tx (seq 1 50).
Proof.
  split; [vm_compute; lia|].
  destruct (transaction_log_capped_fifo sample_ambient
              (map sample_tx (seq 0 51)) fresh_world) as (_ & _ & H & _).
  - vm_compute; lia.
  - rewrite H; reflexivity.
Defined.

(** C3. Whatever the page, the provider and the timers do to a session that
    starts with no call in flight, at most one [eth_requestAccounts] request
    is awaiting its answer at any time. The guard behind it: a
    [connectWallet()] call made while [isConnecting] is set resolves to
    [false], leaves the manager and the store as they are, sends nothing to
    the provider and parks no new [await]. *)
Theorem connect_guard (amb : Ambient) (sys : System) (inputs : list Input) :
  parked sys = [] ->
  isConnecting (this (world sys)) = false ->
  let sys' := steps amb sys inputs in
  outstanding sys' <= 1
  /\ (isConnecting (this (world sys')) = true ->
      let o := connectWallet_start amb (world sys') in
      value_of o = Some (Settled false)
      /\ this (world_of o) = this (world sys')
      /\ localStorage (world_of o) = localStorage (world sys')
      /\ requests (new_events (world sys') o) = []
      /\ parked (step amb sys' connect) = parked sys').
Proof.
  intros Hp Hc sys'.
  assert (Hinv : guard_invariant sys').
  { apply steps_invariant. unfold guard_invariant. rewrite Hp.
    apply inv_idle. exact Hc. }
  split; [exact (proj1 Hinv)|].
  intros Hbusy. cbv zeta. cbn [step]. unfold run_async.
  rewrite (connectWallet_start_busy amb (world sys') Hbusy).
  rewrite (new_events_app (world sys') _
             [Console log "⚠️ Connection already in progress..."]) by reflexivity.
  repeat split.
Qed.

(** A request for accounts is in flight, two more calls arrive, the user
    accepts, and a last call arrives while the network is being checked. *)
Lemma connect_guard_witness :
  parked (mkSystem fresh_world []) = []
  /\ isConnecting (this fresh_world) = false
  /\ outstanding
       (steps sample_ambient (mkSystem fresh_world [])
              [connect; connect; connect;
               accounts_answer (Fulfilled [live_account]); connect]) <= 1.
Proof.
  split; [reflexivity|]. split; [reflexivity|].
  apply (connect_guard sample_ambient (mkSystem fresh_world [])
           [connect; connect; connect;
            accounts_answer (Fulfilled [live_account]); connect]);
    reflexivity.
Defined.

(** C4, as stated, fails: three attempts in a row that the user declines
    (code 4001) all fail and bring the counter to the maximum of 3, yet the
    session is still in live mode. *)
Lemma three_rejections_stay_live :
  let w1 := world_of (connectWallet sample_ambient user_rejects fresh_world) in
  let w2 := world_of (connectWallet sample_ambient user_rejects w1) in
  let w3 := world_of (connectWallet sample_ambient user_rejects w2) in
  value_of (connectWallet sample_ambient user_rejects fresh_world) = Some (Settled false)
  /\ value_of (connectWallet sample_ambient user_rejects w1) = Some (Settled false)
  /\ value_of (connectWallet sample_ambient user_rejects w2) = Some (Settled false)
  /\ connectionAttempts (this w3) = maxConnectionAttempts (this w3)
  /\ connectionAttempts (this w3) = 3%N
  /\ demoMode (this w3) = false.
Proof. vm_compute. repeat split; reflexivity. Qed.

(** C4, amended. Three failed live attempts in a row, from a counter three
    below the maximum, bring the counter to the maximum. The session is then
    in demo mode unless the third failure was a rejection by the user (code
    4001). In both cases the next [connectWallet()] call sends nothing to the
    provider and leaves the session in demo mode. The provider may come and
    go between the attempts. *)
Theorem exhausted_attempts_fall_back (amb : Ambient) (w0 : World) (p1 p2 p3 p4 : option Provider)
    (s1 s2 s3 s4 : ProviderScript) (e1 e2 e3 : JsError) :
  let w1 := world_of (connectWallet amb s1 (with_provider p1 w0)) in
  let w2 := world_of (connectWallet amb s2 (with_provider p2 w1)) in
  let w3 := world_of (connectWallet amb s3 (with_provider p3 w2)) in
  let o4 := connectWallet amb s4 (with_provider p4 w3) in
  isConnecting (this w0) = false ->
  demoMode (this w0) = false ->
  (connectionAttempts (this w0) + 3 = maxConnectionAttempts (this w0))%N ->
  attempt_error s1 (with_provider p1 w0) = Some e1 ->
  attempt_error s2 (with_provider p2 w1) = Some e2 ->
  attempt_error s3 (with_provider p3 w2) = Some e3 ->
  connectionAttempts (this w3) = maxConnectionAttempts (this w3)
  /\ isConnecting (this w3) = false
  /\ demoMode (this w3) = (if decide (code e3 = Some 4001%Z) then false else true)
  /\ requests (new_events (with_provider p4 w3) o4) = []
  /\ demoMode (this (world_of o4)) = true.
Proof.
  intros w1 w2 w3 o4 Hc Hd Hk E1 E2 E3.
  (* first attempt *)
  destruct (connectWallet_run amb s1 (with_provider p1 w0) Hc) as (v1 & R1 & _).
  destruct (failed_attempt s1 e1 (with_provider p1 w0) Hd ltac:(simpl; lia) E1) as (A1 & _).
  destruct (after_failure_fields e1 (this w0)) as (F1a & F1m & F1c & F1d).
  assert (T1 : this w1 = after_failure e1 (begin_attempt (this w0))).
  { unfold w1. rewrite R1. simpl. exact A1. }
  assert (D1 : demoMode (this w1) = false).
  { rewrite T1, F1d, Hd.
    destruct (decide (code e1 = Some 4001%Z)); [reflexivity|].
    rewrite orb_false_r. apply N.leb_gt. lia. }
  (* second attempt *)
  assert (C1 : isConnecting (this (with_provider p2 w1)) = false)
    by (simpl; rewrite T1; exact F1c).
  destruct (connectWallet_run amb s2 (with_provider p2 w1) C1) as (v2 & R2 & _).
  destruct (failed_attempt s2 e2 (with_provider p2 w1) D1
              ltac:(simpl; rewrite T1, F1a, F1m; lia) E2) as (A2 & _).
  destruct (after_failure_fields e2 (this w1)) as (F2a & F2m & F2c & F2d).
  assert (T2 : this w2 = after_failure e2 (begin_attempt (this w1))).
  { unfold w2. rewrite R2. simpl. exact A2. }
  assert (D2 : demoMode (this w2) = false).
  { rewrite T2, F2d, D1.
    destruct (decide (code e2 = Some 4001%Z)); [reflexivity|].
    rewrite orb_false_r. apply N.leb_gt. rewrite T1, F1a, F1m. lia. }
  (* third attempt *)
  assert (C2 : isConnecting (this (with_provider p3 w2)) = false)
    by (simpl; rewrite T2; exact F2c).
  destruct (connectWallet_run amb s3 (with_provider p3 w2) C2) as (v3 & R3 & _).
  destruct (failed_attempt s3 e3 (with_provider p3 w2) D2
              ltac:(simpl; rewrite T2, F2a, F2m, T1, F1a, F1m; lia) E3) as (A3 & _).
  destruct (after_failure_fields e3 (this w2)) as (F3a & F3m & F3c & F3d).
  assert (T3 : this w3 = after_failure e3 (begin_attempt (this w2))).
  { unfold w3. rewrite R3. simpl. exact A3. }
  assert (N3 : connectionAttempts (this w3) = maxConnectionAttempts (this w3)).
  { rewrite T3, F3a, F3m, T2, F2a, F2m, T1, F1a, F1m. lia. }
  assert (D3 : demoMode (this w3)
               = (if decide (code e3 = Some 4001%Z) then false else true)).
  { rewrite T3, F3d, D2.
    destruct (decide (code e3 = Some 4001%Z)); [reflexivity|].
    rewrite orb_false_r. apply N.leb_le. rewrite T2, F2a, F2m, T1, F1a, F1m. lia. }
  assert (C3 : isConnecting (this (with_provider p4 w3)) = false)
    by (simpl; rewrite T3; exact F3c).
  split; [exact N3|]. split; [exact C3|]. split; [exact D3|].
  (* the next call *)
  destruct (connectWallet_run amb s4 (with_provider p4 w3) C3) as (v4 & R4 & _ & Q4).
  assert (P4 : reaches_provider (with_provider p4 w3) = false).
  { unfold reaches_provider. simpl. rewrite N3, N.ltb_irrefl.
    destruct (demoMode (this w3)); reflexivity. }
  rewrite P4 in Q4. subst o4. split.
  - erewrite new_events_app; [exact Q4 | rewrite R4; reflexivity].
  - rewrite R4. simpl. unfold after_connect. simpl.
    destruct (demoMode (this w3)) eqn:D; [simpl; exact D|].
    rewrite N3, N.leb_refl. reflexivity.
Qed.


(** A provider error, a rejection by the user, and a provider that has gone
    away; then a call with MetaMask back. *)
Lemma exhausted_attempts_fall_back_witness :
  let w1 := world_of (connectWallet sample_ambient provider_fails fresh_world) in
  let w2 := world_of (connectWallet sample_ambient user_rejects w1) in
  let w3 := world_of (connectWallet sample_ambient provider_fails (with_provider None w2)) in
  let o4 := connectWallet sample_ambient user_accepts (with_provider (Some metamask) w3) in
  demoMode (this w3) = true
  /\ requests (new_events (with_provider (Some metamask) w3) o4) = []
  /\ demoMode (this (world_of o4)) = true.
Proof.
  intros w1 w2 w3 o4.
  destruct (exhausted_attempts_fall_back sample_ambient fresh_world
              (Some metamask) (Some metamask) None (Some metamask)
              provider_fails user_rejects provider_fails user_accepts
              {| code := Some (-32603)%Z; message := "Internal JSON-RPC error." |}
              {| code := Some 4001%Z; message := "User rejected the request." |}
              unavailable_error)
    as (_ & _ & H3 & H4 & H5); try (vm_compute; reflexivity).
  split; [exact H3|]. split; [exact H4 | exact H5].
Defined.


(** C5. The balance [loadBalance] derives is a function of the contribution
    count and the mode alone: two sessions with the same count and the same
    mode never derive different balances. In demo mode it is
    [(0.123 + n * 0.01).toFixed(3)] and in live mode [(n * 0.01).toFixed(3)],
    the same product with and without the baseline (a live session without
    account or [web3] derives nothing). Deriving it leaves the manager as it
    is, so deriving it again gives the same. *)
Theorem balance_pure_function (amb1 amb2 : Ambient) (w1 w2 : World) :
  contributions amb1 w1 = contributions amb2 w2 ->
  demoMode (this w1) = demoMode (this w2) ->
  let n := contributions amb1 w1 in
  (forall b1 b2, In b1 (derived_balance amb1 w1) ->
                 In b2 (derived_balance amb2 w2) -> b1 = b2)
  /\ derived_balance amb1 w1 =
       (if demoMode (this w1)
        then [JS.toFixed (0.123 + JS.ofN n * 0.01)%float 3]
        else if truthy (account (this w1)) && web3 (this w1)
             then [JS.toFixed (JS.ofN n * 0.01)%float 3]
             else [])
  /\ (let w1' := world_of (loadBalance amb1 w1) in
      this w1' = this w1
      /\ derived_balance amb1 w1' = derived_balance amb1 w1).
Proof.
  intros Hn Hm n.
  assert (Hclosed : forall a w, derived_balance a w =
       (if demoMode (this w)
        then [JS.toFixed (0.123 + JS.ofN (contributions a w) * 0.01)%float 3]
        else if truthy (account (this w)) && web3 (this w)
             then [JS.toFixed (JS.ofN (contributions a w) * 0.01)%float 3]
             else [])).
  { intros a w. rewrite derived_balance_closed. unfold balance_call.
    destruct (demoMode (this w)); [reflexivity|].
    destruct (truthy (account (this w)) && web3 (this w)); reflexivity. }
  split; [|split].
  - intros b1 b2. rewrite !Hclosed, <- Hm, <- Hn.
    destruct (demoMode (this w1)).
    + intros [<-|[]] [<-|[]]. reflexivity.
    + destruct (truthy (account (this w1)) && web3 (this w1)); [|intros []].
      destruct (truthy (account (this w2)) && web3 (this w2)); [|intros _ []].
      intros [<-|[]] [<-|[]]. reflexivity.
  - apply Hclosed.
  - destruct (loadBalance_spec amb1 w1) as (evs & _ & H).
    rewrite H. simpl. split; [reflexivity|].
    rewrite !Hclosed. simpl.
    rewrite (contributions_store amb1 (extend w1 _) w1); reflexivity.
Qed.

(** Two demo sessions with three contributions each, with different accounts
    and traces. *)
Lemma balance_pure_function_witness :
  derived_balance sample_ambient live_world = ["0.030"%string]
  /\ derived_balance sample_ambient demo_world = ["0.153"%string]
  /\ (forall b1 b2,
        In b1 (derived_balance sample_ambient demo_world) ->
        In b2 (derived_balance sample_ambient
                 (mkWorld (connected other_account (demo_fallback constructor))
                    (Some metamask) stored_contributions [UpdateConnectingUI] 7)) ->
        b1 = b2).
Proof.
  split; [vm_compute; reflexivity|]. split; [vm_compute; reflexivity|].
  apply (balance_pure_function sample_ambient sample_ambient demo_world
           (mkWorld (connected other_account (demo_fallback constructor))
              (Some metamask) stored_contributions [UpdateConnectingUI] 7));
    vm_compute; reflexivity.
Defined.

(** C6. In a connected session that is not connecting, an [accountsChanged]
    event that delivers the current account changes neither the manager nor
    the store and reloads no balance (it writes one line to the console); an
    event that delivers another account makes it the account and derives the
    balance anew. The handler is subscribed once [web3] is built, which is
    what the live case of the reload needs; an address is not the empty
    string. *)
Theorem accountsChanged_contract (amb : Ambient) (w : World) (a b : string) (l : list string) :
  isConnecting (this w) = false ->
  isConnected (this w) = true ->
  account (this w) = Some a ->
  demoMode (this w) = true \/ web3 (this w) = true ->
  b <> a -> b <> ""%string ->
  (let o := handleAccountsChanged amb (a :: l) w in
   this (world_of o) = this w
   /\ localStorage (world_of o) = localStorage w
   /\ new_events w o = [Console log "🔄 Handling account change..."]
   /\ balances (new_events w o) = [])
  /\ (let o := handleAccountsChanged amb (b :: l) w in
      let n := contributions amb w in
      account (this (world_of o)) = Some b
      /\ isConnected (this (world_of o)) = true
      /\ demoMode (this (world_of o)) = demoMode (this w)
      /\ balances (new_events w o) =
           [if demoMode (this w)
            then JS.toFixed (0.123 + JS.ofN n * 0.01)%float 3
            else JS.toFixed (JS.ofN n * 0.01)%float 3]).
Proof.
  intros Hc Hco Ha Hw Hba Hb. split.
  - cbv zeta. rewrite (handleAccountsChanged_same amb a l w Hc Ha).
    rewrite (new_events_app w _ [Console log "🔄 Handling account change..."])
      by reflexivity.
    repeat split.
  - cbv zeta.
    assert (Hne : account (this w) <> Some b) by (rewrite Ha; congruence).
    destruct (handleAccountsChanged_switch amb b l w Hc Hne) as (evs & H & B & _).
    rewrite H. cbn [world_of this].
    erewrite new_events_app; [|reflexivity]. rewrite B.
    unfold balance_call.
    destruct w as [m eth st tr d].
    destruct m as [wb ac co cg ini en dm pool th att mx ls tmo].
    cbn in *. repeat split.
    destruct dm; [reflexivity|].
    destruct Hw as [Hw|Hw]; [discriminate|]. subst wb.
    destruct b; [contradiction|]. reflexivity.
Qed.

Lemma accountsChanged_contract_witness :
  new_events live_world (handleAccountsChanged sample_ambient [live_account] live_world)
  = [Console log "🔄 Handling account change..."]
  /\ balances (new_events live_world
                 (handleAccountsChanged sample_ambient [other_account] live_world))
     = ["0.030"%string].
Proof.
  destruct (accountsChanged_contract sample_ambient live_world live_account
              other_account [])
    as ((_ & _ & H1 & _) & (_ & _ & _ & H2)); try (vm_compute; reflexivity).
  - right. reflexivity.
  - discriminate.
  - discriminate.
  - split; [exact H1|]. rewrite H2. vm_compute. reflexivity.
Defined.

(** C7, as stated, fails: a live attempt that finds MetaMask busy is counted
    as an attempt, and fails before the button is put into its
    "Connecting..." state; the only notification it sends to the sink is the
    failure. *)
Lemma connecting_not_shown_when_unavailable :
  let w := with_provider (Some metamask_busy) (mkWorld initialized None ∅ [] 0) in
  let o := connectWallet sample_ambient user_accepts w in
  isConnecting (this w) = false
  /\ makes_attempt w = true
  /\ connectionAttempts (this (world_of o)) = 1%N
  /\ connecting_shown (new_events w o) = 0
  /\ connecting_notified (new_events w o) = 0
  /\ notifications (new_events w o) = ["❌ Connection failed, please try again"%string].
Proof. vm_compute. repeat split; reflexivity. Qed.

(** C7, amended. A [connectWallet()] call that passes the in-flight guard
    puts the connect button into its "Connecting..." state exactly once when it
    takes the demo path or when it is a live attempt that finds MetaMask
    available, and not at all otherwise. Only the demo path also tells the
    notification sink that a connection is being made, once, where the sink
    is loaded; a live attempt sends it no such message. *)
Theorem connecting_shown_once (amb : Ambient) (script : ProviderScript) (w : World) :
  isConnecting (this w) = false ->
  let evs := new_events w (connectWallet amb script w) in
  connecting_shown evs
  = (if demoMode (this w) || reaches_provider w then 1 else 0)
  /\ connecting_notified evs
     = (if demoMode (this w) && showNotification_defined amb then 1 else 0).
Proof.
  intros Hc evs. destruct (connectWallet_run amb script w Hc) as (tr & R & S & _).
  assert (E : evs = tr) by (apply new_events_app; rewrite R; reflexivity).
  rewrite E. unfold connecting_signals in S. inversion S. split; reflexivity.
Qed.

(** A live attempt with MetaMask available, and an attempt in demo mode. *)
Lemma connecting_shown_once_witness :
  connecting_shown
    (new_events fresh_world (connectWallet sample_ambient user_accepts fresh_world))
  = 1
  /\ connecting_notified
       (new_events fresh_world (connectWallet sample_ambient user_accepts fresh_world))
     = 0
  /\ connecting_shown
       (new_events demo_world (connectWallet sample_ambient user_accepts demo_world))
     = 1
  /\ connecting_notified
       (new_events demo_world (connectWallet sample_ambient user_accepts demo_world))
     = 1.
Proof.
  destruct (connecting_shown_once sample_ambient user_accepts fresh_world eq_refl)
    as (H1 & H2).
  destruct (connecting_shown_once sample_ambient user_accepts demo_world eq_refl)
    as (H3 & H4).
  split; [exact H1|]. split; [exact H2|]. split; [exact H3 | exact H4].
Defined.



(** C9. [disconnectWallet()] changes at most the account, the connected
    flag and the attempt counter: the mode, the reward log, the initialized
    flag and the store stay as they are. So a session in demo mode is still in
    demo mode after disconnecting, and the next [connectWallet()] takes the
    demo path: it connects the demo account without a request to the
    provider. *)
Theorem disconnect_frame (amb : Ambient) (w : World) (script : ProviderScript) :
  let w' := world_of (disconnectWallet amb w) in
  demoMode (this w') = demoMode (this w)
  /\ history w' = history w
  /\ isInitialized (this w') = isInitialized (this w)
  /\ localStorage w' = localStorage w
  /\ (exists a c n,
        this w' = set_connectionAttempts n
                    (set_isConnected c (set_account a (this w))))
  /\ (demoMode (this w) = true -> isConnecting (this w) = false ->
      connectWallet_start amb w' = connectDemoWallet_start amb w'
      /\ let o := connectWallet amb script w' in
         value_of o = Some (Settled true)
         /\ requests (new_events w' o) = []
         /\ demoMode (this (world_of o)) = true
         /\ account (this (world_of o)) = Some demo_account).
Proof.
  intros w'. subst w'. rewrite disconnectWallet_spec. cbn [world_of].
  destruct w as [m eth st tr d].
  destruct m as [wb ac co cg ini en dm pool th att mx ls tmo].
  cbn [this isConnecting demoMode]. destruct cg.
  - repeat split; try discriminate. exists ac, co, att. reflexivity.
  - split; [reflexivity|]. split; [reflexivity|]. split; [reflexivity|].
    split; [reflexivity|]. split; [exists None, false, 0%N; reflexivity|].
    intros -> _. set (w1 := mkWorld _ _ _ _ _).
    split; [apply connectWallet_start_demo; reflexivity|].
    destruct (connectWallet_run amb script w1 eq_refl) as (evs & R & _ & Q).
    cbv zeta. rewrite R. cbn [value_of world_of this].
    rewrite (new_events_app w1 _ evs) by reflexivity.
    repeat split. exact Q.
Qed.

Lemma disconnect_frame_witness :
  let w' := world_of (disconnectWallet sample_ambient demo_world) in
  let o := connectWallet sample_ambient user_accepts w' in
  demoMode (this w') = true
  /\ value_of o = Some (Settled true)
  /\ requests (new_events w' o) = [].
Proof.
  intros w' o.
  destruct (disconnect_frame sample_ambient demo_world user_accepts)
    as (H1 & _ & _ & _ & _ & H6).
  destruct (H6 eq_refl eq_refl) as (_ & H7 & H8 & _).
  split; [exact H1|]. split; [exact H7 | exact H8].
Defined.

Lemma toString_default_amount : JS.toString 0.01%float = "0.01"%string.
Proof. vm_compute. reflexivity. Qed.

(** C10. [sendReward] called without an amount uses the default 0.01, in
    every session state and for every recipient: the hash it returns is
    that of the record it puts at the front of the log, this record has the
    amount 0.01, and the notification it emits names "0.01". The feedback
    form makes such a call, [web3Manager.sendReward(web3Manager.account)]
    (app.js:823), with the account as the only argument. *)
Theorem sendReward_default_amount (amb : Ambient) (recipient : option string)
    (w : World) :
  (exists tx w',
     sendReward amb recipient None w = Returned (hash tx) w'
     /\ head (history w') = Some tx
     /\ amount tx = 0.01%float)
  /\ notifications (new_events w (sendReward amb recipient None w)) =
       (if showNotification_defined amb
        then [reward_message (this w) "0.01"] else []).
Proof.
  destruct (sendReward_returns amb recipient None w)
    as (tx & w' & evs & Hr & _ & Ha & Hh & Htr & Hn).
  split.
  - exists tx, w'. split; [exact Hr|]. split; [|exact Ha].
    rewrite Hh. reflexivity.
  - rewrite (new_events_app w _ evs); [|rewrite Hr; exact Htr].
    rewrite Hn. change (default 0.01%float None) with 0.01%float.
    rewrite toString_default_amount. reflexivity.
Qed.

(* ===================================================================== *)
(** ** Further properties of the code *)
(* ===================================================================== *)

(* ===================================================================== *)
(** ** Invariants of the session *)
(* ===================================================================== *)

Section Steps.
Variable amb : Ambient.

Lemma sendReward_manager (r : option string) (a : option float) (w : World) :
  exists tx, this (world_of (sendReward amb r a w))
             = set_transactionHistory (take 50 (tx :: transactionHistory (this w)))
                                      (this w).
Proof.
  destruct (sendReward_returns amb r a w) as (tx & w' & evs & Hr & _ & _ & Hh & _).
  destruct (sendReward_this amb r a w) as (h & Ht).
  exists tx. rewrite Ht. rewrite Hr in Ht. cbn [world_of] in Ht.
  unfold history in Hh. rewrite Ht in Hh.
  destruct (this w); cbn in *. rewrite Hh. reflexivity.
Qed.

Lemma disconnectWallet_manager (w : World) :
  manager_step (this w) (this (world_of (disconnectWallet amb w))).
Proof.
  rewrite disconnectWallet_spec. cbn [world_of].
  destruct (isConnecting (this w)); [apply ms_same | apply ms_disconnect].
Qed.

Lemma handleDisconnect_manager (w : World) :
  manager_step (this w) (this (world_of (handleDisconnect amb w))).
Proof.
  unfold handleDisconnect. unfold bind at 1. unfold get_this at 1.
  destruct (isConnecting (this w)) eqn:E; [apply ms_same|].
  unfold bind, emit.
  match goal with |- context [disconnectWallet amb ?w0] =>
    pose proof (disconnectWallet_manager w0) as H;
    rewrite (disconnectWallet_spec amb w0) in H |- * end.
  exact H.
Qed.

Lemma handleAccountsChanged_manager (accounts : list string) (w : World) :
  manager_step (this w) (this (world_of (handleAccountsChanged amb accounts w))).
Proof.
  destruct (isConnecting (this w)) eqn:Hc.
  - unfold handleAccountsChanged, bind, get_this. rewrite Hc. apply ms_same.
  - destruct accounts as [|b l].
    + unfold handleAccountsChanged. unfold bind at 1. unfold get_this at 1. rewrite Hc.
      unfold bind at 1. unfold emit at 1.
      destruct (isConnected (this w)); [|apply ms_same].
      unfold bind, emit.
      match goal with |- context [disconnectWallet amb ?w0] =>
        pose proof (disconnectWallet_manager w0) as H;
        rewrite (disconnectWallet_spec amb w0) in H |- * end.
      exact H.
    + destruct (decide (account (this w) = Some b)) as [E|N].
      * rewrite handleAccountsChanged_same by assumption. apply ms_same.
      * destruct (handleAccountsChanged_switch amb b l w Hc N) as (evs & H & _).
        rewrite H. apply ms_switch.
Qed.

Lemma step_manager (sys : System) (i : Input) :
  manager_step (this (world sys)) (this (world (step amb sys i))).
Proof.
  destruct sys as [w l].
  destruct i as [|answer|ans| | |accounts| | |recipient amt| |cb|p];
    cbn [step world parked].
  - unfold run_async.
    destruct (isConnecting (this w)) eqn:Hc.
    { rewrite (connectWallet_start_busy amb w Hc). apply ms_same. }
    destruct (demoMode (this w)) eqn:Hd.
    { rewrite (connectWallet_start_demo amb w Hc Hd).
      destruct (connectDemoWallet_start_spec amb w Hc) as (evs & H & _).
      rewrite H. apply ms_demo_start. }
    destruct (N.ltb_spec (connectionAttempts (this w)) (maxConnectionAttempts (this w)))
      as [Hlt|Hge].
    + destruct (available w) eqn:Hav.
      * rewrite (connectWallet_start_live amb w Hc Hd Hlt Hav).
        apply ms_begin; assumption.
      * destruct (connectWallet_start_unavailable amb w Hc Hd Hlt Hav) as (evs & H & _).
        rewrite H. apply ms_begin_fail. exact Hlt.
    + destruct (connectWallet_start_exhausted amb w Hc Hd Hge) as (evs & H & _).
      rewrite H. apply ms_fallback.
  - destruct (unpark is_request l) as [[s rest]|] eqn:U; [|apply ms_same].
    unfold run_async. destruct (failure_of answer) as [err|] eqn:F.
    + destruct (connectWallet_accounts_failure amb answer err w F) as (evs & H & _).
      rewrite H. apply ms_fail.
    + destruct answer as [[|a acc]|e]; try discriminate F.
      destruct (connectWallet_accounts_success amb a acc w) as (rq & evs & H & _).
      rewrite H. apply ms_accounts.
  - destruct (unpark is_network l) as [[[|rq|] rest]|] eqn:U; try apply ms_same.
    unfold run_async.
    destruct (connectWallet_network_spec amb rq ans w) as (evs & H & _).
    rewrite H. apply ms_release.
  - destruct (unpark is_demo_delay l) as [[s rest]|] eqn:U; [|apply ms_same].
    unfold run_async.
    destruct (connectDemoWallet_resume_spec amb w) as (evs & H & _).
    rewrite H. apply ms_demo_done.
  - apply disconnectWallet_manager.
  - apply handleAccountsChanged_manager.
  - apply handleDisconnect_manager.
  - unfold run. cbn [world parked].
    destruct (enableDemoMode_spec w) as (evs & H & _). rewrite H. apply ms_fallback.
  - unfold run. cbn [world parked].
    destruct (sendReward_manager recipient amt w) as (tx & H). rewrite H.
    apply ms_record.
  - unfold run. cbn [world parked].
    destruct (loadBalance_spec amb w) as (evs & _ & H). rewrite H. apply ms_same.
  - destruct cb; [| apply ms_same | |]; unfold run; cbn [world parked].
    + destruct (showNotification_spec amb
                  "🎭 Demo Mode: Full blockchain simulation active!" "info"
                  (Some 5000%N) w) as (evs & H & _).
      unfold demoNotice. rewrite H. apply ms_same.
    + destruct (loadBalance_spec amb w) as (evs & _ & H). rewrite H. apply ms_same.
    + destruct (loadDemoBalance_quiet amb w) as (evs & H & _). rewrite H. apply ms_same.
  - apply ms_same.
Qed.

Lemma steps_manager_invariant (P : Web3ManagerStable -> Prop) :
  (forall m m', manager_step m m' -> P m -> P m') ->
  forall inputs sys,
    P (this (world sys)) -> P (this (world (steps amb sys inputs))).
Proof.
  intros HP inputs. induction inputs as [|i inputs IH]; intros sys H; [exact H|].
  simpl. apply IH. eapply HP; [apply step_manager | exact H].
Qed.
End Steps.

Lemma manager_step_consistent (m m' : Web3ManagerStable) :
  manager_step m m' -> connected_consistent m -> connected_consistent m'.
Proof.
  unfold connected_consistent.
  intros H; destruct H; destruct m as [wb ac co cg ini en dm pool th att mx ls tmo];
    unfold after_failure, begin_attempt, demo_fallback; cbn;
    repeat match goal with
           | |- context [if ?b then _ else _] => destruct b
           end; cbn; try tauto;
    intros _; split; intros; congruence.
Qed.

Lemma manager_step_settings (m m' : Web3ManagerStable) :
  manager_step m m' -> settings m' = settings m.
Proof.
  intros H; destruct H; destruct m as [wb ac co cg ini en dm pool th att mx ls tmo];
    unfold after_failure, begin_attempt, demo_fallback, settings; cbn;
    repeat match goal with
           | |- context [if ?b then _ else _] => destruct b
           end; reflexivity.
Qed.

Lemma manager_step_attempts (m m' : Web3ManagerStable) :
  manager_step m m' ->
  (connectionAttempts m <= maxConnectionAttempts m)%N ->
  (connectionAttempts m' <= maxConnectionAttempts m')%N.
Proof.
  intros H; destruct H; destruct m as [wb ac co cg ini en dm pool th att mx ls tmo];
    unfold after_failure, begin_attempt, demo_fallback; cbn in *;
    repeat match goal with
           | |- context [if ?b then _ else _] => destruct b
           end; cbn; lia.
Qed.

Lemma manager_step_demo (m m' : Web3ManagerStable) :
  manager_step m m' -> demoMode m = true -> demoMode m' = true.
Proof.
  intros H; destruct H; destruct m as [wb ac co cg ini en dm pool th att mx ls tmo];
    unfold after_failure, begin_attempt, demo_fallback; cbn in *;
    repeat match goal with
           | |- context [if ?b then _ else _] => destruct b
           end; cbn; congruence.
Qed.

Lemma manager_step_history (m m' : Web3ManagerStable) :
  manager_step m m' ->
  length (transactionHistory m) <= 50 -> length (transactionHistory m') <= 50.
Proof.
  intros H; destruct H; destruct m as [wb ac co cg ini en dm pool th att mx ls tmo];
    unfold after_failure, begin_attempt, demo_fallback; cbn [transactionHistory set_transactionHistory set_isConnecting set_account set_isConnected set_connectionAttempts set_demoMode set_isInitialized] in *;
    repeat match goal with
           | |- context [if ?b then _ else _] => destruct b
           end; cbn [transactionHistory set_transactionHistory set_isConnecting set_account set_isConnected set_connectionAttempts set_demoMode set_isInitialized]; try lia.
  intros _. rewrite length_take. lia.
Qed.

Section Steps2.
Variable amb : Ambient.

Lemma app_unit_not_nil {A} (l : list A) (x : A) : l ++ [x] <> [].
Proof. destruct l; discriminate. Qed.

Lemma step_flag_backed (sys : System) (i : Input) :
  flag_backed sys -> flag_backed (step amb sys i).
Proof.
  destruct sys as [w l]. unfold flag_backed. cbn [world parked]. intros Hb.
  destruct i as [|answer|ans| | |accounts| | |recipient amt| |cb|p];
    cbn [step world parked].
  - unfold run_async.
    destruct (isConnecting (this w)) eqn:Hc.
    { rewrite (connectWallet_start_busy amb w Hc). cbn [world parked world_of this extend].
      intros _. apply Hb. reflexivity. }
    destruct (demoMode (this w)) eqn:Hd.
    { rewrite (connectWallet_start_demo amb w Hc Hd).
      destruct (connectDemoWallet_start_spec amb w Hc) as (evs & H & _).
      rewrite H. cbn [world parked]. intros _. apply app_unit_not_nil. }
    destruct (N.ltb_spec (connectionAttempts (this w)) (maxConnectionAttempts (this w)))
      as [Hlt|Hge].
    + destruct (available w) eqn:Hav.
      * rewrite (connectWallet_start_live amb w Hc Hd Hlt Hav).
        cbn [world parked]. intros _. apply app_unit_not_nil.
      * destruct (connectWallet_start_unavailable amb w Hc Hd Hlt Hav) as (evs & H & _).
        rewrite H. cbn [world parked world_of this].
        rewrite (proj1 (after_failure_mode _ _)). discriminate.
    + destruct (connectWallet_start_exhausted amb w Hc Hd Hge) as (evs & H & _).
      rewrite H. cbn [world parked world_of this].
      destruct (this w); discriminate.
  - destruct (unpark is_request l) as [[s rest]|] eqn:U; [|exact Hb].
    unfold run_async. destruct (failure_of answer) as [err|] eqn:F.
    + destruct (connectWallet_accounts_failure amb answer err w F) as (evs & H & _).
      rewrite H. cbn [world parked world_of this].
      rewrite (proj1 (after_failure_mode _ _)). discriminate.
    + destruct answer as [[|a acc]|e]; try discriminate F.
      destruct (connectWallet_accounts_success amb a acc w) as (rq & evs & H & _).
      rewrite H. cbn [world parked]. intros _. apply app_unit_not_nil.
  - destruct (unpark is_network l) as [[[|rq|] rest]|] eqn:U; try exact Hb.
    unfold run_async.
    destruct (connectWallet_network_spec amb rq ans w) as (evs & H & _).
    rewrite H. cbn [world parked world_of this]. destruct (this w); discriminate.
  - destruct (unpark is_demo_delay l) as [[s rest]|] eqn:U; [|exact Hb].
    unfold run_async.
    destruct (connectDemoWallet_resume_spec amb w) as (evs & H & _).
    rewrite H. cbn [world parked world_of this]. destruct (this w); discriminate.
  - unfold run. cbn [world parked].
    rewrite (proj1 (disconnectWallet_mode amb w)). exact Hb.
  - unfold run. cbn [world parked].
    rewrite (proj1 (handleAccountsChanged_mode amb accounts w)). exact Hb.
  - unfold run. cbn [world parked].
    rewrite (proj1 (handleDisconnect_mode amb w)). exact Hb.
  - unfold run. cbn [world parked].
    destruct (enableDemoMode_spec w) as (evs & H & _). rewrite H.
    cbn [world_of this]. destruct (this w); discriminate.
  - unfold run. cbn [world parked].
    destruct (sendReward_this amb recipient amt w) as (h & H). rewrite H.
    destruct (this w); exact Hb.
  - unfold run. cbn [world parked].
    destruct (loadBalance_spec amb w) as (evs & _ & H). rewrite H. exact Hb.
  - destruct cb; [| exact Hb | |]; unfold run; cbn [world parked].
    + destruct (showNotification_spec amb
                  "🎭 Demo Mode: Full blockchain simulation active!" "info"
                  (Some 5000%N) w) as (evs & H & _).
      unfold demoNotice. rewrite H. exact Hb.
    + destruct (loadBalance_spec amb w) as (evs & _ & H). rewrite H. exact Hb.
    + destruct (loadDemoBalance_quiet amb w) as (evs & H & _). rewrite H. exact Hb.
  - exact Hb.
Qed.

Lemma steps_flag_backed (inputs : list Input) (sys : System) :
  flag_backed sys -> flag_backed (steps amb sys inputs).
Proof.
  revert sys. induction inputs as [|i inputs IH]; intros sys H; [exact H|].
  simpl. apply IH. apply step_flag_backed. exact H.
Qed.

Lemma disconnectWallet_store (w : World) :
  store_kept w (world_of (disconnectWallet amb w)).
Proof.
  rewrite disconnectWallet_spec. destruct w as [m eth st tr d].
  destruct m as [wb ac co cg ini en dm pool th att mx ls tmo].
  destruct cg; split; reflexivity.
Qed.

Lemma handleDisconnect_store (w : World) :
  store_kept w (world_of (handleDisconnect amb w)).
Proof.
  unfold handleDisconnect. unfold bind at 1. unfold get_this at 1.
  destruct (isConnecting (this w)) eqn:E; [split; reflexivity|].
  unfold bind, emit.
  match goal with |- context [disconnectWallet amb ?w0] =>
    pose proof (disconnectWallet_store w0) as H;
    rewrite (disconnectWallet_spec amb w0) in H |- * end.
  exact H.
Qed.

Lemma handleAccountsChanged_store (accounts : list string) (w : World) :
  store_kept w (world_of (handleAccountsChanged amb accounts w)).
Proof.
  destruct (isConnecting (this w)) eqn:Hc.
  - unfold handleAccountsChanged, bind, get_this. rewrite Hc. split; reflexivity.
  - destruct accounts as [|b l].
    + unfold handleAccountsChanged. unfold bind at 1. unfold get_this at 1.
      rewrite Hc. unfold bind at 1. unfold emit at 1.
      destruct (isConnected (this w)); [|split; reflexivity].
      unfold bind, emit.
      match goal with |- context [disconnectWallet amb ?w0] =>
        pose proof (disconnectWallet_store w0) as H;
        rewrite (disconnectWallet_spec amb w0) in H |- * end.
      exact H.
    + destruct (decide (account (this w) = Some b)) as [E|N].
      * rewrite handleAccountsChanged_same by assumption. split; reflexivity.
      * destruct (handleAccountsChanged_switch amb b l w Hc N) as (evs & H & _).
        rewrite H. unfold store_kept, history. destruct (this w); split; reflexivity.
Qed.

(** Only a reward writes to the store. *)
Lemma step_store (sys : System) (i : Input) :
  is_reward i = false -> store_kept (world sys) (world (step amb sys i)).
Proof.
  destruct sys as [w l]. intros Hi. unfold store_kept.
  destruct i as [|answer|ans| | |accounts| | |recipient amt| |cb|p];
    try discriminate Hi; cbn [step world parked].
  - unfold run_async.
    destruct (isConnecting (this w)) eqn:Hc.
    { rewrite (connectWallet_start_busy amb w Hc). split; reflexivity. }
    destruct (demoMode (this w)) eqn:Hd.
    { rewrite (connectWallet_start_demo amb w Hc Hd).
      destruct (connectDemoWallet_start_spec amb w Hc) as (evs & H & _).
      rewrite H. unfold history. destruct (this w); split; reflexivity. }
    destruct (N.ltb_spec (connectionAttempts (this w)) (maxConnectionAttempts (this w)))
      as [Hlt|Hge].
    + destruct (available w) eqn:Hav.
      * rewrite (connectWallet_start_live amb w Hc Hd Hlt Hav).
        unfold history. destruct (this w); split; reflexivity.
      * destruct (connectWallet_start_unavailable amb w Hc Hd Hlt Hav) as (evs & H & _).
        rewrite H. unfold history, after_failure, begin_attempt, demo_fallback.
        cbn [world world_of this localStorage].
        destruct (this w); cbn;
          repeat match goal with
                 | |- context [if ?b then _ else _] => destruct b
                 end; split; reflexivity.
    + destruct (connectWallet_start_exhausted amb w Hc Hd Hge) as (evs & H & _).
      rewrite H. unfold history. destruct (this w); split; reflexivity.
  - destruct (unpark is_request l) as [[s rest]|] eqn:U; [|split; reflexivity].
    unfold run_async. destruct (failure_of answer) as [err|] eqn:F.
    + destruct (connectWallet_accounts_failure amb answer err w F) as (evs & H & _).
      rewrite H. unfold history, after_failure, demo_fallback.
      cbn [world world_of this localStorage].
      destruct (this w); cbn;
        repeat match goal with
               | |- context [if ?b then _ else _] => destruct b
               end; split; reflexivity.
    + destruct answer as [[|a acc]|e]; try discriminate F.
      destruct (connectWallet_accounts_success amb a acc w) as (rq & evs & H & _).
      rewrite H. unfold history. destruct (this w); split; reflexivity.
  - destruct (unpark is_network l) as [[[|rq|] rest]|] eqn:U; try (split; reflexivity).
    unfold run_async.
    destruct (connectWallet_network_spec amb rq ans w) as (evs & H & _).
    rewrite H. unfold history. destruct (this w); split; reflexivity.
  - destruct (unpark is_demo_delay l) as [[s rest]|] eqn:U; [|split; reflexivity].
    unfold run_async.
    destruct (connectDemoWallet_resume_spec amb w) as (evs & H & _).
    rewrite H. unfold history. destruct (this w); split; reflexivity.
  - apply disconnectWallet_store.
  - apply handleAccountsChanged_store.
  - apply handleDisconnect_store.
  - unfold run. cbn [world parked].
    destruct (enableDemoMode_spec w) as (evs & H & _). rewrite H.
    unfold history. destruct (this w); split; reflexivity.
  - unfold run. cbn [world parked].
    destruct (loadBalance_spec amb w) as (evs & _ & H). rewrite H. split; reflexivity.
  - destruct cb; [| split; reflexivity | |]; unfold run; cbn [world parked].
    + destruct (showNotification_spec amb
                  "🎭 Demo Mode: Full blockchain simulation active!" "info"
                  (Some 5000%N) w) as (evs & H & _).
      unfold demoNotice. rewrite H. split; reflexivity.
    + destruct (loadBalance_spec amb w) as (evs & _ & H). rewrite H. split; reflexivity.
    + destruct (loadDemoBalance_quiet amb w) as (evs & H & _). rewrite H. split; reflexivity.
  - split; reflexivity.
Qed.
End Steps2.

Lemma steps_store (amb : Ambient) (inputs : list Input) (sys : System) :
  forallb (fun i => negb (is_reward i)) inputs = true ->
  store_kept (world sys) (world (steps amb sys inputs)).
Proof.
  revert sys. induction inputs as [|i inputs IH]; intros sys H.
  - split; reflexivity.
  - simpl in H. apply andb_prop in H as [Hi H].
    apply negb_true_iff in Hi.
    destruct (step_store amb sys i Hi) as [S1 S2].
    destruct (IH (step amb sys i) H) as [T1 T2].
    simpl. split; congruence.
Qed.

(** X1. Through every sequence of page calls, provider answers, timers and
    provider events, a session that starts with isConnected and account in
    agreement keeps them so: getStats() reports connected exactly when it
    reports an account. *)
Theorem stats_connected_iff_account (amb : Ambient) (inputs : list Input)
    (sys : System) :
  connected_consistent (this (world sys)) ->
  let s := getStats (this (world (steps amb sys inputs))) in
  Stats.connected s = true <-> Stats.account s <> None.
Proof.
  intros H. cbv zeta. unfold getStats. cbn [Stats.connected Stats.account].
  revert H.
  apply (steps_manager_invariant amb connected_consistent).
  intros m m' Hs. apply manager_step_consistent. exact Hs.
Qed.

Lemma stats_connected_iff_account_witness :
  let s := getStats (this (world (steps sample_ambient (mkSystem fresh_world [])
             [connect; accounts_answer (Fulfilled [live_account]);
              network_answer network_ok; accountsChanged []]))) in
  Stats.connected s = true <-> Stats.account s <> None.
Proof.
  apply (stats_connected_iff_account sample_ambient
           [connect; accounts_answer (Fulfilled [live_account]);
            network_answer network_ok; accountsChanged []]
           (mkSystem fresh_world [])).
  split; [discriminate | intros H; exfalso; apply H; reflexivity].
Defined.

(** X2. Whatever happens in a session, the rewardCount that getStats()
    reports never exceeds 50 when the log started with at most 50 records. *)
Theorem reward_count_capped (amb : Ambient) (inputs : list Input) (sys : System) :
  length (history (world sys)) <= 50 ->
  Stats.rewardCount (getStats (this (world (steps amb sys inputs)))) <= 50.
Proof.
  intros H. unfold getStats. cbn [Stats.rewardCount].
  revert H. unfold history.
  apply (steps_manager_invariant amb
           (fun m => length (transactionHistory m) <= 50)).
  intros m m' Hs. apply manager_step_history. exact Hs.
Qed.

Lemma reward_count_capped_witness :
  Stats.rewardCount
    (getStats (this (world (steps sample_ambient (mkSystem fresh_world [])
       (repeat (reward (Some live_account) None) 60))))) <= 50.
Proof.
  apply (reward_count_capped sample_ambient
           (repeat (reward (Some live_account) None) 60)
           (mkSystem fresh_world [])).
  vm_compute. lia.
Defined.

(** X3. Only sendReward writes: any sequence of inputs without a reward
    (connect, provider answers, disconnect, account changes, provider
    disconnect, demo fallback, balance refresh, timers) leaves localStorage
    and the reward log exactly as they were. *)
Theorem only_rewards_reach_the_store (amb : Ambient) (inputs : list Input)
    (sys : System) :
  forallb (fun i => negb (is_reward i)) inputs = true ->
  localStorage (world (steps amb sys inputs)) = localStorage (world sys)
  /\ history (world (steps amb sys inputs)) = history (world sys).
Proof.
  intros H. exact (steps_store amb inputs sys H).
Qed.

Lemma only_rewards_reach_the_store_witness :
  let sys := mkSystem live_world [] in
  let inputs := [disconnect; connect; accounts_answer (Rejected
                   {| code := Some 4001%Z; message := "User rejected the request." |});
                 refresh_balance; provider_disconnect; init_fallback] in
  localStorage (world (steps sample_ambient sys inputs)) = localStorage (world sys)
  /\ history (world (steps sample_ambient sys inputs)) = history (world sys).
Proof.
  intros sys inputs.
  apply (only_rewards_reach_the_store sample_ambient inputs sys). reflexivity.
Defined.

(** X4. connectionAttempts never exceeds maxConnectionAttempts in a session
    that starts within the bound, and no input changes web3, enabled,
    rewardPoolAddress, maxConnectionAttempts, eventListenersSetup or
    initializationTimeout. *)
Theorem attempts_bounded (amb : Ambient) (inputs : list Input) (sys : System) :
  (connectionAttempts (this (world sys)) <= maxConnectionAttempts (this (world sys)))%N ->
  let m' := this (world (steps amb sys inputs)) in
  (connectionAttempts m' <= maxConnectionAttempts m')%N
  /\ settings m' = settings (this (world sys)).
Proof.
  intros H. cbv zeta.
  apply (steps_manager_invariant amb
           (fun m => (connectionAttempts m <= maxConnectionAttempts m)%N
                     /\ settings m = settings (this (world sys)))).
  - intros m m' Hs [H1 H2]. split.
    + apply (manager_step_attempts m m' Hs H1).
    + rewrite <- H2. apply manager_step_settings. exact Hs.
  - split; [exact H | reflexivity].
Qed.

Lemma attempts_bounded_witness :
  let m' := this (world (steps sample_ambient (mkSystem fresh_world [])
              [connect; accounts_answer (accounts_reply provider_fails);
               connect; accounts_answer (accounts_reply provider_fails);
               connect; accounts_answer (accounts_reply user_rejects);
               connect; connect])) in
  (connectionAttempts m' <= maxConnectionAttempts m')%N
  /\ settings m' = settings (this fresh_world).
Proof.
  apply (attempts_bounded sample_ambient
           [connect; accounts_answer (accounts_reply provider_fails);
            connect; accounts_answer (accounts_reply provider_fails);
            connect; accounts_answer (accounts_reply user_rejects);
            connect; connect]
           (mkSystem fresh_world [])).
  vm_compute. discriminate.
Defined.

(** X5. None of the inputs of the session clears [demoMode] once it is
    set: no call of the page (connect, disconnect, reward, balance refresh),
    no answer of the provider to a parked request, no timer (the fallback of
    the initialization timeout included), no provider event, and not the
    provider appearing or going; [getStats()] keeps reporting [demoMode].
    The continuation of [init()] is not one of these inputs: it assigns
    [demoMode = false] when it finds MetaMask after its 500 ms delay
    (config.js:725), so a session whose [init()] is still waiting can leave
    demo mode there. *)
Theorem demo_mode_permanent (amb : Ambient) (inputs : list Input) (sys : System) :
  demoMode (this (world sys)) = true ->
  Stats.demoMode (getStats (this (world (steps amb sys inputs)))) = true.
Proof.
  intros H. unfold getStats. cbn [Stats.demoMode]. revert H.
  apply (steps_manager_invariant amb (fun m => demoMode m = true)).
  intros m m' Hs. apply manager_step_demo. exact Hs.
Qed.

Lemma demo_mode_permanent_witness :
  Stats.demoMode
    (getStats (this (world (steps sample_ambient (mkSystem demo_world [])
       [disconnect; provider_change (Some metamask); connect;
        demo_delay_elapsed; accountsChanged [live_account]])))) = true.
Proof.
  apply (demo_mode_permanent sample_ambient
           [disconnect; provider_change (Some metamask); connect;
            demo_delay_elapsed; accountsChanged [live_account]]
           (mkSystem demo_world [])).
  reflexivity.
Defined.

(** X6. In a session that starts idle (or in any state where the flag and
    the parked awaits agree), the isConnecting flag is never left set with
    nothing in flight: whenever getStats() reports connecting, a connect
    call is parked at an await (the accounts request, the network check or
    the demo delay); in live mode the converse holds too. *)
Theorem connecting_flag_backed (amb : Ambient) (inputs : list Input) (sys : System) :
  guard_invariant sys ->
  flag_backed sys ->
  let sys' := steps amb sys inputs in
  (Stats.connecting (getStats (this (world sys'))) = true -> parked sys' <> [])
  /\ (demoMode (this (world sys')) = false ->
      parked sys' <> [] -> Stats.connecting (getStats (this (world sys'))) = true).
Proof.
  intros Hg Hf. cbv zeta. unfold getStats. cbn [Stats.connecting]. split.
  - apply (steps_flag_backed amb inputs sys Hf).
  - intros Hd Hp.
    destruct (steps_invariant amb inputs sys Hg) as [_ Hi].
    destruct (Hi Hd) as [[E _]|(s & _ & E)]; [contradiction | exact E].
Qed.

Lemma connecting_flag_backed_witness :
  let sys' := steps sample_ambient (mkSystem fresh_world [])
                [connect; disconnect; accounts_answer (Fulfilled [live_account])] in
  (Stats.connecting (getStats (this (world sys'))) = true -> parked sys' <> [])
  /\ (demoMode (this (world sys')) = false ->
      parked sys' <> [] -> Stats.connecting (getStats (this (world sys'))) = true).
Proof.
  apply (connecting_flag_backed sample_ambient
           [connect; disconnect; accounts_answer (Fulfilled [live_account])]
           (mkSystem fresh_world [])).
  - split; [vm_compute; lia|]. intros _. left. split; reflexivity.
  - intros H. discriminate H.
Defined.

(* ===================================================================== *)
(** ** Persistence of the reward log, and the reports of [connectWallet] *)
(* ===================================================================== *)

Section Persist.
Variable amb : Ambient.

Lemma recordTransaction_store (tx : Transaction) (w : World) :
  UTILS_storage_defined amb = true ->
  let h := take 50 (tx :: history w) in
  let w' := world_of (recordTransaction amb tx w) in
  if setItem_throws amb (S (draws w)) then
    localStorage w' = localStorage w
    /\ new_events w (recordTransaction amb tx w)
       = [Console error "Error writing to storage: QuotaExceededError"]
  else
    localStorage w'
    = <[history_key := Wrapped (PArray (map EntryTx h)) (Date_now amb (draws w))
                               CONFIG.STORAGE_VERSION]> (localStorage w)
    /\ new_events w (recordTransaction amb tx w) = [].
Proof.
  intros Hu. destruct w as [m eth st tr d].
  destruct m as [wb ac co cg ini en dm pool th att mx ls tmo].
  cbv zeta. unfold history. cbn [this transactionHistory draws].
  rewrite <- cut_to_50.
  unfold recordTransaction, storage_set, localStorage_setItem, new_events.
  js_run. rewrite Hu.
  destruct (50 <? length (tx :: th))%nat; js_run;
    destruct (setItem_throws amb (S d)); js_run;
    (split; [reflexivity|]);
    first [ apply drop_app_length | apply drop_all ].
Qed.

(** [sendReward] up to its call of [recordTransaction]: the record, the
    world the call is made in, and what remains to be done after it. *)
Lemma sendReward_store (r : option string) (a : option float) (w : World) :
  UTILS_storage_defined amb = true ->
  let w' := world_of (sendReward amb r a w) in
  exists tx,
    history w' = take 50 (tx :: history w)
    /\ value_of (sendReward amb r a w) = Some (hash tx)
    /\ if setItem_throws amb (draws w + 4) then
         localStorage w' = localStorage w
         /\ In (Console error "Error writing to storage: QuotaExceededError")
               (new_events w (sendReward amb r a w))
       else
         localStorage w'
         = <[history_key := Wrapped (PArray (map EntryTx (history w')))
                                    (Date_now amb (draws w + 3))
                                    CONFIG.STORAGE_VERSION]> (localStorage w).
Proof.
  intros Hu. destruct w as [m eth st tr d].
  destruct m as [wb ac co cg ini en dm pool th att mx ls tmo].
  cbv zeta. cbn [draws localStorage].
  replace (d + 4) with (S (S (S (S d)))) by lia.
  replace (d + 3) with (S (S (S d))) by lia.
  unfold sendReward, simulateReward, sendDemoReward, trackReward, freshHash.
  destruct co, dm; js_run;
    match goal with |- context [recordTransaction amb ?tx ?w0] =>
      destruct (recordTransaction_returns amb tx w0)
        as (w' & evs & Hr & Ht & _ & Htr & _);
      pose proof (recordTransaction_store tx w0 Hu) as Hs;
      cbv zeta in Hs; unfold new_events in Hs; rewrite Hr in Hs;
      cbn [world_of draws localStorage trace history this transactionHistory] in Hs;
      rewrite Hr; exists tx
    end;
    destruct w' as [m' eth' st' tr' d']; js_run; js_run in Ht; js_run in Htr;
    subst m' tr'; cbn [localStorage trace] in Hs;
    destruct (setItem_throws amb (S (S (S (S d)))));
    destruct Hs as (Hst & Hev); subst st';
    destruct (showNotification_defined amb); js_run;
    (split; [reflexivity|]); (split; [reflexivity|]);
    try reflexivity;
    (split; [reflexivity|]);
    unfold new_events; cbn [trace world_of];
    rewrite <- ?app_assoc, drop_app_length;
    rewrite drop_app_length in Hev; rewrite Hev; left; reflexivity.
Qed.
End Persist.

(** X7. When UTILS.storage is loaded and the store accepts the write,
    sendReward leaves under campusfeedback_transaction_history the in-memory
    reward log, wrapped with the time of the write and version 2.0, and
    touches no other key. *)
Theorem reward_persisted (amb : Ambient) (r : option string) (a : option float)
    (w : World) :
  UTILS_storage_defined amb = true ->
  setItem_throws amb (draws w + 4) = false ->
  let w' := world_of (sendReward amb r a w) in
  localStorage w' !! "campusfeedback_transaction_history"
  = Some (Wrapped (PArray (map EntryTx (history w')))
                  (Date_now amb (draws w + 3)) "2.0")
  /\ (forall k, k <> "campusfeedback_transaction_history" ->
        localStorage w' !! k = localStorage w !! k).
Proof.
  intros Hu Hs w'.
  destruct (sendReward_store amb r a w Hu) as (tx & _ & _ & H).
  rewrite Hs in H. fold w' in H. rewrite H. split.
  - apply lookup_insert_eq.
  - intros k Hk. apply lookup_insert_ne. intros E. apply Hk. symmetry. exact E.
Qed.

Lemma reward_persisted_witness :
  let w' := world_of (sendReward sample_ambient (Some demo_account) None demo_world) in
  localStorage w' !! "campusfeedback_transaction_history"
  = Some (Wrapped (PArray (map EntryTx (history w'))) 1700000000003 "2.0")
  /\ localStorage w' !! "campusfeedback_feedbacks"
     = localStorage demo_world !! "campusfeedback_feedbacks".
Proof.
  intros w'.
  destruct (reward_persisted sample_ambient (Some demo_account) None demo_world
              eq_refl eq_refl) as (H1 & H2).
  split; [exact H1|]. apply H2. discriminate.
Defined.

(** X8. When localStorage.setItem throws (quota), sendReward still returns
    the hash and the record is first in the in-memory log; the store is
    unchanged and the failure is reported on console.error. *)
Theorem reward_survives_full_store (amb : Ambient) (r : option string)
    (a : option float) (w : World) :
  UTILS_storage_defined amb = true ->
  setItem_throws amb (draws w + 4) = true ->
  let o := sendReward amb r a w in
  exists tx,
    value_of o = Some (hash tx)
    /\ history (world_of o) = take 50 (tx :: history w)
    /\ localStorage (world_of o) = localStorage w
    /\ In (Console error "Error writing to storage: QuotaExceededError")
          (new_events w o).
Proof.
  intros Hu Hs o.
  destruct (sendReward_store amb r a w Hu) as (tx & Hh & Hv & H).
  rewrite Hs in H. exists tx. tauto.
Qed.

Lemma reward_survives_full_store_witness :
  exists tx,
    value_of (sendReward full_store_ambient None None fresh_world) = Some (hash tx)
    /\ history (world_of (sendReward full_store_ambient None None fresh_world))
       = take 50 (tx :: history fresh_world)
    /\ localStorage (world_of (sendReward full_store_ambient None None fresh_world))
       = localStorage fresh_world
    /\ In (Console error "Error writing to storage: QuotaExceededError")
          (new_events fresh_world (sendReward full_store_ambient None None fresh_world)).
Proof.
  apply (reward_survives_full_store full_store_ambient None None fresh_world);
    reflexivity.
Defined.

Section Reports.
Variable amb : Ambient.

Lemma failure_notifications (err : JsError) (w : World) :
  notifications
    (new_events w
       (protected (throw err) (connectWallet_catch amb) connectWallet_finally w))
  = if showNotification_defined amb then [failure_message err (this w)] else [].
Proof.
  destruct w as [m eth st tr d].
  destruct m as [wb ac co cg ini en dm pool th att mx ls tmo].
  unfold connectWallet_catch, connectWallet_finally, failure_message,
    enableDemoMode, createDemoInterface, updateUI, new_events.
  js_cases; cbn [trace world_of]; rewrite <- ?app_assoc, drop_app_length;
    reflexivity.
Qed.

Lemma showNotification_sent (msg ty : string) (dur : option N) (w : World) :
  showNotification amb msg ty dur w
  = Returned tt
      (extend w (if showNotification_defined amb
                 then [ShowNotification msg ty (default 5000%N dur)] else [])).
Proof.
  destruct w as [m eth st tr d].
  unfold showNotification, when, emit, ret, extend.
  destruct (showNotification_defined amb); [reflexivity|].
  cbn [trace this ethereum localStorage draws]. rewrite app_nil_r. reflexivity.
Qed.

Lemma ensureCorrectNetwork_finish_plain (requested : bool) (ans : NetworkAnswers)
    (w : World) :
  exists evs,
    ensureCorrectNetwork_finish requested ans w = Returned tt (extend w evs)
    /\ balances evs = [] /\ notifications evs = [].
Proof.
  destruct w as [m eth st tr d].
  destruct ans as [[c|e] [[]|e1] [[]|e2]];
  unfold ensureCorrectNetwork_finish, switchNetwork; simpl; destruct requested;
  js_cases; rewrite <- ?app_assoc;
  first [ exists []; rewrite app_nil_r; split; [reflexivity|]
        | eexists; split; [reflexivity|] ];
  split; reflexivity.
Qed.

Lemma connectWallet_finally_plain (w : World) :
  exists evs,
    connectWallet_finally w
    = Returned tt (mkWorld (set_isConnecting false (this w)) (ethereum w)
                     (localStorage w) (trace w ++ evs) (draws w))
    /\ balances evs = [] /\ notifications evs = [].
Proof.
  destruct w as [m eth st tr d].
  destruct m as [wb ac co cg ini en dm pool th att mx ls tmo].
  unfold connectWallet_finally, updateUI.
  js_cases; first [ exists []; rewrite app_nil_r; split; [reflexivity|]
                  | eexists; split; [reflexivity|] ]; split; reflexivity.
Qed.

Lemma console_no_balances (evs : list Event) :
  Forall is_console evs -> balances evs = [].
Proof.
  induction 1 as [|e evs He _ IH]; [reflexivity|].
  destruct e; try contradiction. exact IH.
Qed.

Lemma loadBalance_plain (w : World) :
  exists evs,
    loadBalance amb w = Returned tt (extend w evs)
    /\ balances evs = balances (balance_call (this w) (contributions amb w))
    /\ notifications evs = [].
Proof.
  destruct (loadBalance_spec amb w) as (evs & Hc & H).
  eexists. split; [exact H|].
  rewrite balances_app, notifications_app, (console_no_balances _ Hc),
    (console_no_notifications _ Hc).
  split; [reflexivity|]. unfold balance_call.
  destruct (demoMode (this w)); [reflexivity|].
  destruct (truthy (account (this w)) && web3 (this w)); reflexivity.
Qed.

Lemma connectWallet_network_plain (requested : bool) (ans : NetworkAnswers)
    (w : World) :
  exists evs,
    connectWallet_network amb requested ans w
    = Returned (Settled true)
        (mkWorld (set_isConnecting false (this w)) (ethereum w)
                 (localStorage w) (trace w ++ evs) (draws w))
    /\ balances evs = balances (balance_call (this w) (contributions amb w))
    /\ notifications evs =
         if showNotification_defined amb
         then ["✅ Wallet connected successfully!"%string] else [].
Proof.
  destruct (ensureCorrectNetwork_finish_plain requested ans w) as (e1 & H1 & B1 & N1).
  destruct (updateUI_spec (extend w e1)) as (c & lbl & H2).
  set (u := UpdateUI c lbl) in *.
  destruct (loadBalance_plain (extend (extend w e1) [u])) as (e3 & H3 & B3 & N3).
  pose proof (showNotification_sent "✅ Wallet connected successfully!" "success"
                (Some 4000%N) (extend (extend (extend w e1) [u]) e3)) as H4.
  set (e4 := if showNotification_defined amb then _ else _) in H4.
  destruct (connectWallet_finally_plain
              (extend (extend (extend (extend w e1) [u]) e3) e4))
    as (e5 & H5 & B5 & N5).
  exists (e1 ++ [u] ++ e3 ++ e4 ++ e5).
  split; [|split].
  - unfold connectWallet_network, protected.
    unfold bind at 1. rewrite H1.
    unfold bind at 1. rewrite H2.
    unfold bind at 1. rewrite H3.
    unfold bind at 1. rewrite H4.
    unfold ret at 1. unfold bind at 1. rewrite H5.
    unfold ret, extend. simpl. rewrite <- !app_assoc. reflexivity.
  - rewrite !balances_app, B1, B3, B5.
    rewrite (contributions_store amb (extend (extend w e1) [u]) w) by reflexivity.
    subst e4. destruct (showNotification_defined amb); simpl; rewrite app_nil_r;
      reflexivity.
  - rewrite !notifications_app, N1, N3, N5.
    subst e4. destruct (showNotification_defined amb); reflexivity.
Qed.

Lemma connectWallet_accounts_plain (a : string) (l : list string) (w : World) :
  exists requested evs,
    connectWallet_accounts amb (Fulfilled (a :: l)) w
    = Returned (Pending (AwaitEnsureNetwork requested))
        (mkWorld (set_connectionAttempts 0
                    (set_isConnected true (set_account (Some a) (this w))))
                 (ethereum w) (localStorage w) (trace w ++ evs) (draws w))
    /\ balances evs = [] /\ notifications evs = [].
Proof.
  destruct w as [m eth st tr d].
  destruct m as [wb ac co cg ini en dm pool th att mx ls tmo].
  unfold connectWallet_accounts, ensureCorrectNetwork_start.
  js_cases; rewrite <- ?app_assoc; eexists; eexists; (split; [reflexivity|]);
    split; reflexivity.
Qed.
End Reports.

(** X9. A live connect() with MetaMask available and attempts left, that the
    provider answers with accounts, resolves to true with account =
    accounts[0], isConnected set, connectionAttempts reset to 0 and
    isConnecting cleared; it shows exactly the notification of success, and
    one balance, 0.01 SHM per stored contribution, when web3 is set and the
    account is not the empty string. *)
Theorem connect_success (amb : Ambient) (script : ProviderScript) (w : World)
    (a : string) (rest : list string) :
  isConnecting (this w) = false ->
  demoMode (this w) = false ->
  (connectionAttempts (this w) < maxConnectionAttempts (this w))%N ->
  available w = true ->
  accounts_reply script = Fulfilled (a :: rest) ->
  let o := connectWallet amb script w in
  let m' := this (world_of o) in
  value_of o = Some (Settled true)
  /\ account m' = Some a
  /\ isConnected m' = true
  /\ connectionAttempts m' = 0%N
  /\ isConnecting m' = false
  /\ demoMode m' = false
  /\ notifications (new_events w o)
     = (if showNotification_defined amb
        then ["✅ Wallet connected successfully!"%string] else [])
  /\ balances (new_events w o)
     = (if truthy (Some a) && web3 (this w)
        then [JS.toFixed (JS.ofN (contributions amb w) * 0.01)%float 3] else []).
Proof.
  intros Hc Hd Hlt Hav Hans.
  set (w1 := mkWorld (begin_attempt (this w)) (ethereum w) (localStorage w)
               (trace w ++
                [Console log
                   ("🔌 Connecting to MetaMask (attempt " +:+
                    JS.digits (connectionAttempts (this w) + 1) +:+ "/" +:+
                    JS.digits (maxConnectionAttempts (this w)) +:+ ")...");
                 UpdateConnectingUI; ProviderRequest "eth_requestAccounts"])
               (draws w)).
  destruct (connectWallet_accounts_plain amb a rest w1) as (rq & e2 & H2 & B2 & N2).
  match type of H2 with _ = Returned _ ?x => set (w2 := x) in * end.
  destruct (connectWallet_network_plain amb rq (network_reply script) w2)
    as (e3 & H3 & B3 & N3).
  match type of H3 with _ = Returned _ ?x => set (w3 := x) in * end.
  assert (Hrun : connectWallet amb script w = Returned (Settled true) w3).
  { unfold connectWallet. unfold bind at 1.
    rewrite (connectWallet_start_live amb w Hc Hd Hlt Hav).
    unfold resume at 1. unfold bind at 1. rewrite Hans.
    fold w1. rewrite H2. unfold resume. exact H3. }
  cbv zeta. rewrite Hrun. cbn [value_of world_of].
  assert (Hn : contributions amb w2 = contributions amb w)
    by (apply contributions_store; reflexivity).
  rewrite Hn in B3.
  rewrite (new_events_app w (Returned (Settled true) w3)
             ([Console log
                 ("🔌 Connecting to MetaMask (attempt " +:+
                  JS.digits (connectionAttempts (this w) + 1) +:+ "/" +:+
                  JS.digits (maxConnectionAttempts (this w)) +:+ ")...");
               UpdateConnectingUI; ProviderRequest "eth_requestAccounts"]
              ++ e2 ++ e3))
    by (subst w1 w2 w3; cbn [world_of trace]; rewrite <- !app_assoc; reflexivity).
  rewrite !notifications_app, !balances_app, N2, N3, B2, B3.
  subst w1 w2 w3. cbn [this].
  destruct (this w) as [wb ac co cg ini en dm pool th att mx ls tmo].
  cbn in *. subst dm. repeat split.
  destruct a, wb; reflexivity.
Qed.

Lemma connect_success_witness :
  let o := connectWallet sample_ambient user_accepts
             (mkWorld initialized (Some metamask) stored_contributions [] 0) in
  value_of o = Some (Settled true)
  /\ account (this (world_of o)) = Some live_account
  /\ balances (new_events (mkWorld initialized (Some metamask) stored_contributions [] 0) o)
     = ["0.030"%string].
Proof.
  destruct (connect_success sample_ambient user_accepts
              (mkWorld initialized (Some metamask) stored_contributions [] 0)
              live_account [] eq_refl eq_refl eq_refl eq_refl eq_refl)
    as (H1 & H2 & _ & _ & _ & _ & _ & H8).
  split; [exact H1|]. split; [exact H2|]. rewrite H8. vm_compute. reflexivity.
Defined.

(** X10. When the accounts request of a live connect() fails (rejection,
    provider error, empty list) and showNotification is loaded, the call
    resolves to false, clears isConnecting, keeps account and isConnected,
    and shows exactly one notification; its text announces demo mode exactly
    when the manager switched to demo mode, and a user rejection exactly for
    error code 4001. *)
Theorem failed_answer_reported (amb : Ambient) (answer : Response (list string))
    (err : JsError) (w : World) :
  failure_of answer = Some err ->
  showNotification_defined amb = true ->
  demoMode (this w) = false ->
  let o := connectWallet_accounts amb answer w in
  let m' := this (world_of o) in
  value_of o = Some (Settled false)
  /\ isConnecting m' = false
  /\ account m' = account (this w)
  /\ isConnected m' = isConnected (this w)
  /\ (exists text, notifications (new_events w o) = [text]
        /\ (demoMode m' = true
            <-> text = "❌ Connection failed, switching to demo mode"%string)
        /\ (code err = Some 4001%Z
            <-> text = "❌ Connection rejected by user"%string)).
Proof.
  intros Hf Hs Hd. cbv zeta.
  destruct (connectWallet_accounts_failure amb answer err w Hf) as (evs & H & _).
  assert (Hn : notifications (new_events w (connectWallet_accounts amb answer w))
               = [failure_message err (this w)]).
  { pose proof (failure_notifications amb err w) as Hn. rewrite Hs in Hn.
    destruct answer as [[|a l]|e]; simpl in Hf; inversion Hf; subst; exact Hn. }
  rewrite Hn. rewrite H. cbn [value_of world_of this].
  destruct (this w) as [wb ac co cg ini en dm pool th att mx ls tmo].
  cbn in Hd. subst dm.
  unfold after_failure, failure_message, demo_fallback. cbn.
  destruct (decide (code err = Some 4001%Z)) as [E|E]; cbn.
  - repeat split; try (eexists; split; [reflexivity|]); repeat split;
      try discriminate; auto.
  - destruct (mx <=? att)%N; cbn;
      repeat split; try (eexists; split; [reflexivity|]); repeat split;
      try discriminate; auto; try contradiction.
Qed.

Lemma failed_answer_reported_witness :
  let w := mkWorld (begin_attempt initialized) (Some metamask)
             stored_contributions [] 0 in
  let o := connectWallet_accounts sample_ambient (accounts_reply provider_fails) w in
  value_of o = Some (Settled false)
  /\ isConnecting (this (world_of o)) = false
  /\ notifications (new_events w o)
     = ["❌ Connection failed, please try again"%string].
Proof.
  intros w o.
  destruct (failed_answer_reported sample_ambient (accounts_reply provider_fails)
              {| code := Some (-32603)%Z; message := "Internal JSON-RPC error." |}
              w eq_refl eq_refl eq_refl)
    as (H1 & H2 & _ & _ & _).
  split; [exact H1|]. split; [exact H2|]. vm_compute. reflexivity.
Defined.

(* ===================================================================== *)
(** ** Rewards and the balance *)
(* ===================================================================== *)

Section Frame.
Variable amb : Ambient.

(** The contribution count reads two keys of the store. *)
Lemma contributions_keys (w w' : World) :
  localStorage w !! (CONFIG.STORAGE_PREFIX +:+ "feedbacks")
  = localStorage w' !! (CONFIG.STORAGE_PREFIX +:+ "feedbacks") ->
  localStorage w !! (CONFIG.STORAGE_PREFIX +:+ "reports")
  = localStorage w' !! (CONFIG.STORAGE_PREFIX +:+ "reports") ->
  contributions amb w = contributions amb w'.
Proof.
  destruct w as [m eth st tr d], w' as [m' eth' st' tr' d'].
  cbn [localStorage]. intros Hf Hr.
  unfold contributions, getUserContributionCount, getFeedbacks, getReports,
    storage_get, JSON_parse.
  js_run. destruct (UTILS_storage_defined amb); [|reflexivity].
  change (String.append CONFIG.STORAGE_PREFIX "feedbacks")
    with (CONFIG.STORAGE_PREFIX +:+ "feedbacks").
  change (String.append CONFIG.STORAGE_PREFIX "reports")
    with (CONFIG.STORAGE_PREFIX +:+ "reports").
  rewrite <- Hf.
  destruct (st !! (CONFIG.STORAGE_PREFIX +:+ "feedbacks")) as [[|v s1 s2|p]|];
    js_run; rewrite <- Hr;
    destruct (st !! (CONFIG.STORAGE_PREFIX +:+ "reports")) as [[|v' s1' s2'|p']|];
    js_run; reflexivity.
Qed.


(** [recordTransaction] writes to one key of the store at most. *)
Lemma recordTransaction_frame (tx : Transaction) (w : World) (k : string) :
  k <> history_key ->
  localStorage (world_of (recordTransaction amb tx w)) !! k = localStorage w !! k.
Proof.
  intros Hk. destruct w as [m eth st tr d].
  destruct m as [wb ac co cg ini en dm pool th att mx ls tmo].
  unfold recordTransaction, storage_set, localStorage_setItem.
  js_run.
  destruct (50 <? length (tx :: th))%nat;
    destruct (UTILS_storage_defined amb); js_run; try reflexivity;
    destruct (setItem_throws amb (S d)); js_run; try reflexivity;
    apply lookup_insert_ne; intros E; apply Hk; symmetry; exact E.
Qed.

Lemma sendReward_frame (r : option string) (a : option float) (w : World)
    (k : string) :
  k <> history_key ->
  localStorage (world_of (sendReward amb r a w)) !! k = localStorage w !! k.
Proof.
  intros Hk. destruct w as [m eth st tr d].
  destruct m as [wb ac co cg ini en dm pool th att mx ls tmo].
  unfold sendReward, simulateReward, sendDemoReward, trackReward, freshHash.
  destruct co, dm; js_run;
    match goal with |- context [recordTransaction amb ?tx ?w0] =>
      pose proof (recordTransaction_frame tx w0 k Hk) as Hf;
      destruct (recordTransaction_returns amb tx w0)
        as (w' & evs & Hr & _);
      rewrite Hr in Hf |- *
    end;
    destruct w' as [m' ? st' tr' ?]; js_run; js_run in Hf;
    destruct (showNotification_defined amb); exact Hf.
Qed.

End Frame.

(** X11. No reward changes the balance: the SHM balance loadBalance derives
    after sendReward is the one it derived before, in every mode and
    whatever the store does (the balance counts stored feedbacks and
    reports, not rewards). *)
Theorem reward_leaves_balance (amb : Ambient) (r : option string)
    (a : option float) (w : World) :
  derived_balance amb (world_of (sendReward amb r a w)) = derived_balance amb w.
Proof.
  rewrite !derived_balance_closed.
  destruct (sendReward_this amb r a w) as (h & Ht).
  rewrite (contributions_keys amb (world_of (sendReward amb r a w)) w)
    by (apply sendReward_frame; discriminate).
  rewrite Ht. unfold balance_call.
  destruct (this w) as [wb ac co cg ini en dm pool th att mx ls tmo].
  reflexivity.
Qed.

(* ===================================================================== *)
(** ** What a reward is, and what the balance counts *)
(* ===================================================================== *)

Lemma console_no_timers (evs : list Event) :
  Forall is_console evs -> timers evs = [].
Proof.
  induction 1 as [|e evs He _ IH]; [reflexivity|].
  destruct e; try contradiction. exact IH.
Qed.

Lemma timers_app (a b : list Event) : timers (a ++ b) = timers a ++ timers b.
Proof. apply omap_app. Qed.

(** X12. sendReward never asks the wallet provider for anything: in every
    mode the reward is only a record put first in the local log, from the
    reward pool address and of type reward; it is simulated for Pending
    Connection when not connected, confirmed and marked demo in demo mode,
    tracked otherwise, and a balance refresh is scheduled after 1000 ms
    exactly when connected. *)
Theorem reward_is_local (amb : Ambient) (recipient : option string)
    (amount : option float) (w : World) :
  let o := sendReward amb recipient amount w in
  let m := this w in
  requests (new_events w o) = []
  /\ timers (new_events w o)
     = (if negb (isConnected m) then []
        else [(if demoMode m then cb_loadDemoBalance else cb_loadBalance, 1000%N)])
  /\ exists tx,
       head (history (world_of o)) = Some tx
       /\ from tx = rewardPoolAddress m
       /\ type tx = "reward"
       /\ (status tx, demo tx, to tx)
          = (if negb (isConnected m)
             then (simulated, false, Some "Pending Connection")
             else if demoMode m then (confirmed, true, recipient)
                  else (tracked, false, recipient)).
Proof.
  destruct w as [m eth st tr d].
  destruct m as [wb ac co cg ini en dm pool th att mx ls tmo].
  cbv zeta. unfold new_events.
  unfold sendReward, simulateReward, sendDemoReward, trackReward, freshHash.
  destruct co, dm; js_run;
    match goal with |- context [recordTransaction amb ?tx ?w0] =>
      destruct (recordTransaction_returns amb tx w0)
        as (w' & evs & Hr & Ht & _ & Htr & Hc);
      rewrite Hr
    end;
    destruct w' as [m' ? ? tr' ?]; js_run; js_run in Ht; js_run in Htr;
    subst m' tr';
    pose proof (console_no_requests _ Hc) as Hq;
    pose proof (console_no_timers _ Hc) as Hti;
    destruct (showNotification_defined amb); js_run;
    rewrite <- ?app_assoc, drop_app_length;
    rewrite ?requests_app, ?timers_app, Hq, Hti;
    (split; [reflexivity|]); (split; [reflexivity|]);
    eexists; (split; [reflexivity|]); repeat split.
Qed.

Section Count.
Variable amb : Ambient.

Lemma contributions_stored (w : World) :
  UTILS_storage_defined amb = true ->
  contributions amb w
  = (N.of_nat (length (stored_list
                         (localStorage w !! (CONFIG.STORAGE_PREFIX +:+ "feedbacks"))))
     + N.of_nat (length (stored_list
                           (localStorage w !! (CONFIG.STORAGE_PREFIX +:+ "reports")))))%N.
Proof.
  intros Hu. destruct w as [m eth st tr d]. cbn [localStorage].
  unfold contributions, getUserContributionCount, getFeedbacks, getReports,
    storage_get, JSON_parse.
  js_run. rewrite Hu.
  change (String.append CONFIG.STORAGE_PREFIX "feedbacks")
    with (CONFIG.STORAGE_PREFIX +:+ "feedbacks").
  change (String.append CONFIG.STORAGE_PREFIX "reports")
    with (CONFIG.STORAGE_PREFIX +:+ "reports").
  destruct (st !! (CONFIG.STORAGE_PREFIX +:+ "feedbacks")) as [[|[l|] s1 s2|[l|]]|];
    js_run;
    destruct (st !! (CONFIG.STORAGE_PREFIX +:+ "reports")) as [[|[l'|] s1' s2'|[l'|]]|];
    js_run; reflexivity.
Qed.

End Count.

(** X13. With UTILS.storage loaded, getUserContributionCount returns,
    without throwing or changing anything, the number of entries of the
    stored feedback and report arrays, where a missing key, a text that does
    not parse and a value that is no array all count as empty; the balance
    shown is derived from that count. *)
Theorem balance_tolerates_corrupt_store (amb : Ambient) (w : World) :
  UTILS_storage_defined amb = true ->
  let feedbacks := stored_list (localStorage w !! "campusfeedback_feedbacks") in
  let reports := stored_list (localStorage w !! "campusfeedback_reports") in
  let count := (N.of_nat (length feedbacks) + N.of_nat (length reports))%N in
  (exists w', getUserContributionCount amb w = Returned count w'
              /\ this w' = this w /\ localStorage w' = localStorage w)
  /\ derived_balance amb w = balances (balance_call (this w) count).
Proof.
  intros Hu. cbv zeta.
  pose proof (contributions_stored amb w Hu) as Hc.
  change (CONFIG.STORAGE_PREFIX +:+ "feedbacks") with "campusfeedback_feedbacks" in Hc.
  change (CONFIG.STORAGE_PREFIX +:+ "reports") with "campusfeedback_reports" in Hc.
  rewrite <- Hc. split.
  - destruct (count_spec amb w) as (evs & _ & H).
    eexists. split; [exact H|]. split; reflexivity.
  - apply derived_balance_closed.
Qed.

Lemma balance_tolerates_corrupt_store_witness :
  derived_balance sample_ambient
    (mkWorld (connected live_account initialized) (Some metamask)
             corrupt_store [] 0)
  = ["0.010"%string].
Proof.
  destruct (balance_tolerates_corrupt_store sample_ambient
              (mkWorld (connected live_account initialized) (Some metamask)
                       corrupt_store [] 0) eq_refl) as (_ & H).
  rewrite H. vm_compute. reflexivity.
Defined.

(* ===================================================================== *)
(** ** The check for an existing connection *)
(* ===================================================================== *)

Section StartupFacts.
Variable amb : Ambient.

Lemma checkExistingConnection_resume_spec (accounts : list string) (w : World) :
  connected_consistent (this w) ->
  exists evs,
    checkExistingConnection_resume amb (Fulfilled accounts) w
    = Returned tt (mkWorld (with_account (head accounts) (this w)) (ethereum w)
                           (localStorage w) (trace w ++ evs) (draws w))
    /\ requests evs = [].
Proof.
  intros Hc.
  destruct accounts as [|b l].
  - destruct w as [m eth st tr d].
    destruct m as [wb ac co cg ini en dm pool th att mx ls tmo].
    unfold connected_consistent in Hc. cbn in Hc.
    unfold checkExistingConnection_resume, with_account, updateUI.
    js_run. destruct co.
    + js_cases; rewrite <- ?app_assoc; eexists; (split; [reflexivity|]); reflexivity.
    + assert (ac = None) as ->.
      { destruct ac; [|reflexivity]. destruct Hc as [_ Hc].
        discriminate Hc. discriminate. }
      exists []. rewrite app_nil_r. split; reflexivity.
  - unfold checkExistingConnection_resume, try_catch.
    unfold bind at 1. unfold get_this at 1.
    destruct (decide (account (this w) = Some b)) as [E|N].
    + destruct w as [m eth st tr d].
      destruct m as [wb ac co cg ini en dm pool th att mx ls tmo].
      unfold connected_consistent in Hc. cbn in Hc, E. subst ac.
      assert (co = true) as -> by (apply Hc; discriminate).
      eexists. split; [reflexivity|]. reflexivity.
    + set (m' := with_account (Some b) (this w)).
      set (w1 := mkWorld m' (ethereum w) (localStorage w)
                   (trace w ++ [Console log ("👤 Found existing connection: " +:+
                                             formatAddress (Some b))])
                   (draws w)).
      destruct (updateUI_spec w1) as (c & lbl & H2).
      destruct (loadBalance_quiet amb (extend w1 [UpdateUI c lbl]))
        as (e3 & H3 & R3 & _ & _).
      exists ([Console log ("👤 Found existing connection: " +:+
                            formatAddress (Some b)); UpdateUI c lbl] ++ e3).
      split.
      * assert (Hrun :
          (update_this (set_account (Some b)) ;;
           update_this (set_isConnected true) ;;
           emit (Console log ("👤 Found existing connection: " +:+
                              formatAddress (Some b))) ;;
           updateUI ;; loadBalance amb) w
          = Returned tt (extend (extend w1 [UpdateUI c lbl]) e3)).
        { unfold bind at 1. unfold update_this at 1.
          unfold bind at 1. unfold update_this at 1.
          unfold bind at 1. unfold emit at 1.
          cbn [this ethereum localStorage trace draws].
          fold m'. unfold with_account in m'.
          unfold bind at 1.
          change (updateUI _) with (updateUI w1).
          rewrite H2. exact H3. }
        rewrite Hrun. unfold extend, w1. cbn [this ethereum localStorage trace draws].
        rewrite <- !app_assoc. reflexivity.
      * rewrite requests_app, R3. reflexivity.
Qed.


Lemma loadBalance_silent (w : World) :
  exists evs,
    loadBalance amb w = Returned tt (extend w evs)
    /\ requests evs = [] /\ notifications evs = [].
Proof.
  destruct (loadBalance_spec amb w) as (evs & Hc & H).
  eexists. split; [exact H|].
  rewrite requests_app, notifications_app.
  rewrite (console_no_requests _ Hc), (console_no_notifications _ Hc).
  unfold balance_call.
  destruct (demoMode (this w)); [split; reflexivity|].
  destruct (truthy (account (this w)) && web3 (this w)); split; reflexivity.
Qed.

(** Whatever the answer, the check returns, and the manager is as it was or
    has its account and connection flag replaced. *)
Lemma checkExistingConnection_resume_any (answer : Response (list string))
    (w : World) :
  exists evs a,
    (checkExistingConnection_resume amb answer w
     = Returned tt (extend w evs)
     \/ checkExistingConnection_resume amb answer w
        = Returned tt (mkWorld (with_account a (this w)) (ethereum w)
                               (localStorage w) (trace w ++ evs) (draws w)))
    /\ requests evs = [] /\ notifications evs = [].
Proof.
  destruct answer as [[|b l]|e].
  - destruct w as [m eth st tr d].
    destruct m as [wb ac co cg ini en dm pool th att mx ls tmo].
    unfold checkExistingConnection_resume, with_account, updateUI.
    js_run. destruct co.
    + js_cases; rewrite <- ?app_assoc; eexists; exists None;
        (split; [right; reflexivity|]); split; reflexivity.
    + exists [], None. split; [left; rewrite app_nil_r; reflexivity|].
      split; reflexivity.
  - destruct (decide (account (this w) = Some b)) as [E|N].
    + exists [Console log "✅ Connection status confirmed"], None.
      split; [|split; reflexivity]. left.
      unfold checkExistingConnection_resume, try_catch.
      unfold bind at 1. unfold get_this at 1.
      destruct (decide (account (this w) = Some b)) as [_|N]; [|contradiction].
      reflexivity.
    + set (m' := with_account (Some b) (this w)).
      set (w1 := mkWorld m' (ethereum w) (localStorage w)
                   (trace w ++ [Console log ("👤 Found existing connection: " +:+
                                             formatAddress (Some b))])
                   (draws w)).
      destruct (updateUI_spec w1) as (c & lbl & H2).
      destruct (loadBalance_silent (extend w1 [UpdateUI c lbl]))
        as (e3 & H3 & R3 & N3).
      exists ([Console log ("👤 Found existing connection: " +:+
                            formatAddress (Some b)); UpdateUI c lbl] ++ e3), (Some b).
      split.
      * right.
        unfold checkExistingConnection_resume, try_catch.
        unfold bind at 1. unfold get_this at 1.
        destruct (decide (account (this w) = Some b)) as [E|_]; [contradiction|].
        assert (Hrun :
          (update_this (set_account (Some b)) ;;
           update_this (set_isConnected true) ;;
           emit (Console log ("👤 Found existing connection: " +:+
                              formatAddress (Some b))) ;;
           updateUI ;; loadBalance amb) w
          = Returned tt (extend (extend w1 [UpdateUI c lbl]) e3)).
        { unfold bind at 1. unfold update_this at 1.
          unfold bind at 1. unfold update_this at 1.
          unfold bind at 1. unfold emit at 1.
          cbn [this ethereum localStorage trace draws].
          fold m'. unfold with_account in m'.
          unfold bind at 1.
          change (updateUI _) with (updateUI w1).
          rewrite H2. exact H3. }
        rewrite Hrun. unfold extend, w1. cbn [this ethereum localStorage trace draws].
        rewrite <- !app_assoc. reflexivity.
      * rewrite requests_app, notifications_app, R3, N3. split; reflexivity.
  - eexists (cons _ nil), None. split; [left; reflexivity|]. split; reflexivity.
Qed.

Lemma checkExistingConnection_start_spec (w : World) :
  checkExistingConnection_start w
  = if negb (web3 (this w)) || isConnecting (this w) then Returned false w
    else Returned true
           (extend w [Console log "🔍 Checking existing wallet connection...";
                      ProviderRequest "eth_accounts"]).
Proof.
  destruct w as [m eth st tr d].
  destruct m as [wb ac co cg ini en dm pool th att mx ls tmo].
  unfold checkExistingConnection_start. js_cases; rewrite <- ?app_assoc; reflexivity.
Qed.

End StartupFacts.

(** X14. checkExistingConnection on a manager with web3 set, no connect in
    flight and isConnected in agreement with account mirrors the provider:
    afterwards account is the first account the provider lists (null for
    none) and isConnected says whether there is one; it makes the single
    request eth_accounts, never eth_requestAccounts, and leaves the store
    alone. *)
Theorem existing_connection_mirrored (amb : Ambient) (accounts : list string)
    (w : World) :
  web3 (this w) = true ->
  isConnecting (this w) = false ->
  connected_consistent (this w) ->
  let o := checkExistingConnection amb (Fulfilled accounts) w in
  value_of o = Some tt
  /\ this (world_of o) = with_account (head accounts) (this w)
  /\ requests (new_events w o) = ["eth_accounts"%string]
  /\ localStorage (world_of o) = localStorage w.
Proof.
  intros Hw Hc Hk.
  set (w1 := extend w [Console log "🔍 Checking existing wallet connection...";
                       ProviderRequest "eth_accounts"]).
  destruct (checkExistingConnection_resume_spec amb accounts w1 Hk)
    as (evs & H & R).
  assert (Hrun : checkExistingConnection amb (Fulfilled accounts) w
                 = Returned tt
                     (mkWorld (with_account (head accounts) (this w)) (ethereum w)
                        (localStorage w)
                        (trace w ++
                         [Console log "🔍 Checking existing wallet connection...";
                          ProviderRequest "eth_accounts"] ++ evs)
                        (draws w))).
  { unfold checkExistingConnection. unfold bind at 1.
    rewrite checkExistingConnection_start_spec, Hw, Hc. cbn [negb orb].
    fold w1. rewrite H. unfold w1, extend. cbn [this ethereum localStorage trace draws].
    rewrite <- app_assoc. reflexivity. }
  cbv zeta. rewrite Hrun. cbn [value_of world_of this localStorage].
  repeat split.
  rewrite (new_events_app w _
             ([Console log "🔍 Checking existing wallet connection...";
               ProviderRequest "eth_accounts"] ++ evs)) by reflexivity.
  rewrite requests_app, R. reflexivity.
Qed.

Lemma existing_connection_mirrored_witness :
  let w := mkWorld initialized (Some metamask) stored_contributions [] 0 in
  this (world_of (checkExistingConnection sample_ambient
                    (Fulfilled [live_account; other_account]) w))
  = connected live_account initialized.
Proof.
  intros w.
  destruct (existing_connection_mirrored sample_ambient
              [live_account; other_account] w eq_refl eq_refl) as (_ & H & _).
  - split; [discriminate | intros H; exfalso; apply H; reflexivity].
  - exact H.
Defined.

(** X15. checkExistingConnection never throws, never notifies and never
    writes to the store; it changes at most account and isConnected; when
    web3 is missing, a connect is in flight or the provider's request fails,
    the manager is left as it was. *)
Theorem connection_check_harmless (amb : Ambient)
    (answer : Response (list string)) (w : World) :
  let o := checkExistingConnection amb answer w in
  let m := this w in
  let m' := this (world_of o) in
  value_of o = Some tt
  /\ localStorage (world_of o) = localStorage w
  /\ notifications (new_events w o) = []
  /\ (exists a, m' = m \/ m' = with_account a m)
  /\ (web3 m = false \/ isConnecting m = true \/ (exists e, answer = Rejected e) ->
      m' = m).
Proof.
  assert (Hrun : checkExistingConnection amb answer w
                 = if negb (web3 (this w)) || isConnecting (this w)
                   then Returned tt w
                   else checkExistingConnection_resume amb answer
                          (extend w [Console log "🔍 Checking existing wallet connection...";
                                     ProviderRequest "eth_accounts"])).
  { unfold checkExistingConnection. unfold bind at 1.
    rewrite checkExistingConnection_start_spec.
    destruct (negb (web3 (this w)) || isConnecting (this w)); reflexivity. }
  cbv zeta. rewrite Hrun. clear Hrun.
  destruct (negb (web3 (this w)) || isConnecting (this w)) eqn:G.
  - cbn [value_of world_of]. unfold new_events. cbn [world_of].
    rewrite drop_all. repeat split. exists None. left. reflexivity.
  - set (w1 := extend w [Console log "🔍 Checking existing wallet connection...";
                         ProviderRequest "eth_accounts"]).
    apply orb_false_elim in G as [G1 G2]. apply negb_false_iff in G1.
    destruct (checkExistingConnection_resume_any amb answer w1)
      as (evs & a & [H|H] & R & N); rewrite H;
      cbn [value_of world_of this localStorage extend w1];
      (split; [reflexivity|]); (split; [reflexivity|]); (split; [|split]).
    + rewrite (new_events_app w _
                 ([Console log "🔍 Checking existing wallet connection...";
                   ProviderRequest "eth_accounts"] ++ evs))
        by (unfold w1, extend; cbn [world_of trace]; rewrite <- app_assoc; reflexivity).
      rewrite notifications_app, N. reflexivity.
    + exists None. left. reflexivity.
    + intros _. reflexivity.
    + rewrite (new_events_app w _
                 ([Console log "🔍 Checking existing wallet connection...";
                   ProviderRequest "eth_accounts"] ++ evs))
        by (unfold w1, extend; cbn [world_of trace]; rewrite <- app_assoc; reflexivity).
      rewrite notifications_app, N. reflexivity.
    + exists a. right. reflexivity.
    + intros [C|[C|(e & ->)]]; [congruence | congruence |].
      apply (f_equal (fun o => this (world_of o))) in H.
      symmetry. exact H.
Qed.

(* ===================================================================== *)
(** ** Debounced and throttled functions *)
(* ===================================================================== *)

Section Timers.
Context {A : Type}.

Lemma passed_on_app {S} (step : S -> Tick A -> S * list A) (st : S)
    (l1 l2 : list (Tick A)) :
  passed_on step st (l1 ++ l2)
  = passed_on step st l1
    ++ passed_on step (fold_left (fun s t => (step s t).1) l1 st) l2.
Proof.
  revert st. induction l1 as [|t l1 IH]; intros st; [reflexivity|].
  simpl. rewrite IH, app_assoc. reflexivity.
Qed.

Lemma debounce_burst (wait : N) (calls : list (A * N)) (last : A) (ms : N)
    (timeout : option (N * A)) :
  Forall (fun c => (c.2 < wait)%N) calls ->
  (wait <= ms)%N ->
  passed_on (debounce wait) timeout (burst calls ++ [invoke last; elapse ms])
  = [last].
Proof.
  intros Hg Hms. revert timeout.
  induction Hg as [|[a g] calls Hlt _ IH]; intros timeout.
  - simpl. destruct (N.leb_spec wait ms); [reflexivity | lia].
  - simpl in *. destruct (N.leb_spec wait g); [lia|]. simpl. apply IH.
Qed.

Lemma debounce_sublist (wait : N) (ticks : list (Tick A))
    (timeout : option (N * A)) :
  sublist (passed_on (debounce wait) timeout ticks)
          (match timeout with Some (_, args) => [args] | None => [] end
           ++ called ticks).
Proof.
  revert timeout. induction ticks as [|t ticks IH]; intros timeout.
  - simpl. apply sublist_nil_l.
  - destruct t as [args|ms]; simpl.
    + specialize (IH (Some (wait, args))). simpl in IH.
      destruct timeout as [[l a]|]; [apply sublist_cons|]; exact IH.
    + destruct timeout as [[l a]|]; simpl.
      * destruct (l <=? ms)%N; simpl.
        -- apply sublist_skip. apply (IH None).
        -- apply (IH (Some (_, a))).
      * apply (IH None).
Qed.

Lemma UTILS_debounce_trailing (wait : N) (ticks : list (Tick A))
    (timeout : option (N * A)) :
  passed_on (UTILS_debounce wait false) timeout ticks
  = passed_on (debounce wait) timeout ticks.
Proof.
  revert timeout. induction ticks as [|t ticks IH]; intros timeout; [reflexivity|].
  destruct t as [args|ms]; simpl.
  - apply IH.
  - destruct timeout as [[l a]|]; simpl; [|apply IH].
    destruct (l <=? ms)%N; simpl; rewrite IH; reflexivity.
Qed.

Lemma UTILS_debounce_held (wait : N) (calls : list (A * N)) (remaining : N) (a : A) :
  Forall (fun c => (c.2 < wait)%N) calls ->
  (0 < remaining)%N ->
  passed_on (UTILS_debounce wait true) (Some (remaining, a)) (burst calls) = [].
Proof.
  intros Hg. revert remaining a.
  induction Hg as [|[b g] calls Hlt _ IH]; intros remaining a Hl; [reflexivity|].
  simpl in *. destruct (N.leb_spec wait g); [lia|]. simpl. apply IH. lia.
Qed.

Lemma throttle_held (limit : N) (ticks : list (Tick A)) (remaining : N) :
  (elapsed ticks < remaining)%N ->
  passed_on (UTILS_throttle limit) (Some remaining) ticks = [].
Proof.
  revert remaining. induction ticks as [|t ticks IH]; intros remaining H; [reflexivity|].
  destruct t as [args|ms]; simpl in *.
  - apply IH. exact H.
  - destruct (N.leb_spec remaining ms); [lia|]. simpl. apply IH. lia.
Qed.

Lemma UTILS_debounce_reopens (wait : N) (calls : list (A * N)) (ms : N)
    (next : A) (remaining : N) (a : A) :
  Forall (fun c => (c.2 < wait)%N) calls ->
  (0 < remaining <= wait)%N ->
  (wait <= ms)%N ->
  passed_on (UTILS_debounce wait true) (Some (remaining, a))
            (burst calls ++ [elapse ms; invoke next])
  = [next].
Proof.
  intros Hg. revert remaining a.
  induction Hg as [|[b g] calls Hlt _ IH]; intros remaining a Hl Hms.
  - simpl. destruct (N.leb_spec remaining ms); [reflexivity | lia].
  - simpl in *. destruct (N.leb_spec wait g); [lia|]. simpl. apply IH; lia.
Qed.

Lemma throttle_reopens (limit : N) (ticks : list (Tick A)) (ms : N) (next : A)
    (remaining : N) :
  (elapsed ticks < remaining <= elapsed ticks + ms)%N ->
  passed_on (UTILS_throttle limit) (Some remaining)
            (ticks ++ [elapse ms; invoke next])
  = [next].
Proof.
  revert remaining. induction ticks as [|t ticks IH]; intros remaining H.
  - simpl in *. destruct (N.leb_spec remaining ms); [reflexivity | lia].
  - destruct t as [args|g]; simpl in *.
    + apply IH. exact H.
    + destruct (N.leb_spec remaining g); [lia|]. simpl. apply IH. lia.
Qed.

End Timers.

(** X16. A function wrapped by the manager's debounce(func, wait) runs once
    for a burst of calls that follow each other within less than wait ms:
    with the arguments of the last call, once wait ms have passed after it. *)
Theorem debounce_collapses_burst {A} (wait : N) (calls : list (A * N)) (last : A)
    (ms : N) (timeout : option (N * A)) :
  Forall (fun c => (c.2 < wait)%N) calls ->
  (wait <= ms)%N ->
  passed_on (debounce wait) timeout (burst calls ++ [invoke last; elapse ms])
  = [last].
Proof.
  intros Hg Hms. apply debounce_burst; assumption.
Qed.

Lemma debounce_collapses_burst_witness :
  passed_on (debounce 500) None
    (burst [([live_account], 120%N); ([], 499%N); ([other_account], 0%N)]
     ++ [invoke [live_account; other_account]; elapse 500])
  = [[live_account; other_account]].
Proof.
  apply (debounce_collapses_burst 500
           [([live_account], 120%N); ([], 499%N); ([other_account], 0%N)]
           [live_account; other_account] 500 None).
  - repeat constructor.
  - reflexivity.
Defined.

(** X17. A debounced function only passes on calls that were made, in their
    order and each at most once; UTILS.debounce with immediate = false
    passes on exactly what the manager's debounce does, for every sequence
    of calls and pauses. *)
Theorem debounce_passes_calls_made {A} (wait : N) (ticks : list (Tick A)) :
  sublist (passed_on (debounce wait) None ticks) (called ticks)
  /\ passed_on (UTILS_debounce wait false) None ticks
     = passed_on (debounce wait) None ticks.
Proof.
  split.
  - apply (debounce_sublist wait ticks None).
  - apply UTILS_debounce_trailing.
Qed.

(** X18. UTILS.debounce with immediate = true runs the first call of a burst
    at once and drops the rest of the burst; it runs nothing when the burst
    ends, and runs the next call once wait ms of silence have passed. *)
Theorem debounce_immediate_leading_edge {A} (wait : N) (first : A) (gap : N)
    (calls : list (A * N)) (ms : N) (next : A) :
  Forall (fun c => (c.2 < wait)%N) ((first, gap) :: calls) ->
  (wait <= ms)%N ->
  passed_on (UTILS_debounce wait true) None
            (burst ((first, gap) :: calls) ++ [elapse ms; invoke next])
  = [first; next].
Proof.
  intros Hg Hms. inversion Hg as [|c cs Hlt Hg']; subst. simpl in Hlt.
  simpl. destruct (N.leb_spec wait gap); [lia|]. simpl.
  rewrite (UTILS_debounce_reopens wait calls ms next); [reflexivity|assumption|lia|lia].
Qed.

Lemma debounce_immediate_leading_edge_witness :
  passed_on (UTILS_debounce 300 true) None
            (burst [("a"%string, 299%N); ("b"%string, 299%N); ("c"%string, 0%N)]
             ++ [elapse 300; invoke "d"%string])
  = ["a"%string; "d"%string].
Proof.
  apply (debounce_immediate_leading_edge 300 "a"%string 299
           [("b"%string, 299%N); ("c"%string, 0%N)] 300 "d"%string).
  - repeat constructor.
  - reflexivity.
Defined.

(** X19. UTILS.throttle runs the first call, drops every call made within
    limit ms of it (however many, without extending the window), and runs
    the first call made after the limit. *)
Theorem throttle_once_per_limit {A} (limit : N) (first : A)
    (ticks : list (Tick A)) (ms : N) (next : A) :
  (elapsed ticks < limit <= elapsed ticks + ms)%N ->
  passed_on (UTILS_throttle limit) None
            (invoke first :: ticks ++ [elapse ms; invoke next])
  = [first; next].
Proof.
  intros H. simpl. rewrite throttle_reopens; [reflexivity | exact H].
Qed.

Lemma throttle_once_per_limit_witness :
  passed_on (UTILS_throttle 300) None
            (invoke "a"%string
             :: [elapse 299; invoke "b"%string; invoke "c"%string]
             ++ [elapse 1; invoke "d"%string])
  = ["a"%string; "d"%string].
Proof.
  apply (throttle_once_per_limit 300 "a"%string
           [elapse 299; invoke "b"%string; invoke "c"%string] 1 "d"%string).
  vm_compute. split; [reflexivity | discriminate].
Defined.

(* ===================================================================== *)
(** ** The provider's events behind their debounce *)
(* ===================================================================== *)



(** X21. A burst of disconnect events from the provider disconnects once:
    with no connect in flight the account is cleared, isConnected and
    connectionAttempts are reset, and a single notification names the mode
    (also when the session was not connected). *)
Theorem disconnect_burst_notifies_once (amb : Ambient) (events : list (unit * N))
    (ms : N) (w : World) :
  isConnecting (this w) = false ->
  Forall (fun c => (c.2 < 500)%N) events ->
  (500 <= ms)%N ->
  let o := deliver (fun _ => on_disconnect amb)
             (passed_on (debounce 500) None
                (burst events ++ [invoke tt; elapse ms])) w in
  value_of o = Some tt
  /\ this (world_of o)
     = set_connectionAttempts 0
         (set_isConnected false (set_account None (this w)))
  /\ notifications (new_events w o)
     = (if showNotification_defined amb
        then ["👋 " +:+ (if demoMode (this w) then "Demo wallet" else "Wallet")
              +:+ " disconnected"]
        else []).
Proof.
  intros Hc Hg Hms.
  rewrite (debounce_burst 500 events tt ms None Hg Hms).
  assert (Hrun : deliver (fun _ => on_disconnect amb) [tt] w
                 = Returned tt
                     (mkWorld
                        (set_connectionAttempts 0
                           (set_isConnected false (set_account None (this w))))
                        (ethereum w) (localStorage w)
                        (trace w ++
                         [Console log "🔌 MetaMask disconnected";
                          Console log "🔌 Handling disconnect...";
                          Console log "👋 Disconnecting wallet...";
                          UpdateUI false (if demoMode (this w)
                                          then "Connect Demo Wallet"
                                          else "Connect Wallet")] ++
                         (if showNotification_defined amb then
                            [ShowNotification
                               ("👋 " +:+ (if demoMode (this w) then "Demo wallet"
                                           else "Wallet") +:+ " disconnected")
                               "info" 5000]
                          else []))
                        (draws w))).
  { unfold deliver, on_disconnect, handleDisconnect.
    unfold bind at 1. unfold get_this at 1. rewrite Hc.
    cbn [negb]. unfold bind at 1. unfold emit at 1.
    unfold bind at 1. unfold get_this at 1.
    cbn [this ethereum localStorage trace draws]. rewrite Hc.
    unfold bind at 1. unfold emit at 1.
    cbn [this ethereum localStorage trace draws].
    rewrite disconnectWallet_spec.
    cbn [this ethereum localStorage trace draws]. rewrite Hc.
    unfold ret, world_of. rewrite <- !app_assoc. reflexivity. }
  cbv zeta. rewrite Hrun. cbn [value_of world_of this].
  split; [reflexivity|]. split; [reflexivity|].
  unfold new_events. cbn [world_of trace]. rewrite drop_app_length.
  destruct (showNotification_defined amb); reflexivity.
Qed.

Lemma disconnect_burst_notifies_once_witness :
  let o := deliver (fun _ => on_disconnect sample_ambient)
             (passed_on (debounce 500) None
                (burst [(tt, 10%N); (tt, 499%N)] ++ [invoke tt; elapse 700]))
             live_world in
  account (this (world_of o)) = None
  /\ notifications (new_events live_world o) = ["👋 Wallet disconnected"%string].
Proof.
  intros o.
  destruct (disconnect_burst_notifies_once sample_ambient
              [(tt, 10%N); (tt, 499%N)] 700 live_world)
    as (_ & H1 & H2).
  - reflexivity.
  - repeat constructor.
  - lia.
  - subst o. rewrite H1, H2. split; reflexivity.
Defined.

(* ===================================================================== *)
(** ** [UTILS.storage.remove] and [UTILS.storage.clear] *)
(* ===================================================================== *)

Lemma forEach_remove (keys : list string) (w : World) :
  exists st',
    forEach keys (fun key =>
       if String.prefix CONFIG.STORAGE_PREFIX key
       then localStorage_removeItem key
       else ret tt) w
    = Returned tt (mkWorld (this w) (ethereum w) st' (trace w) (draws w))
    /\ forall k,
         st' !! k = if String.prefix CONFIG.STORAGE_PREFIX k && bool_decide (k ∈ keys)
                    then None else localStorage w !! k.
Proof.
  revert w. induction keys as [|key keys IH]; intros w.
  - exists (localStorage w). split; [destruct w; reflexivity|].
    intros k. rewrite bool_decide_eq_false_2 by apply not_elem_of_nil.
    rewrite andb_false_r. reflexivity.
  - cbn [forEach]. unfold bind at 1.
    destruct (String.prefix CONFIG.STORAGE_PREFIX key) eqn:Hp.
    + unfold localStorage_removeItem at 1.
      destruct (IH (mkWorld (this w) (ethereum w) (delete key (localStorage w))
                            (trace w) (draws w))) as (st' & H & Hl).
      exists st'. split; [exact H|].
      intros k. rewrite Hl. cbn [localStorage].
      destruct (String.prefix CONFIG.STORAGE_PREFIX k) eqn:Hk; cbn [andb].
      * destruct (decide (k ∈ keys)) as [Hin|Hin].
        -- rewrite !bool_decide_eq_true_2; [reflexivity | right; exact Hin | exact Hin].
        -- rewrite (bool_decide_eq_false_2 _ Hin).
           destruct (decide (k = key)) as [->|Hne].
           ++ rewrite bool_decide_eq_true_2 by left. apply lookup_delete_eq.
           ++ rewrite bool_decide_eq_false_2.
              ** apply lookup_delete_ne. congruence.
              ** intros Hc. apply elem_of_cons in Hc as [?|?]; contradiction.
      * apply lookup_delete_ne. intros ->. congruence.
    + unfold ret at 1.
      destruct (IH w) as (st' & H & Hl).
      exists st'. split; [exact H|].
      intros k. rewrite Hl.
      destruct (String.prefix CONFIG.STORAGE_PREFIX k) eqn:Hk; cbn [andb]; [|reflexivity].
      destruct (decide (k ∈ keys)) as [Hin|Hin].
      * rewrite !bool_decide_eq_true_2; [reflexivity | right; exact Hin | exact Hin].
      * rewrite (bool_decide_eq_false_2 _ Hin).
        rewrite bool_decide_eq_false_2; [reflexivity|].
        intros Hc. apply elem_of_cons in Hc as [->|?]; [congruence | contradiction].
Qed.

Lemma storage_get_absent (key : string) (w : World) :
  localStorage w !! (CONFIG.STORAGE_PREFIX +:+ key) = None ->
  storage_get key w = Returned None w.
Proof.
  intros H. unfold storage_get, try_catch, bind.
  change (String.append CONFIG.STORAGE_PREFIX key)
    with (CONFIG.STORAGE_PREFIX +:+ key).
  rewrite H. reflexivity.
Qed.

Lemma prefix_append (p s : string) : String.prefix p (p +:+ s) = true.
Proof.
  induction p as [|c p IH]; [destruct s; reflexivity|].
  change (String c p +:+ s) with (String c (p +:+ s)).
  cbn [String.prefix]. destruct (Ascii.ascii_dec c c); [exact IH | contradiction].
Qed.

(** X22. UTILS.storage.clear() returns true and removes exactly the keys
    that start with campusfeedback_: afterwards UTILS.storage.get answers
    null for every key, and every other key of localStorage holds what it
    held. *)
Theorem storage_clear_scope (w : World) :
  let o := storage_clear w in
  value_of o = Some true
  /\ (forall key, storage_get key (world_of o) = Returned None (world_of o))
  /\ (forall k, String.prefix CONFIG.STORAGE_PREFIX k = false ->
        localStorage (world_of o) !! k = localStorage w !! k)
  /\ this (world_of o) = this w
  /\ new_events w o = [].
Proof.
  unfold storage_clear, try_catch. unfold bind at 1 2 3 4 5 6.
  unfold Object_keys.
  destruct (forEach_remove (map fst (map_to_list (localStorage w))) w)
    as (st' & H & Hl).
  cbv zeta. unfold bind. rewrite H. cbn [value_of world_of ret this localStorage].
  split; [reflexivity|]. split; [|split; [|split]].
  - intros key. apply storage_get_absent. cbn [localStorage].
    rewrite Hl, prefix_append. cbn [andb].
    destruct (localStorage w !! (CONFIG.STORAGE_PREFIX +:+ key)) as [it|] eqn:E.
    + rewrite bool_decide_eq_true_2; [reflexivity|].
      apply (list_elem_of_fmap_2' fst _ (CONFIG.STORAGE_PREFIX +:+ key, it));
        [|reflexivity].
      apply elem_of_map_to_list. exact E.
    + destruct (bool_decide _); reflexivity.
  - intros k Hk. rewrite Hl, Hk. reflexivity.
  - reflexivity.
  - unfold new_events. cbn [world_of trace]. apply drop_all.
Qed.

(** X23. UTILS.storage.remove(key) after UTILS.storage.set(key, value)
    returns true and leaves localStorage as it was without the key, whether
    or not the write had succeeded; UTILS.storage.get(key) then answers
    null. *)
Theorem storage_remove_undoes_set (amb : Ambient) (key : string) (value : Payload)
    (w : World) :
  let w1 := world_of (storage_set amb key value w) in
  let o := storage_remove key w1 in
  value_of o = Some true
  /\ storage_get key (world_of o) = Returned None (world_of o)
  /\ localStorage (world_of o)
     = delete (CONFIG.STORAGE_PREFIX +:+ key) (localStorage w).
Proof.
  cbv zeta. unfold storage_remove. unfold try_catch at 1 2 3.
  unfold bind at 1 2 3. unfold localStorage_removeItem, ret.
  cbn [value_of world_of localStorage].
  split; [reflexivity|]. split.
  - apply storage_get_absent. cbn [localStorage]. apply lookup_delete_eq.
  - destruct w as [m eth st tr d].
    unfold storage_set, localStorage_setItem. js_run.
    destruct (setItem_throws amb (S d)); js_run; [reflexivity|].
    apply delete_insert_eq.
Qed.

(* ===================================================================== *)
(** ** Text helpers *)
(* ===================================================================== *)

Lemma length_append (a b : string) :
  String.length (a +:+ b) = String.length a + String.length b.
Proof.
  induction a as [|c a IH]; [reflexivity|].
  change (String c a +:+ b) with (String c (a +:+ b)). cbn [String.length].
  rewrite IH. reflexivity.
Qed.

(** The first [n] characters of a string that has them. *)
Lemma substring_prefix (n : nat) (s : string) :
  n <= String.length s ->
  exists rest, s = String.substring 0 n s +:+ rest
               /\ String.length (String.substring 0 n s) = n.
Proof.
  revert s. induction n as [|n IH]; intros s H.
  - exists s. destruct s; split; reflexivity.
  - destruct s as [|c s]; [cbn in H; lia|].
    cbn [String.length] in H.
    destruct (IH s ltac:(lia)) as (rest & E & L).
    exists rest. cbn [String.substring]. split.
    + change (String c (String.substring 0 n s) +:+ rest)
        with (String c (String.substring 0 n s +:+ rest)).
      rewrite <- E. reflexivity.
    + cbn [String.length]. rewrite L. reflexivity.
Qed.

Lemma substring_of_append (a b : string) :
  String.substring 0 (String.length a) (a +:+ b) = a.
Proof.
  induction a as [|c a IH]; [destruct b; reflexivity|].
  change (String c a +:+ b) with (String c (a +:+ b)).
  cbn [String.length String.substring]. rewrite IH. reflexivity.
Qed.

Lemma lastIndexOf_split (c : ascii) (s : string) (i : nat) :
  lastIndexOf c s = Some i ->
  exists pre post, s = pre +:+ String c post /\ String.length pre = i.
Proof.
  revert i. induction s as [|a s IH]; intros i H; [discriminate|].
  cbn [lastIndexOf] in H.
  destruct (lastIndexOf c s) as [j|].
  - injection H as <-. destruct (IH j eq_refl) as (pre & post & -> & L).
    exists (String a pre), post. split; [reflexivity|].
    cbn [String.length]. rewrite L. reflexivity.
  - destruct (Ascii.eqb_spec a c) as [->|]; [|discriminate].
    injection H as <-. exists EmptyString, s. split; reflexivity.
Qed.

Lemma append_assoc (a b c : string) : (a +:+ b) +:+ c = a +:+ (b +:+ c).
Proof.
  induction a as [|x a IH]; [reflexivity|].
  change (String x a +:+ b) with (String x (a +:+ b)).
  change (String x (a +:+ b) +:+ c) with (String x ((a +:+ b) +:+ c)).
  rewrite IH. reflexivity.
Qed.

Lemma substr_prefix (text : string) (n : nat) :
  n <= String.length text ->
  exists rest, text = JS.substr text 0 n +:+ rest
               /\ String.length (JS.substr text 0 n) = n.
Proof.
  intros H. unfold JS.substr. rewrite Nat.sub_0_r, Nat.min_l by exact H.
  apply substring_prefix. exact H.
Qed.

(** What [truncateText] keeps of a text longer than [maxLength]. *)
Lemma truncateText_kept (text : string) (maxLength : option nat)
    (useWordBreak : option bool) :
  default 100 maxLength < String.length text ->
  exists kept rest,
    text = kept +:+ rest
    /\ truncateText (Some text) maxLength useWordBreak = kept +:+ "..."
    /\ (String.length kept = default 100 maxLength
        \/ (default true useWordBreak = true
            /\ String.length kept < default 100 maxLength
            /\ exists rest', rest = String " " rest')).
Proof.
  unfold truncateText.
  generalize (default 100 maxLength) as n.
  generalize (default true useWordBreak) as wb.
  clear maxLength useWordBreak. intros wb n H. cbv zeta.
  destruct (substr_prefix text n ltac:(lia)) as (rest & E & L).
  assert (Hplain : exists kept rest,
            text = kept +:+ rest
            /\ JS.substr text 0 n +:+ "..." = kept +:+ "..."
            /\ (String.length kept = n
                \/ (wb = true /\ String.length kept < n
                    /\ exists rest', rest = String " " rest'))).
  { exists (JS.substr text 0 n), rest. split; [exact E|].
    split; [reflexivity|]. left. exact L. }
  destruct text as [|c0 text0] eqn:Et; [cbn in H; lia|]. rewrite <- Et in *.
  destruct (Nat.leb_spec (String.length text) n) as [Hle|_]; [lia|].
  destruct wb; [|exact Hplain].
  destruct (lastIndexOf " " (JS.substr text 0 n)) as [i|] eqn:Hi;
    [|exact Hplain].
  destruct (_ <? _)%float; [|exact Hplain].
  destruct (lastIndexOf_split _ _ _ Hi) as (pre & post & Hs & Lp).
  exists pre, (String " " (post +:+ rest)). split; [|split].
  - rewrite E at 1. rewrite Hs. rewrite append_assoc. reflexivity.
  - f_equal. unfold JS.substr at 1. rewrite Nat.sub_0_r.
    assert (Hlen : i <= String.length (JS.substr text 0 n)).
    { rewrite Hs, length_append, Lp. lia. }
    rewrite Nat.min_l by exact Hlen.
    rewrite Hs, <- Lp. apply substring_of_append.
  - right. split; [reflexivity|]. split.
    + rewrite <- L, Hs, length_append. cbn [String.length]. lia.
    + eexists. reflexivity.
Qed.

(** X24. UTILS.truncateText of a text longer than maxLength (100 by default)
    is a prefix of the text followed by three dots: the first maxLength
    characters, or with word breaking possibly fewer, and then the cut falls
    right before a space. *)
Theorem truncateText_shape (text : string) (maxLength : option nat)
    (useWordBreak : option bool) :
  default 100 maxLength < String.length text ->
  exists kept rest,
    text = kept +:+ rest
    /\ truncateText (Some text) maxLength useWordBreak = kept +:+ "..."
    /\ (String.length kept = default 100 maxLength
        \/ (default true useWordBreak = true
            /\ String.length kept < default 100 maxLength
            /\ exists rest', rest = String " " rest')).
Proof.
  intros H.
  destruct (truncateText_kept text maxLength useWordBreak H)
    as (kept & rest & H1 & H2 & H3).
  exists kept, rest. auto.
Qed.

Lemma truncateText_shape_witness :
  truncateText (Some "Cafeteria food is cold today") (Some 17) None
  = "Cafeteria food..."
  /\ truncateText (Some "Cafeteria food is cold today") (Some 17) (Some false)
     = "Cafeteria food is..."
  /\ truncateText (Some "The library closes too early") (Some 17) None
     = "The library close..."
  /\ exists kept rest,
       "Cafeteria food is cold today" = kept +:+ rest
       /\ truncateText (Some "Cafeteria food is cold today") (Some 17) None
          = kept +:+ "...".
Proof.
  split; [vm_compute; reflexivity|]. split; [vm_compute; reflexivity|].
  split; [vm_compute; reflexivity|].
  destruct (truncateText_shape "Cafeteria food is cold today" (Some 17) None)
    as (kept & rest & H1 & H2 & _).
  - vm_compute. lia.
  - exists kept, rest. split; assumption.
Defined.

(** X25. UTILS.truncateText never returns more than maxLength + 3
    characters, and returns a text of at most maxLength characters
    unchanged. *)
Theorem truncateText_length (text : option string) (maxLength : option nat)
    (useWordBreak : option bool) :
  String.length (truncateText text maxLength useWordBreak)
  <= default 100 maxLength + 3
  /\ (forall t, text = Some t -> String.length t <= default 100 maxLength ->
        truncateText text maxLength useWordBreak = t).
Proof.
  split.
  - destruct text as [t|]; [|cbn; lia].
    destruct (Nat.le_gt_cases (String.length t) (default 100 maxLength))
      as [Hle|Hgt].
    + unfold truncateText. cbv zeta. destruct t as [|c t]; [cbn; lia|].
      destruct (Nat.leb_spec (String.length (String c t)) (default 100 maxLength));
        lia.
    + destruct (truncateText_kept t maxLength useWordBreak Hgt)
        as (kept & rest & _ & -> & [L|(_ & L & _)]);
        rewrite length_append; cbn [String.length]; lia.
  - intros t -> Hle. unfold truncateText. cbv zeta.
    destruct t as [|c t]; [reflexivity|].
    destruct (Nat.leb_spec (String.length (String c t)) (default 100 maxLength));
      [reflexivity|lia].
Qed.

(** X26. For an address UTILS.blockchain.isValidAddress accepts,
    formatAddress gives 13 characters: the first six (starting 0x), three
    dots and the last four; formatTxHash keeps the first ten and the last
    eight. *)
Theorem formatAddress_valid (address : string) :
  isValidAddress (Some address) = true ->
  formatAddress (Some address)
  = String.substring 0 6 address +:+ "..." +:+ String.substring 38 4 address
  /\ String.length (formatAddress (Some address)) = 13
  /\ String.prefix "0x" (formatAddress (Some address)) = true
  /\ formatTxHash (Some address)
     = String.substring 0 10 address +:+ "..." +:+ String.substring 34 8 address.
Proof.
  unfold isValidAddress.
  destruct address as [|c0 address]; [discriminate|].
  destruct c0 as [[] [] [] [] [] [] [] []]; try discriminate.
  destruct address as [|c1 digits]; [discriminate|].
  destruct c1 as [[] [] [] [] [] [] [] []]; try discriminate.
  intros H. apply andb_prop in H as [H _]. apply Nat.eqb_eq in H.
  do 40 (destruct digits as [|? digits]; [discriminate H|]).
  destruct digits; [|discriminate H].
  repeat split.
Qed.

Lemma formatAddress_valid_witness :
  formatAddress (Some live_account) = "0xABCD...EF01"
  /\ String.length (formatAddress (Some live_account)) = 13.
Proof.
  destruct (formatAddress_valid live_account eq_refl) as (H1 & H2 & _).
  split; [rewrite H1; reflexivity | exact H2].
Defined.

(* ===================================================================== *)
(** ** The cache and the dates *)
(* ===================================================================== *)

(** X27. UTILS.cache: get(key) after set(key, value, ttl) answers the value
    while Date.now() is below the time of the set plus ttl (5 minutes by
    default) and leaves the cache alone; from then on it answers null and
    deletes the entry; other keys are answered as before. *)
Theorem cache_round_trip {V} (now later : Z) (key : string) (v : V)
    (ttl : option Z) (data : gmap string (Cache.Item V)) :
  key <> "" ->
  let stored := (Cache.set now key v ttl data).2 in
  (Cache.set now key v ttl data).1 = true
  /\ Cache.get later key stored
     = (if (later <? now + default 300000 ttl)%Z
        then (Some v, stored)
        else (None, delete key data))
  /\ (forall other, other <> key -> other <> "" ->
        (Cache.get later other stored).1 = (Cache.get later other data).1).
Proof.
  intros Hk. cbv zeta. unfold Cache.set, Cache.get.
  destruct (decide (key = "")) as [E|_]; [contradiction|].
  cbn [fst snd]. split; [reflexivity|]. split.
  - rewrite lookup_insert_eq. cbn [Cache.expiry Cache.value].
    destruct (later <? now + default 300000 ttl)%Z; [reflexivity|].
    rewrite delete_insert_eq. reflexivity.
  - intros other Hne Hoe.
    destruct (decide (other = "")) as [E|_]; [contradiction|].
    rewrite lookup_insert_ne by congruence.
    destruct (data !! other) as [item|]; [|reflexivity].
    destruct (later <? Cache.expiry item)%Z; reflexivity.
Qed.

Lemma cache_round_trip_witness :
  (Cache.get 1700000299999 "stats"
     (Cache.set 1700000000000 "stats" 7%N None ∅).2).1 = Some 7%N
  /\ Cache.get 1700000300000 "stats"
       (Cache.set 1700000000000 "stats" 7%N None ∅).2 = (None, ∅).
Proof.
  destruct (cache_round_trip 1700000000000 1700000299999 "stats" 7%N None ∅)
    as (_ & H1 & _); [discriminate|].
  destruct (cache_round_trip 1700000000000 1700000300000 "stats" 7%N None ∅)
    as (_ & H2 & _); [discriminate|].
  split; [rewrite H1; reflexivity | rewrite H2; reflexivity].
Defined.

(** X28. UTILS.formatDate in its default relative format answers Just now
    below one minute (also for dates in the future), a count of 1..59
    minutes, 1..23 hours or 1..6 days with the unit in the singular exactly
    for 1, and the locale's date from one week on. *)
Theorem formatDate_relative (locale : Locale) (now date : Z) :
  let diff := (now - date)%Z in
  let shown := formatDate locale now (Some date) None in
  (diff < 60000 /\ shown = inl "Just now")%Z
  \/ (exists count unit,
        shown = inl (JS.digits (Z.to_N count) +:+ " " +:+ unit +:+
                     (if (count =? 1)%Z then "" else "s") +:+ " ago")
        /\ ((unit = "minute" /\ count = diff / 60000 /\ 1 <= count <= 59)
            \/ (unit = "hour" /\ count = diff / 3600000 /\ 1 <= count <= 23)
            \/ (unit = "day" /\ count = diff / 86400000 /\ 1 <= count <= 6)))%Z
  \/ (604800000 <= diff /\ shown = inl (toLocaleDateString locale (Some date)))%Z.
Proof.
  cbv zeta. unfold formatDate. cbn [default from_option id].
  destruct (decide ("relative" = "relative")) as [_|N]; [|contradiction].
  destruct (Z.ltb_spec (now - date) 60000) as [H1|H1]; [left; auto|].
  right.
  assert (Hago : forall count unit, (1 <= count)%Z ->
            ago count unit
            = JS.digits (Z.to_N count) +:+ " " +:+ unit +:+
              (if (count =? 1)%Z then "" else "s") +:+ " ago").
  { intros count unit Hc. unfold ago.
    destruct (Z.ltb_spec 1 count), (Z.eqb_spec count 1); try lia; reflexivity. }
  destruct (Z.ltb_spec (now - date) 3600000) as [H2|H2].
  { left. exists ((now - date) / 60000)%Z, "minute".
    assert (1 <= (now - date) / 60000 <= 59)%Z.
    { split; [apply Z.div_le_lower_bound; lia|].
      apply Z.lt_succ_r. apply Z.div_lt_upper_bound; lia. }
    split; [rewrite Hago by lia; reflexivity|]. left. auto. }
  destruct (Z.ltb_spec (now - date) 86400000) as [H3|H3].
  { left. exists ((now - date) / 3600000)%Z, "hour".
    assert (1 <= (now - date) / 3600000 <= 23)%Z.
    { split; [apply Z.div_le_lower_bound; lia|].
      apply Z.lt_succ_r. apply Z.div_lt_upper_bound; lia. }
    split; [rewrite Hago by lia; reflexivity|]. right. left. auto. }
  destruct (Z.ltb_spec (now - date) 604800000) as [H4|H4].
  { left. exists ((now - date) / 86400000)%Z, "day".
    assert (1 <= (now - date) / 86400000 <= 6)%Z.
    { split; [apply Z.div_le_lower_bound; lia|].
      apply Z.lt_succ_r. apply Z.div_lt_upper_bound; lia. }
    split; [rewrite Hago by lia; reflexivity|]. right. right. auto. }
  right. auto.
Qed.

(** X29. UTILS.formatDate throws exactly when the date is invalid and the
    format is none of relative, full, date and time (the branch that calls
    toISOString). *)
Theorem formatDate_throws_iff (locale : Locale) (now : Z) (timestamp : option Z)
    (format : option string) :
  (exists e, formatDate locale now timestamp format = inr e)
  <-> timestamp = None
      /\ exists f, format = Some f
                   /\ ~ In f ["relative"; "full"; "date"; "time"].
Proof.
  unfold formatDate. split.
  - intros (e & H).
    destruct format as [f|]; cbn [default from_option id] in H.
    + destruct (decide (f = "relative")) as [->|N1].
      { destruct timestamp as [d|]; [|discriminate].
        repeat (destruct (_ <? _)%Z; [discriminate|]). discriminate. }
      destruct (decide (f = "full")) as [->|N2]; [discriminate|].
      destruct (decide (f = "date")) as [->|N3]; [discriminate|].
      destruct (decide (f = "time")) as [->|N4]; [discriminate|].
      destruct timestamp as [d|]; [discriminate|].
      split; [reflexivity|]. exists f. split; [reflexivity|].
      cbn [In]. intuition congruence.
    + destruct (decide ("relative" = "relative")) as [_|N]; [|contradiction].
      destruct timestamp as [d|]; [|discriminate].
      repeat (destruct (_ <? _)%Z; [discriminate|]). discriminate.
  - intros (-> & f & -> & Hf). cbn [default from_option id]. cbn [In] in Hf.
    destruct (decide (f = "relative")) as [->|N1]; [exfalso; auto|].
    destruct (decide (f = "full")) as [->|N2]; [exfalso; auto|].
    destruct (decide (f = "date")) as [->|N3]; [exfalso; auto|].
    destruct (decide (f = "time")) as [->|N4]; [exfalso; auto 6|].
    eexists. reflexivity.
Qed.

(* ===================================================================== *)
(** ** The feedback form *)
(* ===================================================================== *)

(** X30. validateFeedbackData accepts exactly the forms with a category, a
    title of at least 5 and a content of at least 10 characters and a rating
    other than 0, silently; any other form is refused with one warning
    notification (when showNotification is loaded) and nothing else changes. *)
Theorem validateFeedbackData_accepts (amb : Ambient) (data : FeedbackData)
    (w : World) :
  let o := validateFeedbackData amb data w in
  let ok := category data <> ""
            /\ 5 <= String.length (title data)
            /\ 10 <= String.length (content data)
            /\ rating data <> 0%Z in
  (ok -> o = Returned true w)
  /\ (~ ok ->
      value_of o = Some false
      /\ this (world_of o) = this w
      /\ localStorage (world_of o) = localStorage w
      /\ exists text,
           String.prefix "Please fix the form errors: " text = true
           /\ new_events w o
              = if showNotification_defined amb
                then [ShowNotification text "warning" 5000] else []).
Proof.
  cbv zeta. unfold validateFeedbackData, feedback_errors.
  destruct data as [cat ti co ra an]. cbn [category title content rating].
  split.
  - intros (H1 & H2 & H3 & H4).
    destruct (decide (cat = "")) as [E|_]; [contradiction|].
    destruct (bool_decide_reflect (ti = "")) as [->|_]; [cbn in H2; lia|].
    destruct (bool_decide_reflect (co = "")) as [->|_]; [cbn in H3; lia|].
    destruct (Nat.ltb_spec (String.length ti) 5); [lia|].
    destruct (Nat.ltb_spec (String.length co) 10); [lia|].
    destruct (Z.eqb_spec ra 0); [contradiction|]. reflexivity.
  - intros Hn.
    match goal with |- context [(0 <? length ?l)%nat] => set (errors := l) end.
    assert (He : (0 <? length errors)%nat = true).
    { apply Nat.ltb_lt. subst errors.
      destruct (decide (cat = "")) as [E|N1]; [cbn; lia|].
      destruct (bool_decide_reflect (ti = "")) as [E|N2]; [cbn; lia|].
      destruct (Nat.ltb_spec (String.length ti) 5); [cbn; lia|].
      destruct (bool_decide_reflect (co = "")) as [E|N3]; [cbn; lia|].
      destruct (Nat.ltb_spec (String.length co) 10); [cbn; lia|].
      destruct (Z.eqb_spec ra 0); [cbn; lia|].
      exfalso. apply Hn. auto. }
    rewrite He. destruct w as [m eth st tr d].
    unfold showNotification, when, bind, ret, emit, new_events.
    destruct (showNotification_defined amb);
      cbn [value_of world_of this localStorage trace];
      repeat split;
      exists ("Please fix the form errors: " +:+ join ", " errors);
      (split; [apply prefix_append|]);
      first [apply drop_app_length | apply drop_all].
Qed.
